(** * Incremental contribution-statistics aggregation (main.py)

    A shallow embedding of the ledger cache, the paginated commit-history
    reducer, the retry and partial-failure handling and the archive merge
    of [main.py], together with the properties of its specification.

    Conventions of the embedding.
    - Python [str] values are [string]s of bytes (ASCII text); [int]s are [Z].
      [str.split()], [int(...)] and [str(...)] are modelled on ASCII
      whitespace and decimal literals.
    - A text file is its raw content; [readlines] and [writelines] are
      modelled on that content (POSIX line separator, universal newlines
      on reading).  The directory [cache/] exists.
    - The process state (files, the log of HTTP posts, the log of sleeps,
      the [QUERY_COUNT] dictionary) is threaded explicitly through a small
      state-and-exception monad; a raised exception keeps the state reached
      when it was raised.
    - The remote API is an oracle [remote : nat -> Request -> Response]
      giving the answer to the [n]-th post of the run.  Every post is
      answered: exceptions of the transport are not modelled.  An answer
      with status 200 has the shape of the GraphQL query, with [None] where
      the program tests for it ([defaultBranchRef], [author.user]).
    - [hashlib.sha256] is SHA-256 itself, so that keys and file names are
      the ones of the program.
    - The two recursive functions ([recursive_loc], [loc_query]) take a
      fuel argument; running out of fuel is the distinguished outcome
      [OutOfFuel], which is not a Python exception.  The lists [data] and
      [cache_comment] that [cache_builder] shares with [recursive_loc] are
      passed as they stand at the call: the caller does not change them
      while the call runs. *)

From Stdlib Require Import ZArith String Ascii List Lia Bool DecimalString DecimalZ.
From stdpp Require Import base option list gmap strings.

Local Open Scope Z_scope.
Local Open Scope string_scope.

(** String concatenation computes on literals. *)
Arguments String.append !s1 s2 : simpl nomatch.

(** ** Python strings *)

Module PyStr.

Definition LF : ascii := "010"%char.
Definition CR : ascii := "013"%char.

(** [str.isspace] on one ASCII character: tab, newline, vertical tab, form
    feed, carriage return, the four separators 0x1c-0x1f and the space. *)
Definition is_space (c : ascii) : bool :=
  let n := nat_of_ascii c in
  ((9 <=? n)%nat && (n <=? 13)%nat) || ((28 <=? n)%nat && (n <=? 32)%nat).

Fixpoint all_chars (p : ascii -> bool) (s : string) : bool :=
  match s with
  | EmptyString => true
  | String c r => p c && all_chars p r
  end.

Definition nonempty (s : string) : bool :=
  match s with EmptyString => false | String _ _ => true end.

(** A token: a non-empty string without whitespace. *)
Definition is_token (s : string) : bool :=
  nonempty s && all_chars (fun c => negb (is_space c)) s.

(** Cutting at every whitespace character; the head of the result is the
    piece in progress. *)
Fixpoint pieces (s : string) : list string :=
  match s with
  | EmptyString => [EmptyString]
  | String c r =>
      if is_space c then EmptyString :: pieces r
      else match pieces r with
           | t :: ts => String c t :: ts
           | [] => [String c EmptyString]
           end
  end.

(** [s.split()]: the maximal whitespace-free runs of [s]. *)
Definition split (s : string) : list string := List.filter nonempty (pieces s).

(** Cutting at every occurrence of one separator character. *)
Fixpoint pieces_at (sep : ascii) (s : string) : list string :=
  match s with
  | EmptyString => [EmptyString]
  | String c r =>
      if Ascii.eqb c sep then EmptyString :: pieces_at sep r
      else match pieces_at sep r with
           | t :: ts => String c t :: ts
           | [] => [String c EmptyString]
           end
  end.

(** [s.split("/")]. *)
Definition split_slash (s : string) : list string := pieces_at "/"%char s.

(** [s[:-1]]: all but the last character ([""] stays [""]). *)
Fixpoint drop_last (s : string) : string :=
  match s with
  | EmptyString => EmptyString
  | String c EmptyString => EmptyString
  | String c r => String c (drop_last r)
  end.

(** [str(z)] for an [int]. *)
Definition str (z : Z) : string := NilZero.string_of_int (Z.to_int z).

Definition is_digit (c : ascii) : bool :=
  let n := nat_of_ascii c in (48 <=? n)%nat && (n <=? 57)%nat.

(** The digits of an integer literal, single underscores between digits
    removed; [None] when the literal is not well formed.  [seen] tells
    whether the previous character was a digit. *)
Fixpoint digits_of (seen : bool) (s : string) : option string :=
  match s with
  | EmptyString => if seen then Some EmptyString else None
  | String c r =>
      if is_digit c then option_map (String c) (digits_of true r)
      else if Ascii.eqb c "_" && seen then digits_of false r
      else None
  end.

Definition unsigned_of (s : string) : option Z :=
  match digits_of false s with
  | Some ds => option_map Z.of_uint (NilEmpty.uint_of_string ds)
  | None => None
  end.

(** [int(s)] for a token [s] (no surrounding whitespace): an optional
    sign followed by decimal digits; [None] stands for [ValueError]. *)
Definition int (s : string) : option Z :=
  match s with
  | String "+" r => unsigned_of r
  | String "-" r => option_map Z.opp (unsigned_of r)
  | _ => unsigned_of s
  end.

(** Universal newlines on reading: CR LF and a lone CR both become LF. *)
Fixpoint universal_newlines (s : string) : string :=
  match s with
  | EmptyString => EmptyString
  | String c r =>
      if Ascii.eqb c CR then
        String LF
          match r with
          | String c' r' =>
              if Ascii.eqb c' LF then universal_newlines r' else universal_newlines r
          | EmptyString => EmptyString
          end
      else String c (universal_newlines r)
  end.

(** Cutting after every LF, the terminator kept on its line. *)
Fixpoint lines_of (s : string) : list string :=
  match s with
  | EmptyString => []
  | String c r =>
      if Ascii.eqb c LF then String c EmptyString :: lines_of r
      else match lines_of r with
           | l :: ls => String c l :: ls
           | [] => [String c EmptyString]
           end
  end.

(** [f.readlines()] on a file opened with mode ["r"]. *)
Definition readlines (content : string) : list string :=
  lines_of (universal_newlines content).

(** What [f.writelines(ls)] appends to the file. *)
Definition writelines (ls : list string) : string :=
  fold_right String.append EmptyString ls.

End PyStr.

(** ** SHA-256 ([hashlib.sha256(...).hexdigest()]) *)

Module Sha256.

Definition mask32 : Z := 4294967295.
Definition add32 (a b : Z) : Z := Z.land (a + b) mask32.
Definition rotr (n x : Z) : Z :=
  Z.lor (Z.shiftr x n) (Z.land (Z.shiftl x (32 - n)) mask32).
Definition not32 (x : Z) : Z := Z.lxor x mask32.

Definition ch (e f g : Z) : Z := Z.lxor (Z.land e f) (Z.land (not32 e) g).
Definition maj (a b c : Z) : Z :=
  Z.lxor (Z.lxor (Z.land a b) (Z.land a c)) (Z.land b c).
Definition bsig0 (x : Z) : Z := Z.lxor (Z.lxor (rotr 2 x) (rotr 13 x)) (rotr 22 x).
Definition bsig1 (x : Z) : Z := Z.lxor (Z.lxor (rotr 6 x) (rotr 11 x)) (rotr 25 x).
Definition ssig0 (x : Z) : Z := Z.lxor (Z.lxor (rotr 7 x) (rotr 18 x)) (Z.shiftr x 3).
Definition ssig1 (x : Z) : Z := Z.lxor (Z.lxor (rotr 17 x) (rotr 19 x)) (Z.shiftr x 10).

Definition state : Type := Z * Z * Z * Z * Z * Z * Z * Z.

Definition H0 : state :=
  (1779033703, 3144134277, 1013904242, 2773480762,
   1359893119, 2600822924, 528734635, 1541459225).

Definition K : list Z :=
  [1116352408; 1899447441; 3049323471; 3921009573; 961987163; 1508970993;
   2453635748; 2870763221; 3624381080; 310598401; 607225278; 1426881987;
   1925078388; 2162078206; 2614888103; 3248222580; 3835390401; 4022224774;
   264347078; 604807628; 770255983; 1249150122; 1555081692; 1996064986;
   2554220882; 2821834349; 2952996808; 3210313671; 3336571891; 3584528711;
   113926993; 338241895; 666307205; 773529912; 1294757372; 1396182291;
   1695183700; 1986661051; 2177026350; 2456956037; 2730485921; 2820302411;
   3259730800; 3345764771; 3516065817; 3600352804; 4094571909; 275423344;
   430227734; 506948616; 659060556; 883997877; 958139571; 1322822218;
   1537002063; 1747873779; 1955562222; 2024104815; 2227730452; 2361852424;
   2428436474; 2756734187; 3204031479; 3329325298].

Fixpoint bytes_of (s : string) : list Z :=
  match s with
  | EmptyString => []
  | String c r => Z.of_nat (nat_of_ascii c) :: bytes_of r
  end.

(** Big-endian bytes of [x], [n] of them. *)
Fixpoint be_bytes (n : nat) (x : Z) : list Z :=
  match n with
  | O => []
  | S n' => Z.land (Z.shiftr x (8 * Z.of_nat n')) 255 :: be_bytes n' x
  end.

(** The message followed by 0x80, zero bytes up to 56 modulo 64, and the
    bit length on eight bytes. *)
Definition pad (msg : list Z) : list Z :=
  let len := Z.of_nat (length msg) in
  let zeros := Z.to_nat ((55 - len) mod 64) in
  msg ++ 128 :: repeat 0 zeros ++ be_bytes 8 (8 * len).

Fixpoint words_of (fuel : nat) (bs : list Z) : list Z :=
  match fuel, bs with
  | S fuel', b0 :: b1 :: b2 :: b3 :: rest =>
      (Z.shiftl b0 24 + Z.shiftl b1 16 + Z.shiftl b2 8 + b3) :: words_of fuel' rest
  | _, _ => []
  end.

(** The message schedule, most recent word first. *)
Fixpoint extend (n : nat) (w : list Z) : list Z :=
  match n with
  | O => w
  | S n' =>
      let x := add32 (add32 (ssig1 (nth 1 w 0)) (nth 6 w 0))
                     (add32 (ssig0 (nth 14 w 0)) (nth 15 w 0)) in
      extend n' (x :: w)
  end.

Definition round (st : state) (kw : Z * Z) : state :=
  let '(a, b, c, d, e, f, g, h) := st in
  let t1 := add32 (add32 (add32 h (bsig1 e)) (add32 (ch e f g) (fst kw))) (snd kw) in
  let t2 := add32 (bsig0 a) (maj a b c) in
  (add32 t1 t2, a, b, c, add32 d t1, e, f, g).

Definition compress (st : state) (block : list Z) : state :=
  let w := rev (extend 48 (rev block)) in
  let '(a, b, c, d, e, f, g, h) := fold_left round (combine K w) st in
  let '(a0, b0, c0, d0, e0, f0, g0, h0) := st in
  (add32 a0 a, add32 b0 b, add32 c0 c, add32 d0 d,
   add32 e0 e, add32 f0 f, add32 g0 g, add32 h0 h).

Fixpoint blocks (fuel : nat) (st : state) (ws : list Z) : state :=
  match fuel, ws with
  | S fuel', _ :: _ => blocks fuel' (compress st (firstn 16 ws)) (skipn 16 ws)
  | _, _ => st
  end.

Definition digest (s : string) : state :=
  let bs := pad (bytes_of s) in
  let ws := words_of (length bs) bs in
  blocks (length ws) H0 ws.

Definition hexchars : list ascii :=
  ["0"; "1"; "2"; "3"; "4"; "5"; "6"; "7"; "8"; "9"; "a"; "b"; "c"; "d"; "e"; "f"]%char.

Definition hexdigit (x : Z) : ascii :=
  nth (Z.to_nat (Z.land x 15)) hexchars "0"%char.

Definition hex8 (x : Z) (tail : string) : string :=
  String (hexdigit (Z.shiftr x 28)) (String (hexdigit (Z.shiftr x 24))
 (String (hexdigit (Z.shiftr x 20)) (String (hexdigit (Z.shiftr x 16))
 (String (hexdigit (Z.shiftr x 12)) (String (hexdigit (Z.shiftr x 8))
 (String (hexdigit (Z.shiftr x 4)) (String (hexdigit x) tail))))))).

(** [hashlib.sha256(s.encode("utf-8")).hexdigest()]. *)
Definition hexdigest (s : string) : string :=
  let '(a, b, c, d, e, f, g, h) := digest s in
  hex8 a (hex8 b (hex8 c (hex8 d (hex8 e (hex8 f (hex8 g (hex8 h EmptyString))))))).

End Sha256.

Arguments Sha256.digest : simpl never.
Arguments Sha256.hexdigest : simpl never.

(** ** The remote API *)

(** The two GraphQL queries of the aggregation engine, with their variables. *)
Inductive Request : Type :=
  | HistoryPage (owner repo_name : string) (cursor : option string)
  | ReposPage (owner_affiliation : list string) (login : string) (cursor : option string).

Record PageInfo : Type := mkPageInfo {
  endCursor : option string;
  hasNextPage : bool
}.

(** One commit of a history page: [node.author.user] is [None] or [{"id": s}]. *)
Record CommitNode : Type := mkCommit {
  author_user : option string;
  additions : Z;
  deletions : Z
}.

Record History : Type := mkHistory {
  history_edges : list CommitNode;
  history_pageInfo : PageInfo
}.

(** One enumerated repository: [node.defaultBranchRef] is [None] for an empty
    repository, and carries [target.history.totalCount] otherwise. *)
Record RepoEdge : Type := mkRepo {
  nameWithOwner : string;
  defaultBranchRef : option Z
}.

Inductive Payload : Type :=
  | HistoryData (branch : option History)
  | ReposData (edges : list RepoEdge) (pageInfo : PageInfo).

Record Response : Type := mkResponse {
  status_code : Z;
  json : Payload
}.

(** ** Process state, exceptions and the monad *)

Inductive exn : Type :=
  | TypeError
  | ValueError
  | IndexError
  | KeyError
  | FileNotFoundError
  | RateLimited
  | RequestFailed (func_name : string) (status : Z).

Inductive outcome (A : Type) : Type :=
  | Ok (a : A)
  | Raise (e : exn)
  | OutOfFuel.
Arguments Ok {A} a.
Arguments Raise {A} e.
Arguments OutOfFuel {A}.

Record World : Type := mkWorld {
  files : gmap string string;
  posts : list Request;
  sleeps : list Z;
  QUERY_COUNT : gmap string Z
}.

Definition M (A : Type) : Type := World -> outcome A * World.

Definition ret {A} (a : A) : M A := fun w => (Ok a, w).

Definition bind {A B} (m : M A) (k : A -> M B) : M B :=
  fun w =>
    match m w with
    | (Ok a, w') => k a w'
    | (Raise e, w') => (Raise e, w')
    | (OutOfFuel, w') => (OutOfFuel, w')
    end.

Definition raise {A} (e : exn) : M A := fun w => (Raise e, w).

Definition out_of_fuel {A} : M A := fun w => (OutOfFuel, w).

(** [try: body  except <caught>: handler]. *)
Definition try_except {A} (body : M A) (caught : exn -> bool) (handler : M A) : M A :=
  fun w =>
    match body w with
    | (Raise e, w') => if caught e then handler w' else (Raise e, w')
    | r => r
    end.

Declare Scope py_scope.
Delimit Scope py_scope with py.
Notation "x <- m ;; k" := (bind m (fun x => k))
  (at level 100, m at next level, right associativity) : py_scope.
Notation "m ;; k" := (bind m (fun _ => k))
  (at level 100, right associativity) : py_scope.
Local Open Scope py_scope.

Definition is_TypeError (e : exn) : bool :=
  match e with TypeError => true | _ => false end.
Definition is_FileNotFoundError (e : exn) : bool :=
  match e with FileNotFoundError => true | _ => false end.
(** Every exception of the model derives from [Exception]. *)
Definition is_Exception (e : exn) : bool := true.

(** The elementary changes of the process state. *)
Definition with_file (filename content : string) (w : World) : World :=
  mkWorld (<[filename := content]> (files w)) (posts w) (sleeps w) (QUERY_COUNT w).
Definition with_post (req : Request) (w : World) : World :=
  mkWorld (files w) (posts w ++ [req]) (sleeps w) (QUERY_COUNT w).
Definition with_sleep (delay : Z) (w : World) : World :=
  mkWorld (files w) (posts w) (sleeps w ++ [delay]) (QUERY_COUNT w).
Definition with_count (funct_id : string) (w : World) : World :=
  mkWorld (files w) (posts w) (sleeps w)
    (<[funct_id := default 0 (QUERY_COUNT w !! funct_id) + 1]> (QUERY_COUNT w)).

(** [with open(filename, "r") as f: f.readlines()]. *)
Definition open_read (filename : string) : M (list string) :=
  fun w =>
    match files w !! filename with
    | Some content => (Ok (PyStr.readlines content), w)
    | None => (Raise FileNotFoundError, w)
    end.

(** [with open(filename, "w") as f:] followed by writes whose concatenation
    is [content]. *)
Definition open_write (filename content : string) : M unit :=
  fun w => (Ok tt, with_file filename content w).

(** [time.sleep(delay)]. *)
Definition sleep (delay : Z) : M unit :=
  fun w => (Ok tt, with_sleep delay w).

(** [QUERY_COUNT[funct_id] += 1]; every key used is in the initial dictionary. *)
Definition query_count (funct_id : string) : M unit :=
  fun w => (Ok tt, with_count funct_id w).

(** [l[i]] and [l[i] = v] on a Python list. *)
Definition getitem {A} (l : list A) (i : nat) : M A :=
  match l !! i with
  | Some x => ret x
  | None => raise IndexError
  end.

Definition setitem {A} (l : list A) (i : nat) (v : A) : M (list A) :=
  if (i <? length l)%nat then ret (<[i := v]> l) else raise IndexError.

(** [int(s)]. *)
Definition py_int (s : string) : M Z :=
  match PyStr.int s with
  | Some z => ret z
  | None => raise ValueError
  end.

Definition nl : string := String PyStr.LF EmptyString.

Definition MAX_RETRIES : Z := 3.
Definition RETRY_DELAY_BASE : Z := 2.
Definition TRANSIENT_ERROR_CODES : list Z := [502; 503; 504].
Definition MAX_COMMITS_PER_REPO : Z := 5000.

Definition is_transient (status : Z) : bool :=
  existsb (Z.eqb status) TRANSIENT_ERROR_CODES.

(** What [recursive_loc] returns: the tuple
    [(addition_total, deletion_total, my_commits)], or the integer [0] for
    an empty repository. *)
Inductive LocResult : Type :=
  | LocTuple (addition_total deletion_total my_commits : Z)
  | LocInt (z : Z).

(** ** The program *)

Module Main.
Section Program.

(** The globals [USER_NAME] and [OWNER_ID] (the [id] of the dictionary
    [{"id": ...}] returned by [user_getter]), and the remote API. *)
Variable USER_NAME : string.
Variable OWNER_ID : string.
Variable remote : nat -> Request -> Response.

(** [requests.post(...)]: the request is logged and answered by the oracle. *)
Definition post (req : Request) : M Response :=
  fun w => (Ok (remote (length (posts w)) req), with_post req w).

(** [simple_request]: a single post, an exception on any status but 200. *)
Definition simple_request (func_name : string) (req : Request) : M Response :=
  request <- post req ;;
  if (status_code request =? 200)%Z then ret request
  else raise (RequestFailed func_name (status_code request)).

(** The ledger file of the user. *)
Definition cache_filename : string :=
  "cache/" ++ Sha256.hexdigest USER_NAME ++ ".txt".

(** [force_close_file]: rewrites the ledger from the comment block and the
    data lines handed over. *)
Definition force_close_file (data cache_comment : list string) : M unit :=
  let filename := cache_filename in
  open_write filename (PyStr.writelines cache_comment ++ PyStr.writelines data).

(** The [for node in history["edges"]] loop of [loc_counter_one_repo]. *)
Fixpoint count_authored (edges : list CommitNode)
    (addition_total deletion_total my_commits : Z) : Z * Z * Z :=
  match edges with
  | [] => (addition_total, deletion_total, my_commits)
  | node :: rest =>
      match author_user node with
      | Some id =>
          if String.eqb id OWNER_ID then
            count_authored rest (addition_total + additions node)
              (deletion_total + deletions node) (my_commits + 1)
          else count_authored rest addition_total deletion_total my_commits
      | None => count_authored rest addition_total deletion_total my_commits
      end
  end.

(** [loc_counter_one_repo], open in the function it calls for the next
    page ([recursive_loc] with its [retry_count] left at the default). *)
Definition loc_counter_one_repo_with
    (next_page : Z -> Z -> Z -> option string -> Z -> M LocResult)
    (history : History) (addition_total deletion_total my_commits commits_fetched : Z)
    : M LocResult :=
  let commits_fetched := commits_fetched + Z.of_nat (length (history_edges history)) in
  let '(addition_total, deletion_total, my_commits) :=
    count_authored (history_edges history) addition_total deletion_total my_commits in
  match history_edges history with
  | [] => ret (LocTuple addition_total deletion_total my_commits)
  | _ :: _ =>
      if negb (hasNextPage (history_pageInfo history)) then
        ret (LocTuple addition_total deletion_total my_commits)
      else if (MAX_COMMITS_PER_REPO <=? commits_fetched)%Z then
        ret (LocTuple addition_total deletion_total my_commits)
      else
        next_page addition_total deletion_total my_commits
          (endCursor (history_pageInfo history)) commits_fetched
  end.

(** [recursive_loc]: one page of 100 commits per call.  [data] and
    [cache_comment] are the caller's ledger lists as they stand at the
    time of the call; the caller does not change them while the call
    runs. *)
Fixpoint recursive_loc (fuel : nat) (owner repo_name : string)
    (data cache_comment : list string)
    (addition_total deletion_total my_commits : Z) (cursor : option string)
    (retry_count commits_fetched : Z) {struct fuel} : M LocResult :=
  match fuel with
  | O => out_of_fuel
  | S fuel' =>
      query_count "recursive_loc" ;;
      request <- post (HistoryPage owner repo_name cursor) ;;
      if (status_code request =? 200)%Z then
        match json request with
        | HistoryData (Some history) =>
            loc_counter_one_repo_with
              (fun a d m c fetched =>
                 recursive_loc fuel' owner repo_name data cache_comment a d m c 0 fetched)
              history addition_total deletion_total my_commits commits_fetched
        | HistoryData None => ret (LocInt 0)
        | ReposData _ _ => raise KeyError
        end
      else if is_transient (status_code request) && (retry_count <? MAX_RETRIES)%Z then
        let delay := RETRY_DELAY_BASE * 2 ^ retry_count in
        sleep delay ;;
        recursive_loc fuel' owner repo_name data cache_comment
          addition_total deletion_total my_commits cursor (retry_count + 1) 0
      else
        force_close_file data cache_comment ;;
        if (status_code request =? 403)%Z then raise RateLimited
        else raise (RequestFailed "recursive_loc" (status_code request))
  end.

Definition loc_counter_one_repo (fuel : nat) (owner repo_name : string)
    (data cache_comment : list string) (history : History)
    (addition_total deletion_total my_commits commits_fetched : Z) : M LocResult :=
  loc_counter_one_repo_with
    (fun a d m c fetched =>
       recursive_loc fuel owner repo_name data cache_comment a d m c 0 fetched)
    history addition_total deletion_total my_commits commits_fetched.

Definition zero_line (repo_hash : string) : string := repo_hash ++ " 0 0 0 0" ++ nl.

(** [flush_cache]: the comment block followed by one zeroed line per
    enumerated repository. *)
Definition flush_cache (edges : list RepoEdge) (filename : string)
    (comment_size : nat) : M unit :=
  lines <- open_read filename ;;
  let data := if (0 <? comment_size)%nat then firstn comment_size lines else [] in
  open_write filename
    (PyStr.writelines data ++
     PyStr.writelines
       (map (fun node => zero_line (Sha256.hexdigest (nameWithOwner node))) edges)).

Definition COMMENT_LINE : string :=
  "This line is a comment block. Write whatever you want here." ++ nl.

(** Lines 406-431 of [cache_builder]: the ledger lines to reconcile and the
    [cached] flag. *)
Definition load_ledger (edges : list RepoEdge) (comment_size : nat)
    (force_cache : bool) : M (bool * list string) :=
  let filename := cache_filename in
  data <- try_except (open_read filename) is_FileNotFoundError
            (let data := if (0 <? comment_size)%nat
                         then repeat COMMENT_LINE comment_size else [] in
             open_write filename (PyStr.writelines data) ;;
             ret data) ;;
  if negb (Z.of_nat (length data) - Z.of_nat comment_size =? Z.of_nat (length edges))%Z
     || force_cache
  then
    flush_cache edges filename comment_size ;;
    data <- open_read filename ;;
    ret (false, data)
  else ret (true, data).

Definition updated_line (repo_hash : string) (totalCount : Z) (loc : Z * Z * Z) : string :=
  let '(addition_total, deletion_total, my_commits) := loc in
  repo_hash ++ " " ++ PyStr.str totalCount ++ " " ++ PyStr.str my_commits ++ " "
    ++ PyStr.str addition_total ++ " " ++ PyStr.str deletion_total ++ nl.

(** The body of the [try] of lines 443-469 for one repository. *)
Definition refresh_line (fuel : nat) (edge : RepoEdge) (cache_comment : list string)
    (index : nat) (repo_hash commit_count : string) (data : list string)
    : M (list string) :=
  stored <- py_int commit_count ;;
  match defaultBranchRef edge with
  | None => raise TypeError
  | Some totalCount =>
      if negb (stored =? totalCount)%Z then
        match PyStr.split_slash (nameWithOwner edge) with
        | [owner; repo_name] =>
            loc <- recursive_loc fuel owner repo_name data cache_comment 0 0 0 None 0 0 ;;
            match loc with
            | LocTuple a d m => setitem data index (updated_line repo_hash totalCount (a, d, m))
            | LocInt _ => raise TypeError
            end
        | _ => raise ValueError
        end
      else ret data
  end.

(** One iteration of the loop of lines 435-472. *)
Definition reconcile_line (fuel : nat) (edges : list RepoEdge)
    (cache_comment : list string) (index : nat) (data : list string)
    : M (list string) :=
  line <- getitem data index ;;
  match PyStr.split line with
  | repo_hash :: commit_count :: _ =>
      edge <- getitem edges index ;;
      if String.eqb repo_hash (Sha256.hexdigest (nameWithOwner edge)) then
        try_except
          (refresh_line fuel edge cache_comment index repo_hash commit_count data)
          is_TypeError
          (setitem data index (zero_line repo_hash))
      else ret data
  | _ => raise ValueError
  end.

Fixpoint reconcile (fuel : nat) (edges : list RepoEdge) (cache_comment : list string)
    (indices : list nat) (data : list string) : M (list string) :=
  match indices with
  | [] => ret data
  | index :: rest =>
      data <- reconcile_line fuel edges cache_comment index data ;;
      reconcile fuel edges cache_comment rest data
  end.

(** The summing loop of lines 477-480. *)
Fixpoint sum_loc (data : list string) (loc_add loc_del : Z) : M (Z * Z) :=
  match data with
  | [] => ret (loc_add, loc_del)
  | line :: rest =>
      let loc := PyStr.split line in
      t3 <- getitem loc 3 ;;
      a <- py_int t3 ;;
      t4 <- getitem loc 4 ;;
      d <- py_int t4 ;;
      sum_loc rest (loc_add + a) (loc_del + d)
  end.

(** Lines 433-484 of [cache_builder]. *)
Definition reconcile_and_sum (fuel : nat) (edges : list RepoEdge) (comment_size : nat)
    (cached : bool) (data : list string) (loc_add loc_del : Z)
    : M (Z * Z * Z * bool) :=
  let filename := cache_filename in
  let cache_comment := firstn comment_size data in
  let data := skipn comment_size data in
  data <- reconcile fuel edges cache_comment (seq 0 (length edges)) data ;;
  open_write filename (PyStr.writelines cache_comment ++ PyStr.writelines data) ;;
  sums <- sum_loc data loc_add loc_del ;;
  let '(loc_add, loc_del) := sums in
  ret (loc_add, loc_del, loc_add - loc_del, cached).

(** [cache_builder(edges, comment_size, force_cache)]; the result list
    [[loc_add, loc_del, loc_add - loc_del, cached]] is a tuple. *)
Definition cache_builder (fuel : nat) (edges : list RepoEdge) (comment_size : nat)
    (force_cache : bool) : M (Z * Z * Z * bool) :=
  loaded <- load_ledger edges comment_size force_cache ;;
  let '(cached, data) := loaded in
  reconcile_and_sum fuel edges comment_size cached data 0 0.

(** [loc_query]: the enumeration, 60 repositories per page, then
    [cache_builder] on all the edges. *)
Fixpoint loc_query (fuel : nat) (owner_affiliation : list string) (comment_size : nat)
    (force_cache : bool) (cursor : option string) (edges : list RepoEdge)
    {struct fuel} : M (Z * Z * Z * bool) :=
  match fuel with
  | O => out_of_fuel
  | S fuel' =>
      query_count "loc_query" ;;
      request <- simple_request "loc_query"
                   (ReposPage owner_affiliation USER_NAME cursor) ;;
      match json request with
      | ReposData page pageInfo =>
          if hasNextPage pageInfo then
            loc_query fuel' owner_affiliation comment_size force_cache
              (endCursor pageInfo) (edges ++ page)
          else cache_builder fuel' (edges ++ page) comment_size force_cache
      | HistoryData _ => raise KeyError
      end
  end.

(** [commit_counter]: the sum of the third field of the data lines. *)
Fixpoint sum_commits (data : list string) (total_commits : Z) : M Z :=
  match data with
  | [] => ret total_commits
  | line :: rest =>
      t2 <- getitem (PyStr.split line) 2 ;;
      c <- py_int t2 ;;
      sum_commits rest (total_commits + c)
  end.

Definition commit_counter (comment_size : nat) : M Z :=
  data <- open_read cache_filename ;;
  sum_commits (skipn comment_size data) 0.

End Program.
End Main.
Import Main.

(** ** The archive merge *)

(** The fourth element of what [add_archive] returns is a string on the
    normal path and the integer [0] on the recovery path. *)
Inductive PyVal : Type :=
  | VStr (s : string)
  | VInt (z : Z).

Definition int_of_val (v : PyVal) : M Z :=
  match v with
  | VStr s => py_int s
  | VInt z => ret z
  end.

Definition archive_filename : string := "cache/repository_archive.txt".

(** The loop of lines 520-523. *)
Fixpoint archive_sum (data : list string) (added_loc deleted_loc : Z) : M (Z * Z) :=
  match data with
  | [] => ret (added_loc, deleted_loc)
  | line :: rest =>
      match PyStr.split line with
      | repo_hash :: total_commits :: my_commits :: loc =>
          t0 <- getitem loc 0 ;;
          a <- py_int t0 ;;
          t1 <- getitem loc 1 ;;
          d <- py_int t1 ;;
          archive_sum rest (added_loc + a) (deleted_loc + d)
      | _ => raise ValueError
      end
  end.

(** [add_archive]: the archived totals, or five zeros when anything fails. *)
Definition add_archive : M (Z * Z * Z * PyVal * Z) :=
  try_except
    (data <- open_read archive_filename ;;
     let old_data := data in
     let data := skipn 7 (firstn (length data - 3) data) in
     let contributed_repos := Z.of_nat (length data) in
     sums <- archive_sum data 0 0 ;;
     let '(added_loc, deleted_loc) := sums in
     match last old_data with
     | None => raise IndexError
     | Some final =>
         tok <- getitem (PyStr.split final) 4 ;;
         let my_commits := PyStr.drop_last tok in
         ret (added_loc, deleted_loc, added_loc - deleted_loc, VStr my_commits,
              contributed_repos)
     end)
    is_Exception
    (ret (0, 0, 0, VInt 0, 0)).

(** The live totals of the entry point at the archive merge. *)
Record Stats : Type := mkStats {
  total_loc : Z * Z * Z * bool;
  commit_data : Z;
  star_data : Z;
  repo_data : Z;
  contrib_data : Z;
  follower_data : Z
}.

(** Lines 806-811 of the entry point.  [NODE_ID] is [os.getenv("NODE_ID")]. *)
Definition merge_archive (OWNER_ID : string) (NODE_ID : option string) (st : Stats)
    : M Stats :=
  if bool_decide (Some OWNER_ID = NODE_ID) then
    archived_data <- add_archive ;;
    let '(added, deleted, net, my_commits, contributed) := archived_data in
    let '(loc_add, loc_del, loc_net, cached) := total_loc st in
    let total_loc := (loc_add + added, loc_del + deleted, loc_net + net, cached) in
    let contrib_data := contrib_data st + contributed in
    archived_commits <- int_of_val my_commits ;;
    ret (mkStats total_loc (commit_data st + archived_commits) (star_data st)
           (repo_data st) contrib_data (follower_data st))
  else ret st.

(** A data line of the archive, from its key, its total commit count and
    its additions, deletions and authored commits: the shape of a ledger
    line. *)
Definition archive_line (row : string * Z * (Z * Z * Z)) : string :=
  let '(repo_hash, total_commits, loc) := row in updated_line repo_hash total_commits loc.

Definition row_additions (row : string * Z * (Z * Z * Z)) : Z :=
  let '(_, _, (a, _, _)) := row in a.

Definition row_deletions (row : string * Z * (Z * Z * Z)) : Z :=
  let '(_, _, (_, d, _)) := row in d.

Definition sum_of {A} (f : A -> Z) (l : list A) : Z :=
  fold_right (fun x acc => f x + acc) 0 l.

(** ** Predicates used by the specification *)

Module Shape.

Definition not_space (c : ascii) : bool := negb (PyStr.is_space c).

Definition not_newline (c : ascii) : bool :=
  negb (Ascii.eqb c PyStr.LF) && negb (Ascii.eqb c PyStr.CR).

(** A complete line: no LF or CR but the final LF. *)
Fixpoint is_line (l : string) : bool :=
  match l with
  | EmptyString => false
  | String c EmptyString => Ascii.eqb c PyStr.LF
  | String c r => not_newline c && is_line r
  end.

(** The last line of a file that does not end with a newline. *)
Definition is_partial (l : string) : bool :=
  PyStr.nonempty l && PyStr.all_chars not_newline l.

(** The shape of what [readlines] returns: complete lines, the last one
    possibly without its terminator. *)
Fixpoint lines_ok (ls : list string) : bool :=
  match ls with
  | [] => true
  | [l] => is_line l || is_partial l
  | l :: rest => is_line l && lines_ok rest
  end.

(** A line and what may replace it: itself, or a complete line. *)
Definition replaced (old new : string) : Prop := new = old \/ is_line new = true.

End Shape.

(** The delays slept before the retries number [rc], [rc + 1], ... *)
Fixpoint delays (rc : Z) (k : nat) : list Z :=
  match k with
  | O => []
  | S k' => RETRY_DELAY_BASE * 2 ^ rc :: delays (rc + 1) k'
  end.

(** The exceptions [recursive_loc] raises after saving the ledger. *)
Definition is_remote_failure (e : exn) : bool :=
  match e with
  | RateLimited | RequestFailed _ _ => true
  | _ => false
  end.

Module Observe.
Section Observations.

Variable USER_NAME : string.
Variable OWNER_ID : string.
Variable remote : nat -> Request -> Response.

(** The commits carried by one answer of the remote. *)
Definition commits_of (r : Response) : Z :=
  if (status_code r =? 200)%Z then
    match json r with
    | HistoryData (Some history) => Z.of_nat (length (history_edges history))
    | _ => 0
    end
  else 0.

(** The commits carried by the answers to the requests [reqs], posted from
    time [k] on. *)
Fixpoint fetched (k : nat) (reqs : list Request) : Z :=
  match reqs with
  | [] => 0
  | r :: rest => commits_of (remote k r) + fetched (S k) rest
  end.

(** The commits fetched between two states of one run. *)
Definition fetched_between (w w' : World) : Z :=
  fetched (length (posts w)) (skipn (length (posts w)) (posts w')).

(** The ledger lines [cache_builder] starts from: those of the file, or
    the fresh comment block when the file does not exist. *)
Definition ledger_lines (comment_size : nat) (w : World) : list string :=
  match files w !! cache_filename USER_NAME with
  | Some content => PyStr.readlines content
  | None => repeat COMMENT_LINE comment_size
  end.

(** The state in which the ledger file exists: [w] itself, or [w] with the
    fresh comment block written. *)
Definition opened (comment_size : nat) (w : World) : World :=
  match files w !! cache_filename USER_NAME with
  | Some _ => w
  | None =>
      with_file (cache_filename USER_NAME)
        (PyStr.writelines (repeat COMMENT_LINE comment_size)) w
  end.

(** The test of line 424-426. *)
Definition must_rebuild (edges : list RepoEdge) (comment_size : nat)
    (force_cache : bool) (lines : list string) : bool :=
  negb (Z.of_nat (length lines) - Z.of_nat comment_size =? Z.of_nat (length edges))%Z
  || force_cache.

(** The content of the ledger file after a rebuild from [lines]. *)
Definition rebuilt (edges : list RepoEdge) (comment_size : nat)
    (lines : list string) : string :=
  PyStr.writelines (firstn comment_size lines) ++
  PyStr.writelines
    (map (fun node => zero_line (Sha256.hexdigest (nameWithOwner node))) edges).

(** What one iteration of the reconciliation loop does to the line [old]
    of the repository [edge], from the state [w]: the new line and the
    state reached. *)
Inductive reconciled (fuel : nat) (edge : RepoEdge) (cache_comment data : list string)
    (w : World) : string -> string -> World -> Prop :=
  | rec_skipped old repo_hash commit_count rest :
      PyStr.split old = repo_hash :: commit_count :: rest ->
      repo_hash <> Sha256.hexdigest (nameWithOwner edge) ->
      reconciled fuel edge cache_comment data w old old w
  | rec_empty old commit_count rest stored :
      PyStr.split old = Sha256.hexdigest (nameWithOwner edge) :: commit_count :: rest ->
      PyStr.int commit_count = Some stored ->
      defaultBranchRef edge = None ->
      reconciled fuel edge cache_comment data w old
        (zero_line (Sha256.hexdigest (nameWithOwner edge))) w
  | rec_unchanged old commit_count rest stored :
      PyStr.split old = Sha256.hexdigest (nameWithOwner edge) :: commit_count :: rest ->
      PyStr.int commit_count = Some stored ->
      defaultBranchRef edge = Some stored ->
      reconciled fuel edge cache_comment data w old old w
  | rec_refreshed old commit_count rest stored totalCount owner repo_name a d m w' :
      PyStr.split old = Sha256.hexdigest (nameWithOwner edge) :: commit_count :: rest ->
      PyStr.int commit_count = Some stored ->
      defaultBranchRef edge = Some totalCount ->
      stored <> totalCount ->
      PyStr.split_slash (nameWithOwner edge) = [owner; repo_name] ->
      recursive_loc USER_NAME OWNER_ID remote fuel owner repo_name data cache_comment
        0 0 0 None 0 0 w = (Ok (LocTuple a d m), w') ->
      reconciled fuel edge cache_comment data w old
        (updated_line (Sha256.hexdigest (nameWithOwner edge)) totalCount (a, d, m)) w'
  | rec_vanished old commit_count rest stored totalCount owner repo_name z w' :
      PyStr.split old = Sha256.hexdigest (nameWithOwner edge) :: commit_count :: rest ->
      PyStr.int commit_count = Some stored ->
      defaultBranchRef edge = Some totalCount ->
      stored <> totalCount ->
      PyStr.split_slash (nameWithOwner edge) = [owner; repo_name] ->
      recursive_loc USER_NAME OWNER_ID remote fuel owner repo_name data cache_comment
        0 0 0 None 0 0 w = (Ok (LocInt z), w') ->
      reconciled fuel edge cache_comment data w old
        (zero_line (Sha256.hexdigest (nameWithOwner edge))) w'.

(** A line that the reconciliation loop leaves as it is, without calling
    the remote: its key is not the key of the repository, or its stored
    count is the total of the remote, or the repository is empty and the
    line is already zeroed. *)
Definition settled (edge : RepoEdge) (line : string) : Prop :=
  exists repo_hash commit_count rest,
    PyStr.split line = repo_hash :: commit_count :: rest /\
    (repo_hash <> Sha256.hexdigest (nameWithOwner edge) \/
     exists stored,
       PyStr.int commit_count = Some stored /\
       (defaultBranchRef edge = Some stored \/
        (defaultBranchRef edge = None /\ line = zero_line repo_hash))).

(** A line whose stored total differs from the total of the remote. *)
Definition line_stale (edge : RepoEdge) (line : string) : bool :=
  match PyStr.split line with
  | _ :: commit_count :: _ =>
      match PyStr.int commit_count, defaultBranchRef edge with
      | Some stored, Some totalCount => negb (stored =? totalCount)%Z
      | _, _ => false
      end
  | _ => false
  end.

(** The second and third fields of a ledger line, as integers. *)
Definition line_counts (line : string) : option (Z * Z) :=
  match PyStr.split line with
  | _ :: total :: mine :: _ =>
      match PyStr.int total, PyStr.int mine with
      | Some t, Some m => Some (t, m)
      | _, _ => None
      end
  | _ => None
  end.

End Observations.
End Observe.
Import Observe.

(** ** Concrete runs *)

Module Scenario.

Definition user : string := "octocat".
Definition me : string := "MDQ6VXNlcjE=".

Definition mine : CommitNode := mkCommit (Some me) 3 1.
Definition theirs : CommitNode := mkCommit (Some "MDQ6VXNlcjI=") 7 7.

(** An answer with status 200 carrying one page of history. *)
Definition page (commits : list CommitNode) (cursor : option string) (more : bool)
    : Response :=
  mkResponse 200 (HistoryData (Some (mkHistory commits (mkPageInfo cursor more)))).

(** An answer with a failure status. *)
Definition failure (status : Z) : Response := mkResponse status (HistoryData None).

(** The repository [octo/repo] and its key. *)
Definition repo (totalCount : option Z) : RepoEdge := mkRepo "octo/repo" totalCount.
Definition key : string := Eval vm_compute in Sha256.hexdigest "octo/repo".
Definition other : RepoEdge := mkRepo "octo/tool" (Some 4).
Definition other_key : string := Eval vm_compute in Sha256.hexdigest "octo/tool".

Definition file : string := cache_filename user.

(** A state with the ledger file holding [lines], and nothing else. *)
Definition ledger (lines : list string) : World :=
  mkWorld {[ file := PyStr.writelines lines ]} [] [] ∅.

Definition nothing : World := mkWorld ∅ [] [] ∅.

Definition header : string := "contribution ledger" ++ nl.

(** The remote answers the first post with [status]; later posts get a
    last page of two authored commits. *)
Definition fails_once (status : Z) (n : nat) (_ : Request) : Response :=
  if (n =? 0)%nat then failure status else page [mine; mine] None false.

(** The first [k] posts fail with 503. *)
Definition fails_first (k : nat) (n : nat) (_ : Request) : Response :=
  if (n <? k)%nat then failure 503 else page [mine; theirs] None false.

(** The enumeration is refused. *)
Definition enumeration_down (_ : nat) (_ : Request) : Response :=
  mkResponse 502 (ReposData [] (mkPageInfo None false)).

(** The history of [octo/repo] is served, that of any other repository is
    refused with 403. *)
Definition limited (_ : nat) (req : Request) : Response :=
  match req with
  | HistoryPage "octo" "repo" _ => page [mine; theirs; mine] None false
  | _ => failure 403
  end.

(** Every history is one last page of two authored commits. *)
Definition two_commits (_ : nat) (_ : Request) : Response :=
  page [mine; mine] None false.

(** A repository with a long history: pages of 100 authored commits with
    a next page, and one 502 as the answer to post number 49. *)
Definition long_history (n : nat) (_ : Request) : Response :=
  if (n =? 49)%nat then failure 502 else page (repeat mine 100) (Some "next") true.

(** Ledger lines of [octo/repo] and [octo/tool]. *)
Definition stale_line : string := key ++ " 1 0 0 0" ++ nl.
Definition counted_line : string := key ++ " 3 1 2 1" ++ nl.
Definition tool_line : string := other_key ++ " 2 1 5 3" ++ nl.
Definition foreign_line : string := "deadbeef 9 4 10 2" ++ nl.

(** An archive of one repository, the fifth token of its final line
    being [tok]. *)
Definition archive_header : list string := repeat ("archive" ++ nl) 7.
Definition archive_rows : list (string * Z * (Z * Z * Z)) := [(key, 12, (100, 40, 5))].
Definition archive_footer (tok : string) : list string :=
  ["end" ++ nl; "of data" ++ nl; "total authored commits : " ++ tok ++ nl].
Definition archived (tok : string) : World :=
  mkWorld
    {[ archive_filename :=
         PyStr.writelines
           (archive_header ++ map archive_line archive_rows ++ archive_footer tok) ]}
    [] [] ∅.

(** An archive whose only data line has two fields. *)
Definition short_archive : World :=
  mkWorld
    {[ archive_filename :=
         PyStr.writelines (archive_header ++ ["deadbeef 3" ++ nl] ++ archive_footer "57,") ]}
    [] [] ∅.

Definition live : Stats := mkStats (1000, 300, 700, true) 50 9 4 6 2.

End Scenario.

(** ** Escaping of the profile texts *)

Module Xml.

(** The five characters that [escape_xml] replaces. *)
Definition AMP : ascii := "&"%char.
Definition LT : ascii := "<"%char.
Definition GT : ascii := ">"%char.
Definition QUOT : ascii := "034"%char.
Definition APOS : ascii := "'"%char.

(** [text.replace(old, new)] for a one-character [old]. *)
Fixpoint replace (old : ascii) (new : string) (text : string) : string :=
  match text with
  | EmptyString => EmptyString
  | String c r =>
      if Ascii.eqb c old then new ++ replace old new r
      else String c (replace old new r)
  end.

Definition replacements : list (ascii * string) :=
  [(AMP, "&amp;"); (LT, "&lt;"); (GT, "&gt;"); (QUOT, "&quot;"); (APOS, "&apos;")].

(** [escape_xml(text)] for [text] being [None] or a string: the
    replacements are applied one after the other, in the order of the
    list. *)
Definition escape_xml (text : option string) : string :=
  match text with
  | None => EmptyString
  | Some text =>
      fold_left (fun text r => replace (fst r) (snd r) text) replacements text
  end.

(** The entity of one character, or the character itself. *)
Definition entity (c : ascii) : string :=
  if Ascii.eqb c AMP then "&amp;"
  else if Ascii.eqb c LT then "&lt;"
  else if Ascii.eqb c GT then "&gt;"
  else if Ascii.eqb c QUOT then "&quot;"
  else if Ascii.eqb c APOS then "&apos;"
  else String c EmptyString.

(** One pass over the text, each character replaced by [f] of it. *)
Fixpoint each (f : ascii -> string) (text : string) : string :=
  match text with
  | EmptyString => EmptyString
  | String c r => f c ++ each f r
  end.

(** Reading the five entities back. *)
Fixpoint unescape (s : string) : string :=
  match s with
  | String "&" (String "a" (String "m" (String "p" (String ";" r)))) =>
      String AMP (unescape r)
  | String "&" (String "l" (String "t" (String ";" r))) => String LT (unescape r)
  | String "&" (String "g" (String "t" (String ";" r))) => String GT (unescape r)
  | String "&" (String "q" (String "u" (String "o" (String "t" (String ";" r))))) =>
      String QUOT (unescape r)
  | String "&" (String "a" (String "p" (String "o" (String "s" (String ";" r))))) =>
      String APOS (unescape r)
  | String c r => String c (unescape r)
  | EmptyString => EmptyString
  end.

(** A character that is none of [<], [>], the double quote and the
    apostrophe. *)
Definition plain (c : ascii) : bool :=
  negb (Ascii.eqb c LT) && negb (Ascii.eqb c GT)
  && negb (Ascii.eqb c QUOT) && negb (Ascii.eqb c APOS).

End Xml.

(** ** Observations on the pages of a run *)

Module Pages.
Section Pages.

Variable USER_NAME : string.
Variable OWNER_ID : string.
Variable remote : nat -> Request -> Response.

(** The commits of one answer of the remote, as [recursive_loc] hands them
    to [loc_counter_one_repo]. *)
Definition page_commits (r : Response) : list CommitNode :=
  if (status_code r =? 200)%Z then
    match json r with
    | HistoryData (Some history) => history_edges history
    | _ => []
    end
  else [].

(** The commits of the answers to the requests [reqs], posted from time
    [k] on, in the order of the answers. *)
Fixpoint fetched_commits (k : nat) (reqs : list Request) : list CommitNode :=
  match reqs with
  | [] => []
  | r :: rest => (page_commits (remote k r) ++ fetched_commits (S k) rest)%list
  end.

(** The commits fetched between two states of one run. *)
Definition commits_between (w w' : World) : list CommitNode :=
  fetched_commits (length (posts w)) (skipn (length (posts w)) (posts w')).

(** The state after the bookkeeping and the post of one call of
    [recursive_loc]. *)
Definition posted (owner repo_name : string) (cursor : option string) (w : World)
    : World :=
  with_post (HistoryPage owner repo_name cursor) (with_count "recursive_loc" w).

(** The test of line 307. *)
Definition is_mine (node : CommitNode) : bool :=
  match author_user node with
  | Some id => String.eqb id OWNER_ID
  | None => false
  end.

Definition authored (commits : list CommitNode) : list CommitNode :=
  List.filter is_mine commits.

(** The remote serves, from time [k] on and starting at [cursor], the
    enumeration pages [pages] (each with the cursor of the next one)
    followed by the last page [final]. *)
Fixpoint served (owner_affiliation : list string) (k : nat) (cursor : option string)
    (pages : list (list RepoEdge * option string)) (final : list RepoEdge) : Prop :=
  let answer := remote k (ReposPage owner_affiliation USER_NAME cursor) in
  match pages with
  | [] =>
      status_code answer = 200 /\
      exists pageInfo,
        json answer = ReposData final pageInfo /\ hasNextPage pageInfo = false
  | (page, next) :: rest =>
      status_code answer = 200 /\
      json answer = ReposData page (mkPageInfo next true) /\
      served owner_affiliation (S k) next rest final
  end.

(** The remote serves the enumeration pages [pages] and refuses the
    request that follows them with [status]. *)
Fixpoint refused (owner_affiliation : list string) (k : nat) (cursor : option string)
    (pages : list (list RepoEdge * option string)) (status : Z) : Prop :=
  let answer := remote k (ReposPage owner_affiliation USER_NAME cursor) in
  match pages with
  | [] => status_code answer = status /\ status <> 200
  | (page, next) :: rest =>
      status_code answer = 200 /\
      json answer = ReposData page (mkPageInfo next true) /\
      refused owner_affiliation (S k) next rest status
  end.

(** The requests of the enumeration of [pages] and one last page. *)
Fixpoint enumeration (owner_affiliation : list string) (cursor : option string)
    (pages : list (list RepoEdge * option string)) : list Request :=
  ReposPage owner_affiliation USER_NAME cursor ::
  match pages with
  | [] => []
  | (_, next) :: rest => enumeration owner_affiliation next rest
  end.

(** The state after the enumeration requests [reqs]: each one counted
    under ["loc_query"] and posted. *)
Definition after_enumeration (reqs : list Request) (w : World) : World :=
  fold_left (fun w req => with_post req (with_count "loc_query" w)) reqs w.

(** A history request for one of the enumerated repositories. *)
Definition history_of (edges : list RepoEdge) (req : Request) : Prop :=
  exists edge owner repo_name cursor,
    In edge edges /\
    PyStr.split_slash (nameWithOwner edge) = [owner; repo_name] /\
    req = HistoryPage owner repo_name cursor.

(** [QUERY_COUNT[funct_id]]. *)
Definition calls (funct_id : string) (w : World) : Z :=
  default 0 (QUERY_COUNT w !! funct_id).

(** A stretch of a run in which every post is a history request allowed
    by [allowed], each one counted under ["recursive_loc"], and no other
    counter moves. *)
Definition history_run (allowed : Request -> Prop) (w w' : World) : Prop :=
  exists reqs,
    posts w' = (posts w ++ reqs)%list /\
    Forall allowed reqs /\
    calls "recursive_loc" w' = calls "recursive_loc" w + Z.of_nat (length reqs) /\
    forall funct_id,
      funct_id <> "recursive_loc" ->
      QUERY_COUNT w' !! funct_id = QUERY_COUNT w !! funct_id.

(** A history request for the repository [owner/repo_name]. *)
Definition page_of (owner repo_name : string) (req : Request) : Prop :=
  exists cursor, req = HistoryPage owner repo_name cursor.

(** The authored-commit field of a ledger row. *)
Definition row_commits (row : string * Z * (Z * Z * Z)) : Z :=
  let '(_, _, (_, _, m)) := row in m.

(** The key of a ledger row. *)
Definition row_key (row : string * Z * (Z * Z * Z)) : string := fst (fst row).

(** The row of the zeroed line of a repository. *)
Definition zero_row (edge : RepoEdge) : string * Z * (Z * Z * Z) :=
  (Sha256.hexdigest (nameWithOwner edge), 0, (0, 0, 0)).

(** A ledger row that is up to date for a repository of the enumeration. *)
Definition row_current (edge : RepoEdge) (row : string * Z * (Z * Z * Z)) : Prop :=
  fst (fst row) = Sha256.hexdigest (nameWithOwner edge) /\
  defaultBranchRef edge = Some (snd (fst row)).

End Pages.
End Pages.
Import Pages.

(** ** More concrete runs *)

Module Cases.
Import Scenario.

(** Every history page is full and announces a next page. *)
Definition endless (_ : nat) (_ : Request) : Response :=
  page (repeat mine 100) (Some "next") true.

(** The first post is served, every later one is refused with 403. *)
Definition serves_once (n : nat) (_ : Request) : Response :=
  if (n =? 0)%nat then page [mine; theirs] None false else failure 403.

(** An enumeration in two pages, followed by histories of two authored
    commits. *)
Definition two_pages (n : nat) (_ : Request) : Response :=
  match n with
  | O => mkResponse 200 (ReposData [repo (Some 3)] (mkPageInfo (Some "p2") true))
  | S O => mkResponse 200 (ReposData [other] (mkPageInfo None false))
  | _ => page [mine; mine] None false
  end.

(** The second page of the enumeration is refused. *)
Definition second_page_down (n : nat) (_ : Request) : Response :=
  match n with
  | O => mkResponse 200 (ReposData [repo (Some 3)] (mkPageInfo (Some "p2") true))
  | _ => mkResponse 502 (ReposData [] (mkPageInfo None false))
  end.

(** Two rows that are up to date for [octo/repo] at 3 commits and
    [octo/tool] at 4. *)
Definition rows : list (string * Z * (Z * Z * Z)) :=
  [(key, 3, (20, 5, 2)); (other_key, 4, (7, 1, 3))].

(** A line of [octo/tool] whose stored count is not a number. *)
Definition garbled_line : string := other_key ++ " x 1 5 3" ++ nl.

End Cases.

(** * Facts about strings *)

Module PyStrFacts.
Import PyStr Shape.

Lemma all_chars_app p s t :
  all_chars p (s ++ t) = all_chars p s && all_chars p t.
Proof.
  induction s as [|c s IH]; simpl; [reflexivity|].
  rewrite IH. apply andb_assoc.
Qed.

Lemma all_chars_weaken (p q : ascii -> bool) s :
  (forall c, p c = true -> q c = true) ->
  all_chars p s = true -> all_chars q s = true.
Proof.
  intros Hpq. induction s as [|c s IH]; simpl; [reflexivity|].
  rewrite !andb_true_iff. intros [Hc Hs]. auto.
Qed.

Lemma space_newline c : not_space c = true -> not_newline c = true.
Proof.
  destruct c as [[] [] [] [] [] [] [] []]; vm_compute; congruence.
Qed.

Lemma digit_not_space c : is_digit c = true -> not_space c = true.
Proof.
  destruct c as [[] [] [] [] [] [] [] []]; vm_compute; congruence.
Qed.

Lemma is_token_spec t :
  is_token t = true <-> t <> EmptyString /\ all_chars not_space t = true.
Proof.
  unfold is_token. rewrite andb_true_iff.
  destruct t; simpl; intuition congruence.
Qed.

(** *** [split] *)

Lemma pieces_app_space t c r :
  all_chars not_space t = true -> is_space c = true ->
  pieces (t ++ String c r) = t :: pieces r.
Proof.
  intros Ht Hc. induction t as [|a t IH]; simpl.
  - rewrite Hc. reflexivity.
  - simpl in Ht. apply andb_true_iff in Ht as [Ha Ht].
    unfold not_space in Ha. apply negb_true_iff in Ha. rewrite Ha.
    rewrite (IH Ht). reflexivity.
Qed.

Lemma split_app_space t c r :
  is_token t = true -> is_space c = true ->
  split (t ++ String c r) = t :: split r.
Proof.
  intros Ht Hc. apply is_token_spec in Ht as [Hne Ht].
  unfold split. rewrite pieces_app_space by assumption.
  simpl. destruct t; [congruence|reflexivity].
Qed.

Lemma pieces_no_space s : Forall (fun t => all_chars not_space t = true) (pieces s).
Proof.
  induction s as [|c s IH]; simpl.
  - repeat constructor.
  - destruct (is_space c) eqn:Hc.
    + constructor; [reflexivity|assumption].
    + destruct (pieces s) as [|t ts].
      * repeat constructor. simpl. unfold not_space. rewrite Hc. reflexivity.
      * inversion IH; subst. constructor; [|assumption].
        simpl. unfold not_space at 1. rewrite Hc. assumption.
Qed.

Lemma split_tokens s : Forall (fun t => is_token t = true) (split s).
Proof.
  unfold split. pose proof (pieces_no_space s) as H.
  induction H as [|t ts Ht _ IH]; simpl; [constructor|].
  destruct (nonempty t) eqn:Hn; [|assumption].
  constructor; [|assumption]. unfold is_token. rewrite Hn. assumption.
Qed.

Lemma split_head_token s t ts : split s = t :: ts -> is_token t = true.
Proof.
  intros H. pose proof (split_tokens s) as Hs. rewrite H in Hs.
  inversion Hs; assumption.
Qed.

(** *** [str] and [int] *)

Lemma uint_digits d : all_chars is_digit (NilEmpty.string_of_uint d) = true.
Proof. induction d; simpl; auto. Qed.

Lemma digits_of_uint seen d :
  seen = true \/ d <> Decimal.Nil ->
  digits_of seen (NilEmpty.string_of_uint d) = Some (NilEmpty.string_of_uint d).
Proof.
  revert seen. induction d; intros seen Hs; simpl;
    try (rewrite IHd by (left; reflexivity); reflexivity).
  destruct Hs as [->|Hs]; [reflexivity|congruence].
Qed.

Lemma unsigned_of_uint d :
  d <> Decimal.Nil -> unsigned_of (NilEmpty.string_of_uint d) = Some (Z.of_uint d).
Proof.
  intros Hd. unfold unsigned_of. rewrite digits_of_uint by (right; assumption).
  rewrite NilEmpty.usu. reflexivity.
Qed.

Lemma int_digit_head c r :
  is_digit c = true -> int (String c r) = unsigned_of (String c r).
Proof.
  destruct c as [[] [] [] [] [] [] [] []]; intros H; try reflexivity;
    vm_compute in H; congruence.
Qed.

Lemma uint_head d :
  d <> Decimal.Nil ->
  exists c r, NilEmpty.string_of_uint d = String c r /\ is_digit c = true.
Proof. destruct d; intros H; try congruence; simpl; eauto. Qed.

Lemma str_pos p : str (Z.pos p) = NilEmpty.string_of_uint (Pos.to_uint p).
Proof.
  unfold str. simpl. unfold NilZero.string_of_uint.
  pose proof (DecimalPos.Unsigned.to_uint_nonnil p) as H.
  destruct (Pos.to_uint p); congruence.
Qed.

Lemma of_uint_to_uint p : Z.of_uint (Pos.to_uint p) = Z.pos p.
Proof. exact (DecimalZ.of_to (Z.pos p)). Qed.

Lemma int_str z : int (str z) = Some z.
Proof.
  destruct z as [|p|p].
  - reflexivity.
  - rewrite str_pos.
    pose proof (DecimalPos.Unsigned.to_uint_nonnil p) as Hn.
    destruct (uint_head _ Hn) as (c & r & E & Hc).
    rewrite E, (int_digit_head _ _ Hc), <- E, unsigned_of_uint by assumption.
    rewrite of_uint_to_uint. reflexivity.
  - pose proof (DecimalPos.Unsigned.to_uint_nonnil p) as Hn.
    assert (E : str (Z.neg p) = String "-" (NilEmpty.string_of_uint (Pos.to_uint p))).
    { unfold str. simpl. unfold NilZero.string_of_uint. destruct (Pos.to_uint p); congruence. }
    rewrite E. simpl. rewrite unsigned_of_uint by assumption.
    rewrite of_uint_to_uint. reflexivity.
Qed.

Lemma str_token z : is_token (str z) = true.
Proof.
  apply is_token_spec. destruct z as [|p|p].
  - split; [discriminate|reflexivity].
  - rewrite str_pos.
    pose proof (DecimalPos.Unsigned.to_uint_nonnil p) as Hn.
    split.
    + destruct (uint_head _ Hn) as (c & r & E & _). congruence.
    + apply (all_chars_weaken is_digit); [apply digit_not_space|apply uint_digits].
  - assert (E : str (Z.neg p) = String "-" (NilEmpty.string_of_uint (Pos.to_uint p))).
    { unfold str. simpl. unfold NilZero.string_of_uint.
      pose proof (DecimalPos.Unsigned.to_uint_nonnil p).
      destruct (Pos.to_uint p); congruence. }
    rewrite E. split; [discriminate|].
    simpl. apply (all_chars_weaken is_digit); [apply digit_not_space|apply uint_digits].
Qed.

(** *** The digest *)

Lemma hexdigit_not_space x : not_space (Sha256.hexdigit x) = true.
Proof.
  unfold Sha256.hexdigit. generalize (Z.to_nat (Z.land x 15)). intros n.
  do 17 (destruct n as [|n]; [reflexivity|]). destruct n; reflexivity.
Qed.

Lemma hex8_not_space x tail :
  all_chars not_space (Sha256.hex8 x tail) = all_chars not_space tail.
Proof.
  unfold Sha256.hex8. cbn [all_chars]. rewrite !hexdigit_not_space. reflexivity.
Qed.

Lemma hexdigest_token s : is_token (Sha256.hexdigest s) = true.
Proof.
  apply is_token_spec. unfold Sha256.hexdigest.
  destruct (Sha256.digest s) as [[[[[[[a b] c] d] e] f] g] h].
  split.
  - unfold Sha256.hex8 at 1. intros H. inversion H.
  - rewrite !hex8_not_space. reflexivity.
Qed.

End PyStrFacts.

(** * Facts about lines and files *)

Module LineFacts.
Import PyStr Shape PyStrFacts.

Lemma append_assoc (a b c : string) : (a ++ b) ++ c = a ++ b ++ c.
Proof. induction a as [|x a IH]; simpl; [reflexivity|rewrite IH; reflexivity]. Qed.

Lemma append_empty_r (a : string) : a ++ "" = a.
Proof. induction a as [|x a IH]; simpl; [reflexivity|rewrite IH; reflexivity]. Qed.

Lemma is_line_nonempty l : is_line l = true -> l <> EmptyString.
Proof. destruct l; simpl; congruence. Qed.

Lemma is_line_cons c l :
  l <> EmptyString -> is_line (String c l) = not_newline c && is_line l.
Proof. destruct l; [congruence|reflexivity]. Qed.

Lemma is_line_body body :
  all_chars not_newline body = true -> is_line (body ++ nl) = true.
Proof.
  induction body as [|c body IH]; [reflexivity|].
  cbn [all_chars]. rewrite andb_true_iff. intros [Hc Hb].
  change (String c body ++ nl) with (String c (body ++ nl)).
  rewrite is_line_cons by (destruct body; discriminate).
  rewrite Hc. auto.
Qed.

Lemma is_line_no_cr l :
  is_line l = true -> all_chars (fun c => negb (Ascii.eqb c CR)) l = true.
Proof.
  induction l as [|c l IH]; [reflexivity|].
  destruct l as [|c' l'].
  - simpl. intros H. apply Ascii.eqb_eq in H. subst c. reflexivity.
  - rewrite is_line_cons by discriminate. rewrite andb_true_iff.
    intros [Hc Hl]. specialize (IH Hl). revert IH.
    generalize (String c' l'). intros r IH.
    cbn [all_chars]. rewrite IH, andb_true_r.
    unfold not_newline in Hc. apply andb_true_iff in Hc as [_ Hc]. exact Hc.
Qed.

Lemma is_partial_no_cr l :
  is_partial l = true -> all_chars (fun c => negb (Ascii.eqb c CR)) l = true.
Proof.
  unfold is_partial. rewrite andb_true_iff. intros [_ H].
  revert H. apply all_chars_weaken. intros c. unfold not_newline.
  rewrite andb_true_iff. tauto.
Qed.

(** *** Universal newlines *)

Lemma universal_newlines_id s :
  all_chars (fun c => negb (Ascii.eqb c CR)) s = true -> universal_newlines s = s.
Proof.
  induction s as [|c s IH]; [reflexivity|].
  cbn [all_chars]. rewrite andb_true_iff. intros [Hc Hs].
  apply negb_true_iff in Hc. cbn [universal_newlines]. rewrite Hc, (IH Hs). reflexivity.
Qed.

Lemma universal_newlines_no_cr s :
  all_chars (fun c => negb (Ascii.eqb c CR)) (universal_newlines s) = true.
Proof.
  assert (H : forall n s, (String.length s <= n)%nat ->
            all_chars (fun c => negb (Ascii.eqb c CR)) (universal_newlines s) = true).
  { clear s. induction n as [|n IH]; intros s Hn.
    - destruct s; [reflexivity|simpl in Hn; lia].
    - destruct s as [|c s]; [reflexivity|]. simpl in Hn.
      cbn [universal_newlines]. destruct (Ascii.eqb c CR) eqn:Hc.
      + cbn [all_chars]. replace (negb (Ascii.eqb LF CR)) with true by reflexivity.
        cbn [andb]. destruct s as [|c' s']; [reflexivity|]. simpl in Hn.
        destruct (Ascii.eqb c' LF); apply IH; simpl; lia.
      + cbn [all_chars]. rewrite Hc. cbn [negb andb]. apply IH. lia. }
  apply (H (String.length s)). lia.
Qed.

(** *** Cutting into lines *)

Lemma lines_of_line_app l s :
  is_line l = true -> lines_of (l ++ s) = l :: lines_of s.
Proof.
  induction l as [|c l IH]; [discriminate|].
  destruct l as [|c' l'].
  - simpl. intros H. rewrite H. apply Ascii.eqb_eq in H. subst c. reflexivity.
  - rewrite is_line_cons by discriminate. rewrite andb_true_iff. intros [Hc Hl].
    change (String c (String c' l') ++ s) with (String c (String c' l' ++ s)).
    cbn [lines_of]. unfold not_newline in Hc. apply andb_true_iff in Hc as [Hc _].
    apply negb_true_iff in Hc. rewrite Hc, (IH Hl). reflexivity.
Qed.

Lemma lines_of_partial l : is_partial l = true -> lines_of l = [l].
Proof.
  unfold is_partial. rewrite andb_true_iff. intros [Hn Hl].
  induction l as [|c l IH]; [discriminate|].
  cbn [all_chars] in Hl. apply andb_true_iff in Hl as [Hc Hl].
  unfold not_newline in Hc. apply andb_true_iff in Hc as [Hc _].
  apply negb_true_iff in Hc. cbn [lines_of]. rewrite Hc.
  destruct l as [|c' l']; [reflexivity|]. rewrite IH by (reflexivity || assumption).
  reflexivity.
Qed.

Lemma lines_ok_cons l ls :
  ls <> [] -> lines_ok (l :: ls) = is_line l && lines_ok ls.
Proof. destruct ls; [congruence|reflexivity]. Qed.

Lemma lines_ok_tail l ls : lines_ok (l :: ls) = true -> lines_ok ls = true.
Proof.
  destruct ls; [reflexivity|]. rewrite lines_ok_cons by discriminate.
  rewrite andb_true_iff. tauto.
Qed.

Lemma lines_ok_all_lines ls : Forall (fun l => is_line l = true) ls -> lines_ok ls = true.
Proof.
  induction 1 as [|l ls Hl _ IH]; [reflexivity|].
  destruct ls; simpl.
  - rewrite Hl. reflexivity.
  - rewrite Hl. exact IH.
Qed.

Lemma lines_of_writelines ls :
  lines_ok ls = true -> lines_of (writelines ls) = ls.
Proof.
  induction ls as [|l ls IH]; [reflexivity|].
  destruct ls as [|l' ls'].
  - simpl. rewrite orb_true_iff. intros [H|H].
    + rewrite lines_of_line_app by assumption. reflexivity.
    + rewrite append_empty_r. apply lines_of_partial. assumption.
  - rewrite lines_ok_cons by discriminate. rewrite andb_true_iff. intros [Hl Hls].
    change (writelines (l :: l' :: ls')) with (l ++ writelines (l' :: ls')).
    rewrite lines_of_line_app, IH by assumption. reflexivity.
Qed.

Lemma lines_ok_lines_of s :
  all_chars (fun c => negb (Ascii.eqb c CR)) s = true -> lines_ok (lines_of s) = true.
Proof.
  induction s as [|c s IH]; [reflexivity|].
  cbn [all_chars]. rewrite andb_true_iff. intros [Hc Hs]. specialize (IH Hs).
  cbn [lines_of]. destruct (Ascii.eqb c LF) eqn:Hlf.
  - destruct (lines_of s); simpl; rewrite Hlf; [reflexivity|exact IH].
  - assert (Hnn : not_newline c = true).
    { unfold not_newline. rewrite Hlf, Hc. reflexivity. }
    destruct (lines_of s) as [|l ls].
    + simpl. unfold is_partial. simpl. rewrite Hlf, Hnn. reflexivity.
    + destruct ls as [|l' ls'].
      * simpl in IH. apply orb_true_iff in IH as [H|H].
        -- cbn [lines_ok]. rewrite is_line_cons by (apply is_line_nonempty; assumption).
           rewrite Hnn, H. reflexivity.
        -- cbn [lines_ok]. apply orb_true_iff. right.
           unfold is_partial in *. simpl. rewrite Hnn.
           apply andb_true_iff in H as [_ H]. exact H.
      * rewrite lines_ok_cons in IH by discriminate.
        apply andb_true_iff in IH as [H1 H2].
        rewrite lines_ok_cons by discriminate.
        rewrite is_line_cons by (apply is_line_nonempty; assumption).
        rewrite Hnn, H1. exact H2.
Qed.

Lemma lines_ok_readlines content : lines_ok (readlines content) = true.
Proof. apply lines_ok_lines_of, universal_newlines_no_cr. Qed.

Lemma lines_ok_no_cr ls :
  lines_ok ls = true ->
  all_chars (fun c => negb (Ascii.eqb c CR)) (writelines ls) = true.
Proof.
  induction ls as [|l ls IH]; [reflexivity|].
  intros H. cbn [writelines fold_right]. rewrite all_chars_app.
  fold (writelines ls). rewrite (IH (lines_ok_tail _ _ H)), andb_true_r.
  destruct ls.
  - simpl in H. apply orb_true_iff in H as [H|H];
      [apply is_line_no_cr|apply is_partial_no_cr]; assumption.
  - rewrite lines_ok_cons in H by discriminate. apply andb_true_iff in H as [H _].
    apply is_line_no_cr. assumption.
Qed.

(** Reading back what was written. *)
Lemma readlines_writelines ls :
  lines_ok ls = true -> readlines (writelines ls) = ls.
Proof.
  intros H. unfold readlines.
  rewrite universal_newlines_id by (apply lines_ok_no_cr; assumption).
  apply lines_of_writelines. assumption.
Qed.

Lemma writelines_app ls ls' : writelines (ls ++ ls') = writelines ls ++ writelines ls'.
Proof.
  induction ls as [|l ls IH]; [reflexivity|].
  cbn [writelines fold_right app]. fold (writelines (ls ++ ls')). fold (writelines ls).
  change ((l :: ls) ++ ls')%list with (l :: (ls ++ ls')%list).
  rewrite IH. symmetry. apply append_assoc.
Qed.

(** Replacing lines by complete lines keeps the shape. *)
Lemma lines_ok_replaced olds news :
  Forall2 replaced olds news -> lines_ok olds = true -> lines_ok news = true.
Proof.
  induction 1 as [|o n os ns Hon Hrest IH]; [reflexivity|].
  intros Hok. specialize (IH (lines_ok_tail _ _ Hok)).
  destruct Hrest as [|o' n' os' ns' Hon' Hrest'].
  - simpl in *. destruct Hon as [->|Hn]; [assumption|]. rewrite Hn. reflexivity.
  - rewrite lines_ok_cons in Hok by discriminate.
    apply andb_true_iff in Hok as [Ho _].
    rewrite lines_ok_cons by discriminate. rewrite IH, andb_true_r.
    destruct Hon as [->|Hn]; assumption.
Qed.

Lemma replaced_refl ls : Forall2 replaced ls ls.
Proof. induction ls; constructor; [left; reflexivity|assumption]. Qed.

Lemma replaced_trans l1 l2 l3 :
  Forall2 replaced l1 l2 -> Forall2 replaced l2 l3 -> Forall2 replaced l1 l3.
Proof.
  intros H; revert l3. induction H as [|a b l1 l2 Hab _ IH]; intros l3 H3.
  - inversion H3; constructor.
  - inversion H3 as [|b' c l2' l3' Hbc Hrest]; subst. constructor; [|auto].
    destruct Hbc as [->|Hc]; [assumption|right; assumption].
Qed.

Lemma replaced_insert (ls : list string) i v :
  is_line v = true -> Forall2 replaced ls (<[i := v]> ls).
Proof.
  intros Hv. revert i. induction ls as [|l ls IH]; intros i; [constructor|].
  destruct i; simpl.
  - constructor; [right; assumption|apply replaced_refl].
  - constructor; [left; reflexivity|apply IH].
Qed.

(** *** Ledger lines *)

Lemma space_is_space : is_space " " = true.
Proof. reflexivity. Qed.

Lemma LF_is_space : is_space LF = true.
Proof. reflexivity. Qed.

Lemma split_zero_line h :
  is_token h = true -> split (zero_line h) = [h; "0"; "0"; "0"; "0"].
Proof.
  intros Hh. unfold zero_line.
  change (" 0 0 0 0" ++ nl) with (String " " ("0 0 0 0" ++ nl)).
  rewrite split_app_space by (assumption || reflexivity). reflexivity.
Qed.

Lemma split_updated_line h t a d m :
  is_token h = true ->
  split (updated_line h t (a, d, m)) = [h; str t; str m; str a; str d].
Proof.
  intros Hh. unfold updated_line, nl.
  repeat (change (" " ++ ?x) with (String " " x)).
  rewrite split_app_space by (assumption || reflexivity).
  rewrite !split_app_space by (apply str_token || reflexivity).
  reflexivity.
Qed.

Lemma token_not_newline t : is_token t = true -> all_chars not_newline t = true.
Proof.
  intros H. apply is_token_spec in H as [_ H].
  revert H. apply all_chars_weaken, space_newline.
Qed.

Lemma str_not_newline z : all_chars not_newline (str z) = true.
Proof. apply token_not_newline, str_token. Qed.

Lemma is_line_zero_line h : is_token h = true -> is_line (zero_line h) = true.
Proof.
  intros Hh. unfold zero_line.
  rewrite <- append_assoc. apply is_line_body. rewrite all_chars_app, token_not_newline by assumption.
  reflexivity.
Qed.

Lemma is_line_updated_line h t a d m :
  is_token h = true -> is_line (updated_line h t (a, d, m)) = true.
Proof.
  intros Hh. unfold updated_line.
  rewrite <- !append_assoc. apply is_line_body.
  rewrite !all_chars_app, !str_not_newline, (token_not_newline h Hh).
  reflexivity.
Qed.

End LineFacts.

(** * Facts about the reducer *)

Section ReducerFacts.

Variable USER_NAME : string.
Variable OWNER_ID : string.
Variable remote : nat -> Request -> Response.

#[local] Abbreviation recursive_loc := (recursive_loc USER_NAME OWNER_ID remote).
#[local] Abbreviation force_close_file := (force_close_file USER_NAME).
#[local] Abbreviation cache_filename := (cache_filename USER_NAME).
#[local] Abbreviation loc_counter_one_repo_with := (loc_counter_one_repo_with OWNER_ID).
#[local] Abbreviation count_authored := (count_authored OWNER_ID).
#[local] Abbreviation fetched := (fetched remote).

(** One call of [recursive_loc], unfolded up to the answer of the remote. *)
Lemma recursive_loc_S fuel owner repo_name data cc a d m cursor rc cf w :
  recursive_loc (S fuel) owner repo_name data cc a d m cursor rc cf w =
  (let request := remote (length (posts w)) (HistoryPage owner repo_name cursor) in
   if (status_code request =? 200)%Z then
     match json request with
     | HistoryData (Some history) =>
         loc_counter_one_repo_with
           (fun a d m c fetched =>
              recursive_loc fuel owner repo_name data cc a d m c 0 fetched)
           history a d m cf
     | HistoryData None => ret (LocInt 0)
     | ReposData _ _ => raise KeyError
     end
   else if is_transient (status_code request) && (rc <? MAX_RETRIES)%Z then
     sleep (RETRY_DELAY_BASE * 2 ^ rc) ;;
     recursive_loc fuel owner repo_name data cc a d m cursor (rc + 1) 0
   else
     force_close_file data cc ;;
     if (status_code request =? 403)%Z then raise RateLimited
     else raise (RequestFailed "recursive_loc" (status_code request)))
    (with_post (HistoryPage owner repo_name cursor) (with_count "recursive_loc" w)).
Proof. reflexivity. Qed.

Lemma count_authored_bounds edges a d m :
  let '(_, _, m') := count_authored edges a d m in
  m <= m' <= m + Z.of_nat (length edges).
Proof.
  revert a d m. induction edges as [|node edges IH]; intros a d m; simpl.
  - lia.
  - destruct (author_user node) as [id|]; [destruct (String.eqb id OWNER_ID)|].
    + specialize (IH (a + additions node) (d + deletions node) (m + 1)).
      destruct (count_authored _ _ _ _) as [[? ?] m']. lia.
    + specialize (IH a d m). destruct (count_authored _ _ _ _) as [[? ?] m']. lia.
    + specialize (IH a d m). destruct (count_authored _ _ _ _) as [[? ?] m']. lia.
Qed.

(** The outcomes of [loc_counter_one_repo]: it stops with the counts of
    the page added, or asks for the next page. *)
Lemma loc_counter_cases next history a d m cf w :
  let '(a', d', m') := count_authored (history_edges history) a d m in
  loc_counter_one_repo_with next history a d m cf w = (Ok (LocTuple a' d' m'), w)
  \/ (history_edges history <> [] /\
      hasNextPage (history_pageInfo history) = true /\
      cf + Z.of_nat (length (history_edges history)) < MAX_COMMITS_PER_REPO /\
      loc_counter_one_repo_with next history a d m cf w =
        next a' d' m' (endCursor (history_pageInfo history))
          (cf + Z.of_nat (length (history_edges history))) w).
Proof.
  unfold loc_counter_one_repo_with.
  destruct (count_authored _ _ _ _) as [[a' d'] m'].
  destruct (history_edges history) as [|e es] eqn:E; [left; reflexivity|].
  destruct (hasNextPage (history_pageInfo history)); [|left; reflexivity].
  cbn [negb].
  destruct (Z.leb_spec MAX_COMMITS_PER_REPO (cf + Z.of_nat (length (e :: es))));
    [left; reflexivity|right].
  repeat split; try assumption. discriminate.
Qed.

(** A failure of the remote that [recursive_loc] raises comes after the
    ledger was saved from the lists handed over. *)
Lemma recursive_loc_raise_saved fuel owner repo_name data cc a d m cursor rc cf w e w' :
  recursive_loc fuel owner repo_name data cc a d m cursor rc cf w = (Raise e, w') ->
  is_remote_failure e = true ->
  files w' !! cache_filename = Some (PyStr.writelines cc ++ PyStr.writelines data).
Proof.
  revert a d m cursor rc cf w.
  induction fuel as [|fuel IH]; intros a d m cursor rc cf w H He; [discriminate|].
  rewrite recursive_loc_S in H. cbv zeta in H.
  destruct (status_code _ =? 200)%Z.
  - destruct (json _) as [[history|]|];
      [|discriminate H|unfold raise in H; inversion H; subst; discriminate He].
    pose proof (loc_counter_cases
      (fun a d m c fetched => recursive_loc fuel owner repo_name data cc a d m c 0 fetched)
      history a d m cf
      (with_post (HistoryPage owner repo_name cursor) (with_count "recursive_loc" w))) as Hc.
    destruct (count_authored _ _ _ _) as [[a' d'] m'].
    destruct Hc as [Hc|(_ & _ & _ & Hc)]; rewrite Hc in H; [discriminate|].
    cbv beta in H. eapply IH; eassumption.
  - destruct (is_transient _ && _).
    + unfold bind, sleep in H. eapply IH; eassumption.
    + unfold bind, force_close_file, open_write in H.
      destruct (status_code _ =? 403)%Z; inversion H; subst; simpl;
        apply lookup_insert_eq.
Qed.

(** The only exceptions of [recursive_loc]. *)
Lemma recursive_loc_raises fuel owner repo_name data cc a d m cursor rc cf w e w' :
  recursive_loc fuel owner repo_name data cc a d m cursor rc cf w = (Raise e, w') ->
  e = KeyError \/ is_remote_failure e = true.
Proof.
  revert a d m cursor rc cf w.
  induction fuel as [|fuel IH]; intros a d m cursor rc cf w H; [discriminate|].
  rewrite recursive_loc_S in H. cbv zeta in H.
  destruct (status_code _ =? 200)%Z.
  - destruct (json _) as [[history|]|];
      [|discriminate H|unfold raise in H; inversion H; subst; auto].
    pose proof (loc_counter_cases
      (fun a d m c fetched => recursive_loc fuel owner repo_name data cc a d m c 0 fetched)
      history a d m cf
      (with_post (HistoryPage owner repo_name cursor) (with_count "recursive_loc" w))) as Hc.
    destruct (count_authored _ _ _ _) as [[a' d'] m'].
    destruct Hc as [Hc|(_ & _ & _ & Hc)]; rewrite Hc in H; [discriminate|].
    cbv beta in H. eapply IH; eassumption.
  - destruct (is_transient _ && _).
    + unfold bind, sleep in H. eapply IH; eassumption.
    + unfold bind, force_close_file, open_write in H.
      destruct (status_code _ =? 403)%Z; inversion H; subst; auto.
Qed.

Lemma fetched_app k reqs reqs' :
  fetched k (reqs ++ reqs')%list =
  fetched k reqs + fetched (k + length reqs) reqs'.
Proof.
  revert k. induction reqs as [|r reqs IH]; intros k; simpl.
  - rewrite Nat.add_0_r. reflexivity.
  - rewrite IH. replace (S k + length reqs)%nat with (k + S (length reqs))%nat by lia. lia.
Qed.

Lemma commits_of_nonneg r : 0 <= commits_of r.
Proof.
  unfold commits_of. destruct (status_code r =? 200)%Z; [|lia].
  destruct (json r) as [[h|]|]; lia.
Qed.

(** A successful reduction: the posts made, the ledger file left alone, and
    the authored commits counted among the commits fetched. *)
Lemma recursive_loc_tuple fuel owner repo_name data cc a d m cursor rc cf w a' d' m' w' :
  recursive_loc fuel owner repo_name data cc a d m cursor rc cf w
    = (Ok (LocTuple a' d' m'), w') ->
  exists reqs,
    posts w' = (posts w ++ reqs)%list /\
    files w' = files w /\
    m <= m' <= m + fetched (length (posts w)) reqs.
Proof.
  revert a d m cursor rc cf w.
  induction fuel as [|fuel IH]; intros a d m cursor rc cf w H; [discriminate|].
  rewrite recursive_loc_S in H. cbv zeta in H.
  set (req := HistoryPage owner repo_name cursor) in *.
  assert (Hstep : forall a1 d1 m1 c1 rc1 cf1 extra,
    0 <= extra -> m <= m1 <= m + extra ->
    extra <= commits_of (remote (length (posts w)) req) ->
    recursive_loc fuel owner repo_name data cc a1 d1 m1 c1 rc1 cf1
      (with_post req (with_count "recursive_loc" w)) = (Ok (LocTuple a' d' m'), w') \/
    (exists delay,
    recursive_loc fuel owner repo_name data cc a1 d1 m1 c1 rc1 cf1
      (with_sleep delay (with_post req (with_count "recursive_loc" w)))
       = (Ok (LocTuple a' d' m'), w')) ->
    exists reqs, posts w' = (posts w ++ reqs)%list /\ files w' = files w /\
      m <= m' <= m + fetched (length (posts w)) reqs).
  { intros a1 d1 m1 c1 rc1 cf1 extra Hex Hm Hle [Hr|[delay Hr]];
      apply IH in Hr as (reqs & Hp & Hf & Hb); simpl in Hp, Hf, Hb;
      exists (req :: reqs); (split; [rewrite Hp, <- app_assoc; reflexivity|]);
      (split; [assumption|]); simpl; rewrite length_app in Hb; simpl in Hb;
      replace (S (length (posts w))) with (length (posts w) + 1)%nat by lia; lia. }
  destruct (status_code (remote _ req) =? 200)%Z eqn:Hs.
  - destruct (json (remote _ req)) as [[history|]|] eqn:Hj; try discriminate.
    pose proof (loc_counter_cases
      (fun a d m c fetched => recursive_loc fuel owner repo_name data cc a d m c 0 fetched)
      history a d m cf (with_post req (with_count "recursive_loc" w))) as Hc.
    pose proof (count_authored_bounds (history_edges history) a d m) as Hb.
    destruct (count_authored _ _ _ _) as [[a1 d1] m1].
    assert (Hco : commits_of (remote (length (posts w)) req)
                  = Z.of_nat (length (history_edges history))).
    { unfold commits_of. rewrite Hs, Hj. reflexivity. }
    destruct Hc as [Hc|(_ & _ & _ & Hc)]; rewrite Hc in H.
    + inversion H; subst. exists [req].
      split; [reflexivity|]. split; [reflexivity|].
      cbn [Observe.fetched]. rewrite Hco. lia.
    + eapply (Hstep _ _ _ _ _ _ (Z.of_nat (length (history_edges history))));
        [lia|exact Hb|lia|left; exact H].
  - destruct (is_transient _ && _).
    + unfold bind, sleep in H.
      eapply (Hstep a d m cursor (rc + 1) 0 0);
        [lia|lia|apply commits_of_nonneg|right; eexists; exact H].
    + unfold bind, force_close_file, open_write in H.
      destruct (status_code _ =? 403)%Z; discriminate.
Qed.

(** The integer [0] is returned only when the remote reports an empty
    default branch. *)
Lemma recursive_loc_int fuel owner repo_name data cc a d m cursor rc cf w z w' :
  recursive_loc fuel owner repo_name data cc a d m cursor rc cf w = (Ok (LocInt z), w') ->
  exists k req, status_code (remote k req) = 200 /\ json (remote k req) = HistoryData None.
Proof.
  revert a d m cursor rc cf w.
  induction fuel as [|fuel IH]; intros a d m cursor rc cf w H; [discriminate|].
  rewrite recursive_loc_S in H. cbv zeta in H.
  destruct (status_code _ =? 200)%Z eqn:Hs.
  - destruct (json _) as [[history|]|] eqn:Hj; try discriminate.
    + pose proof (loc_counter_cases
        (fun a d m c fetched => recursive_loc fuel owner repo_name data cc a d m c 0 fetched)
        history a d m cf
        (with_post (HistoryPage owner repo_name cursor) (with_count "recursive_loc" w))) as Hc.
      destruct (count_authored _ _ _ _) as [[a1 d1] m1].
      destruct Hc as [Hc|(_ & _ & _ & Hc)]; rewrite Hc in H; [discriminate|].
      cbv beta in H. eapply IH; eassumption.
    + apply Z.eqb_eq in Hs. eauto.
  - destruct (is_transient _ && _).
    + unfold bind, sleep in H. eapply IH; eassumption.
    + unfold bind, force_close_file, open_write in H.
      destruct (status_code _ =? 403)%Z; discriminate.
Qed.

End ReducerFacts.

(** * Facts about the reconciliation loop *)

Section LedgerFacts.

Variable USER_NAME : string.
Variable OWNER_ID : string.
Variable remote : nat -> Request -> Response.

#[local] Abbreviation recursive_loc := (recursive_loc USER_NAME OWNER_ID remote).
#[local] Abbreviation cache_filename := (cache_filename USER_NAME).
#[local] Abbreviation reconcile_line := (reconcile_line USER_NAME OWNER_ID remote).
#[local] Abbreviation reconcile := (reconcile USER_NAME OWNER_ID remote).
#[local] Abbreviation refresh_line := (refresh_line USER_NAME OWNER_ID remote).
#[local] Abbreviation reconciled := (reconciled USER_NAME OWNER_ID remote).

Lemma setitem_in_range {A} (l : list A) i v x w :
  l !! i = Some x -> setitem l i v w = (Ok (<[i := v]> l), w).
Proof.
  intros H. apply lookup_lt_Some in H. unfold setitem.
  destruct (Nat.ltb_spec i (length l)); [reflexivity|lia].
Qed.

(** The body of the [try], case by case. *)
Lemma refresh_line_cases fuel edge cc i h c data old w :
  data !! i = Some old ->
  match PyStr.int c with
  | None => refresh_line fuel edge cc i h c data w = (Raise ValueError, w)
  | Some stored =>
      match defaultBranchRef edge with
      | None => refresh_line fuel edge cc i h c data w = (Raise TypeError, w)
      | Some totalCount =>
          if (stored =? totalCount)%Z
          then refresh_line fuel edge cc i h c data w = (Ok data, w)
          else
            match PyStr.split_slash (nameWithOwner edge) with
            | [owner; repo_name] =>
                match recursive_loc fuel owner repo_name data cc 0 0 0 None 0 0 w with
                | (Ok (LocTuple a d m), w1) =>
                    refresh_line fuel edge cc i h c data w
                      = (Ok (<[i := updated_line h totalCount (a, d, m)]> data), w1)
                | (Ok (LocInt _), w1) =>
                    refresh_line fuel edge cc i h c data w = (Raise TypeError, w1)
                | (Raise e, w1) =>
                    refresh_line fuel edge cc i h c data w = (Raise e, w1)
                | (OutOfFuel, w1) =>
                    refresh_line fuel edge cc i h c data w = (OutOfFuel, w1)
                end
            | _ => refresh_line fuel edge cc i h c data w = (Raise ValueError, w)
            end
      end
  end.
Proof.
  intros Hi. unfold refresh_line, Main.refresh_line, bind, py_int.
  destruct (PyStr.int c) as [stored|]; [|reflexivity]. cbn [ret raise].
  destruct (defaultBranchRef edge) as [totalCount|]; [|reflexivity].
  destruct (stored =? totalCount)%Z; [reflexivity|]. cbn [negb].
  destruct (PyStr.split_slash (nameWithOwner edge)) as [|owner [|repo_name [|? ?]]];
    try reflexivity.
  destruct (recursive_loc fuel owner repo_name data cc 0 0 0 None 0 0 w)
    as [[[a d m|z]|e|] w1]; try reflexivity.
  apply (setitem_in_range _ _ _ _ _ Hi).
Qed.

(** One iteration that completes is one of the five cases of [reconciled]. *)
Lemma reconcile_line_Ok fuel edges cc i data w data' w' :
  reconcile_line fuel edges cc i data w = (Ok data', w') ->
  exists old new edge,
    data !! i = Some old /\ edges !! i = Some edge /\
    reconciled fuel edge cc data w old new w' /\
    data' = <[i := new]> data.
Proof.
  unfold reconcile_line, Main.reconcile_line, bind, getitem.
  destruct (data !! i) as [old|] eqn:Hi; [|discriminate]. cbn [ret].
  destruct (PyStr.split old) as [|h [|c rest]] eqn:Hsplit; try discriminate.
  destruct (edges !! i) as [edge|] eqn:He; [|discriminate]. cbn [ret].
  destruct (String.eqb_spec h (Sha256.hexdigest (nameWithOwner edge))) as [->|Hne].
  - unfold try_except. fold refresh_line.
    pose proof (refresh_line_cases fuel edge cc i
                  (Sha256.hexdigest (nameWithOwner edge)) c data old w Hi) as Hc.
    destruct (PyStr.int c) as [stored|] eqn:Hint; [|rewrite Hc; discriminate].
    destruct (defaultBranchRef edge) as [totalCount|] eqn:Hb.
    + destruct (Z.eqb_spec stored totalCount) as [->|Hst].
      * rewrite Hc. intros [= <- <-]. exists old, old, edge.
        repeat split; try assumption.
        -- eapply rec_unchanged; eassumption.
        -- symmetry. apply list_insert_id. assumption.
      * destruct (PyStr.split_slash (nameWithOwner edge))
          as [|owner [|repo_name [|? ?]]] eqn:Hsl; try (rewrite Hc; discriminate).
        destruct (recursive_loc fuel owner repo_name data cc 0 0 0 None 0 0 w)
          as [[[a d m|z]|e|] w1] eqn:Hr; rewrite Hc.
        -- intros [= <- <-]. eexists old, _, edge.
           repeat split; try eassumption.
           eapply rec_refreshed; eassumption.
        -- cbn [is_TypeError]. rewrite (setitem_in_range _ _ _ _ _ Hi).
           intros [= <- <-]. eexists old, _, edge.
           repeat split; try eassumption.
           eapply rec_vanished; eassumption.
        -- apply recursive_loc_raises in Hr as [->|Hr]; [discriminate|].
           destruct e; try discriminate.
        -- discriminate.
    + rewrite Hc. cbn [is_TypeError]. rewrite (setitem_in_range _ _ _ _ _ Hi).
      intros [= <- <-]. eexists old, _, edge.
      repeat split; try eassumption.
      eapply rec_empty; eassumption.
  - intros [= <- <-]. exists old, old, edge.
    repeat split; try assumption.
    + eapply rec_skipped; eassumption.
    + symmetry. apply list_insert_id. assumption.
Qed.

(** A failure of the remote in one iteration leaves the ledger saved from
    the lines of that moment. *)
Lemma reconcile_line_raise fuel edges cc i data w e w' :
  reconcile_line fuel edges cc i data w = (Raise e, w') ->
  is_remote_failure e = true ->
  files w' !! cache_filename = Some (PyStr.writelines cc ++ PyStr.writelines data).
Proof.
  unfold reconcile_line, Main.reconcile_line, bind, getitem.
  destruct (data !! i) as [old|] eqn:Hi; [|intros [= <- <-]; discriminate]. cbn [ret].
  destruct (PyStr.split old) as [|h [|c rest]] eqn:Hsplit;
    try (intros [= <- <-]; discriminate).
  destruct (edges !! i) as [edge|] eqn:He; [|intros [= <- <-]; discriminate]. cbn [ret].
  destruct (String.eqb h (Sha256.hexdigest (nameWithOwner edge))); [|discriminate].
  unfold try_except. fold refresh_line.
  pose proof (refresh_line_cases fuel edge cc i h c data old w Hi) as Hc.
  destruct (PyStr.int c) as [stored|];
    [|rewrite Hc; intros [= <- <-]; discriminate].
  destruct (defaultBranchRef edge) as [totalCount|].
  - destruct (stored =? totalCount)%Z; [rewrite Hc; discriminate|].
    destruct (PyStr.split_slash (nameWithOwner edge))
      as [|owner [|repo_name [|? ?]]]; try (rewrite Hc; intros [= <- <-]; discriminate).
    destruct (recursive_loc fuel owner repo_name data cc 0 0 0 None 0 0 w)
      as [[[a d m|z]|e1|] w1] eqn:Hr; rewrite Hc.
    + discriminate.
    + cbn [is_TypeError]. rewrite (setitem_in_range _ _ _ _ _ Hi). discriminate.
    + destruct (is_TypeError e1) eqn:Ht.
      * rewrite (setitem_in_range _ _ _ _ _ Hi). discriminate.
      * intros [= <- <-] Hf. eapply recursive_loc_raise_saved; eassumption.
    + discriminate.
  - rewrite Hc. cbn [is_TypeError]. rewrite (setitem_in_range _ _ _ _ _ Hi). discriminate.
Qed.

(** What a completed loop leaves in the ledger lines. *)
Lemma reconcile_Ok fuel edges cc indices data w data' w' :
  reconcile fuel edges cc indices data w = (Ok data', w') ->
  NoDup indices ->
  length data' = length data /\
  (forall j, j ∉ indices -> data' !! j = data !! j) /\
  (forall i, i ∈ indices ->
     exists old new edge data1 w1 w2,
       data !! i = Some old /\ edges !! i = Some edge /\
       reconciled fuel edge cc data1 w1 old new w2 /\
       data' !! i = Some new).
Proof.
  revert data w. induction indices as [|i rest IH]; intros data w H Hnd.
  - inversion H; subst. split; [reflexivity|]. split; [reflexivity|].
    intros i Hi. inversion Hi.
  - cbn [Main.reconcile] in H. unfold bind in H.
    destruct (reconcile_line fuel edges cc i data w) as [[data1| |] w1] eqn:Hl;
      try discriminate.
    apply reconcile_line_Ok in Hl as (old & new & edge & Hi & He & Hrec & ->).
    apply NoDup_cons in Hnd as [Hni Hnd].
    destruct (IH _ _ H Hnd) as (Hlen & Hout & Hin).
    rewrite length_insert in Hlen.
    split; [assumption|]. split.
    + intros j Hj. rewrite not_elem_of_cons in Hj. destruct Hj as [Hji Hj].
      rewrite (Hout j Hj). apply list_lookup_insert_ne. congruence.
    + intros k Hk. apply elem_of_cons in Hk as [->|Hk].
      * exists old, new, edge, data, w, w1. repeat split; try assumption.
        rewrite (Hout i Hni). apply list_lookup_insert_eq.
        eapply lookup_lt_Some; eassumption.
      * destruct (Hin k Hk) as (old' & new' & edge' & data2 & w2 & w3 & Hk1 & Hk2 & Hk3 & Hk4).
        exists old', new', edge', data2, w2, w3. repeat split; try assumption.
        rewrite <- Hk1. symmetry. apply list_lookup_insert_ne.
        intros ->. contradiction.
Qed.

(** A loop stopped by a failure of the remote: the lines before the
    failing one were reconciled, and the ledger was saved with them. *)
Lemma reconcile_raise fuel edges cc indices data w e w' :
  reconcile fuel edges cc indices data w = (Raise e, w') ->
  is_remote_failure e = true ->
  exists done i rest data_i w_i,
    indices = (done ++ i :: rest)%list /\
    reconcile fuel edges cc done data w = (Ok data_i, w_i) /\
    reconcile_line fuel edges cc i data_i w_i = (Raise e, w') /\
    files w' !! cache_filename = Some (PyStr.writelines cc ++ PyStr.writelines data_i).
Proof.
  revert data w. induction indices as [|i rest IH]; intros data w H He; [discriminate|].
  cbn [Main.reconcile] in H. unfold bind in H.
  destruct (reconcile_line fuel edges cc i data w) as [[data1|e1|] w1] eqn:Hl;
    try discriminate.
  - destruct (IH _ _ H He) as (done & k & rest' & data_k & w_k & -> & Hd & Hk & Hf).
    exists (i :: done), k, rest', data_k, w_k. repeat split; try assumption.
    cbn [Main.reconcile]. unfold bind. rewrite Hl. exact Hd.
  - inversion H; subst. exists [], i, rest, data, w. repeat split; try assumption.
    eapply reconcile_line_raise; eassumption.
Qed.

(** The new line of an iteration is the old one or a complete line. *)
Lemma reconciled_replaced fuel edge cc data w old new w' :
  reconciled fuel edge cc data w old new w' -> Shape.replaced old new.
Proof.
  intros H. inversion H; subst; try (left; reflexivity); right.
  - apply LineFacts.is_line_zero_line, PyStrFacts.hexdigest_token.
  - apply LineFacts.is_line_updated_line, PyStrFacts.hexdigest_token.
  - apply LineFacts.is_line_zero_line, PyStrFacts.hexdigest_token.
Qed.

End LedgerFacts.

(** * Facts about the ledger file *)

Section FileFacts.

Variable USER_NAME : string.
Variable OWNER_ID : string.
Variable remote : nat -> Request -> Response.

#[local] Abbreviation cache_filename := (cache_filename USER_NAME).
#[local] Abbreviation ledger_lines := (ledger_lines USER_NAME).
#[local] Abbreviation opened := (opened USER_NAME).
#[local] Abbreviation load_ledger := (load_ledger USER_NAME).
#[local] Abbreviation reconcile := (reconcile USER_NAME OWNER_ID remote).
#[local] Abbreviation reconcile_line := (reconcile_line USER_NAME OWNER_ID remote).
#[local] Abbreviation reconcile_and_sum := (reconcile_and_sum USER_NAME OWNER_ID remote).
#[local] Abbreviation cache_builder := (cache_builder USER_NAME OWNER_ID remote).
#[local] Abbreviation reconciled := (reconciled USER_NAME OWNER_ID remote).

Lemma is_line_COMMENT_LINE : Shape.is_line COMMENT_LINE = true.
Proof. reflexivity. Qed.

Lemma lines_ok_comment_block n : Shape.lines_ok (repeat COMMENT_LINE n) = true.
Proof.
  apply LineFacts.lines_ok_all_lines.
  induction n; simpl; constructor; [apply is_line_COMMENT_LINE|assumption].
Qed.

Lemma lines_ok_ledger_lines cs w : Shape.lines_ok (ledger_lines cs w) = true.
Proof.
  unfold ledger_lines, Observe.ledger_lines.
  destruct (files w !! cache_filename);
    [apply LineFacts.lines_ok_readlines|apply lines_ok_comment_block].
Qed.

Lemma ledger_lines_opened cs w :
  exists content,
    files (opened cs w) !! cache_filename = Some content /\
    PyStr.readlines content = ledger_lines cs w.
Proof.
  unfold opened, Observe.opened, ledger_lines, Observe.ledger_lines.
  destruct (files w !! cache_filename) as [content|] eqn:E.
  - exists content. split; [assumption|reflexivity].
  - eexists. split; [apply lookup_insert_eq|].
    apply LineFacts.readlines_writelines, lines_ok_comment_block.
Qed.

(** Lines 406-431: the file is created when missing, and rebuilt when its
    size does not match or a refresh is forced. *)
Lemma load_ledger_spec edges cs force w :
  load_ledger edges cs force w =
  let lines := ledger_lines cs w in
  if must_rebuild edges cs force lines then
    (Ok (false, PyStr.readlines (rebuilt edges cs lines)),
     with_file cache_filename (rebuilt edges cs lines) (opened cs w))
  else (Ok (true, lines), opened cs w).
Proof.
  cbv zeta.
  destruct (ledger_lines_opened cs w) as (content & Hc & Hr).
  assert (Hfirst :
    try_except (open_read cache_filename) is_FileNotFoundError
      (open_write cache_filename
         (PyStr.writelines (if (0 <? cs)%nat then repeat COMMENT_LINE cs else [])) ;;
       ret (if (0 <? cs)%nat then repeat COMMENT_LINE cs else [])) w
    = (Ok (ledger_lines cs w), opened cs w)).
  { unfold try_except, open_read, opened, Observe.opened, ledger_lines, Observe.ledger_lines.
    destruct (files w !! cache_filename); [reflexivity|].
    cbn [is_FileNotFoundError]. unfold bind, open_write, ret.
    destruct cs; reflexivity. }
  unfold load_ledger, Main.load_ledger. cbv zeta.
  unfold bind at 1. rewrite Hfirst.
  fold (must_rebuild edges cs force (ledger_lines cs w)).
  destruct (must_rebuild edges cs force (ledger_lines cs w)); [|reflexivity].
  unfold flush_cache, bind, open_read. rewrite Hc, Hr.
  assert (Hd : (if (0 <? cs)%nat then firstn cs (ledger_lines cs w) else [])
               = firstn cs (ledger_lines cs w)) by (destruct cs; reflexivity).
  rewrite Hd. unfold open_write. cbn [files with_file].
  rewrite lookup_insert_eq. reflexivity.
Qed.

Lemma load_ledger_lines_ok edges cs force w cached lines w0 :
  load_ledger edges cs force w = (Ok (cached, lines), w0) ->
  Shape.lines_ok lines = true /\
  cached = negb (must_rebuild edges cs force (ledger_lines cs w)) /\
  posts w0 = posts w /\ sleeps w0 = sleeps w.
Proof.
  rewrite load_ledger_spec. cbv zeta.
  assert (Ho : posts (opened cs w) = posts w /\ sleeps (opened cs w) = sleeps w).
  { unfold opened, Observe.opened. destruct (files w !! cache_filename); split; reflexivity. }
  destruct (must_rebuild _ _ _ _); intros [= <- <- <-].
  - split; [apply LineFacts.lines_ok_readlines|]. split; [reflexivity|exact Ho].
  - split; [apply lines_ok_ledger_lines|]. split; [reflexivity|exact Ho].
Qed.

(** The summing loop does not touch the state. *)
Lemma sum_loc_pure data a d w :
  exists r, forall w0, sum_loc data a d w0 = (r, w0) /\ sum_loc data a d w = (r, w).
Proof.
  revert a d. induction data as [|line data IH]; intros a d.
  - exists (Ok (a, d)). intros w0. split; reflexivity.
  - cbn [sum_loc]. unfold bind, getitem, py_int.
    destruct (PyStr.split line !! 3%nat) as [t3|];
      [|exists (Raise IndexError); intros; split; reflexivity]. cbn [ret].
    destruct (PyStr.int t3) as [x|];
      [|exists (Raise ValueError); intros; split; reflexivity]. cbn [ret].
    destruct (PyStr.split line !! 4%nat) as [t4|];
      [|exists (Raise IndexError); intros; split; reflexivity]. cbn [ret].
    destruct (PyStr.int t4) as [y|];
      [|exists (Raise ValueError); intros; split; reflexivity]. cbn [ret].
    apply IH.
Qed.

Lemma sum_loc_state data a d w r w' :
  sum_loc data a d w = (r, w') -> w' = w /\ forall w0, sum_loc data a d w0 = (r, w0).
Proof.
  intros H. destruct (sum_loc_pure data a d w) as (r0 & Hr).
  destruct (Hr w) as [_ H0]. rewrite H0 in H. inversion H; subst.
  split; [reflexivity|]. intros w0. apply Hr.
Qed.

Lemma sum_loc_raises data a d w e w' :
  sum_loc data a d w = (Raise e, w') -> is_remote_failure e = false.
Proof.
  revert a d. induction data as [|line data IH]; intros a d; [discriminate|].
  cbn [sum_loc]. unfold bind, getitem, py_int.
  destruct (PyStr.split line !! 3%nat); [|intros [= <- <-]; reflexivity]. cbn [ret].
  destruct (PyStr.int _); [|intros [= <- <-]; reflexivity]. cbn [ret].
  destruct (PyStr.split line !! 4%nat); [|intros [= <- <-]; reflexivity]. cbn [ret].
  destruct (PyStr.int _); [|intros [= <- <-]; reflexivity]. cbn [ret].
  apply IH.
Qed.

Lemma firstn_firstn_app {A} cs (l d : list A) :
  length d = length (skipn cs l) ->
  firstn cs (firstn cs l ++ d) = firstn cs l /\ skipn cs (firstn cs l ++ d) = d.
Proof.
  intros Hd. destruct (Nat.le_gt_cases cs (length l)) as [Hle|Hgt].
  - assert (Hl : length (firstn cs l) = cs) by (rewrite length_firstn; lia).
    split.
    + rewrite firstn_app, Hl, Nat.sub_diag, firstn_firstn, Nat.min_id.
      cbn [firstn]. apply app_nil_r.
    + rewrite skipn_app, Hl, Nat.sub_diag. cbn [skipn].
      rewrite <- Hl at 1. rewrite skipn_all. reflexivity.
  - rewrite length_skipn in Hd. replace (length l - cs)%nat with 0%nat in Hd by lia.
    destruct d; [|discriminate]. rewrite app_nil_r.
    assert (E : firstn cs l = l) by (apply firstn_all2; lia).
    rewrite E. split; [exact E|]. apply skipn_all2. lia.
Qed.

(** A completed run of [cache_builder], step by step. *)
Lemma cache_builder_Ok fuel edges cs force w r w' :
  cache_builder fuel edges cs force w = (Ok r, w') ->
  exists lines w0 data w1 a d,
    load_ledger edges cs force w
      = (Ok (negb (must_rebuild edges cs force (ledger_lines cs w)), lines), w0) /\
    Shape.lines_ok lines = true /\
    reconcile fuel edges (firstn cs lines) (seq 0 (length edges)) (skipn cs lines) w0
      = (Ok data, w1) /\
    w' = with_file cache_filename
           (PyStr.writelines (firstn cs lines) ++ PyStr.writelines data) w1 /\
    (forall w2, sum_loc data 0 0 w2 = (Ok (a, d), w2)) /\
    r = (a, d, a - d, negb (must_rebuild edges cs force (ledger_lines cs w))).
Proof.
  unfold cache_builder, Main.cache_builder, bind.
  destruct (load_ledger edges cs force w) as [[[cached lines]| |] w0] eqn:Hload;
    try discriminate.
  destruct (load_ledger_lines_ok _ _ _ _ _ _ _ Hload) as (Hok & -> & _).
  unfold Main.reconcile_and_sum, bind.
  destruct (Main.reconcile _ _ _ _ _ _ _ _ _) as [[data| |] w1] eqn:Hrec;
    try discriminate.
  unfold open_write.
  destruct (sum_loc data 0 0 _) as [[[a d]| |] w2] eqn:Hsum; try discriminate.
  apply sum_loc_state in Hsum as [-> Hsum].
  intros [= <- <-].
  exists lines, w0, data, w1, a, d. repeat split; try assumption; reflexivity.
Qed.

End FileFacts.

(** * Retry and partial-failure handling *)

Section RetryTheorems.

Variable USER_NAME : string.
Variable OWNER_ID : string.
Variable remote : nat -> Request -> Response.

#[local] Abbreviation recursive_loc := (recursive_loc USER_NAME OWNER_ID remote).
#[local] Abbreviation loc_counter_one_repo := (loc_counter_one_repo USER_NAME OWNER_ID remote).
#[local] Abbreviation cache_filename := (cache_filename USER_NAME).
#[local] Abbreviation loc_query := (loc_query USER_NAME OWNER_ID remote).
#[local] Abbreviation cache_builder := (cache_builder USER_NAME OWNER_ID remote).
#[local] Abbreviation load_ledger := (load_ledger USER_NAME).
#[local] Abbreviation reconcile := (reconcile USER_NAME OWNER_ID remote).
#[local] Abbreviation reconcile_line := (reconcile_line USER_NAME OWNER_ID remote).

Lemma transient_not_200 status : is_transient status = true -> (status =? 200)%Z = false.
Proof.
  unfold is_transient, TRANSIENT_ERROR_CODES. cbn [existsb].
  rewrite !orb_true_iff, !Z.eqb_eq. intros H. apply Z.eqb_neq. lia.
Qed.

Lemma transient_not_403 status : is_transient status = true -> (status =? 403)%Z = false.
Proof.
  unfold is_transient, TRANSIENT_ERROR_CODES. cbn [existsb].
  rewrite !orb_true_iff, !Z.eqb_eq. intros H. apply Z.eqb_neq. lia.
Qed.

(** One retry. *)
Lemma recursive_loc_retry fuel owner repo_name data cc a d m cursor rc cf w :
  is_transient (status_code (remote (length (posts w))
                               (HistoryPage owner repo_name cursor))) = true ->
  rc < MAX_RETRIES ->
  recursive_loc (S fuel) owner repo_name data cc a d m cursor rc cf w =
  recursive_loc fuel owner repo_name data cc a d m cursor (rc + 1) 0
    (with_sleep (RETRY_DELAY_BASE * 2 ^ rc)
       (with_post (HistoryPage owner repo_name cursor) (with_count "recursive_loc" w))).
Proof.
  intros Ht Hrc. rewrite recursive_loc_S. cbv zeta.
  rewrite (transient_not_200 _ Ht), Ht.
  destruct (Z.ltb_spec rc MAX_RETRIES); [reflexivity|lia].
Qed.

(** [k] consecutive transient failures, retries permitting. *)
Lemma recursive_loc_retries k :
  forall fuel owner repo_name data cc a d m cursor rc cf w,
    rc + Z.of_nat k <= MAX_RETRIES ->
    (forall i, (i < k)%nat ->
       is_transient (status_code (remote (length (posts w) + i)
                                    (HistoryPage owner repo_name cursor))) = true) ->
    exists w',
      recursive_loc (k + fuel) owner repo_name data cc a d m cursor rc cf w =
      recursive_loc fuel owner repo_name data cc a d m cursor (rc + Z.of_nat k)
        (match k with O => cf | S _ => 0 end) w' /\
      posts w' = (posts w ++ repeat (HistoryPage owner repo_name cursor) k)%list /\
      sleeps w' = (sleeps w ++ delays rc k)%list /\
      files w' = files w.
Proof.
  induction k as [|k IH]; intros fuel owner repo_name data cc a d m cursor rc cf w Hrc Ht.
  - exists w. rewrite Z.add_0_r, !app_nil_r. repeat split; reflexivity.
  - cbn [Nat.add]. rewrite recursive_loc_retry; [| |lia].
    2:{ specialize (Ht 0%nat). rewrite Nat.add_0_r in Ht. apply Ht. lia. }
    edestruct (IH fuel owner repo_name data cc a d m cursor (rc + 1) 0
                 (with_sleep (RETRY_DELAY_BASE * 2 ^ rc)
                    (with_post (HistoryPage owner repo_name cursor)
                       (with_count "recursive_loc" w)))) as (w' & He & Hp & Hs & Hf).
    + lia.
    + intros i Hi. cbn [posts with_sleep with_post with_count].
      rewrite length_app. cbn [length].
      replace (length (posts w) + 1 + i)%nat with (length (posts w) + S i)%nat by lia.
      apply Ht. lia.
    + exists w'. split; [|split; [|split]].
      * rewrite He. replace (rc + 1 + Z.of_nat k) with (rc + Z.of_nat (S k)) by lia.
        destruct k; reflexivity.
      * rewrite Hp. cbn [posts with_sleep with_post with_count repeat].
        rewrite <- app_assoc. reflexivity.
      * rewrite Hs. cbn [sleeps with_sleep with_post with_count delays].
        rewrite <- app_assoc. reflexivity.
      * rewrite Hf. reflexivity.
Qed.



End RetryTheorems.

(** * Durability and rebuild of the ledger *)

Section LedgerTheorems.

Variable USER_NAME : string.
Variable OWNER_ID : string.
Variable remote : nat -> Request -> Response.

#[local] Abbreviation recursive_loc := (recursive_loc USER_NAME OWNER_ID remote).
#[local] Abbreviation cache_filename := (cache_filename USER_NAME).
#[local] Abbreviation cache_builder := (cache_builder USER_NAME OWNER_ID remote).
#[local] Abbreviation load_ledger := (load_ledger USER_NAME).
#[local] Abbreviation ledger_lines := (ledger_lines USER_NAME).
#[local] Abbreviation opened := (opened USER_NAME).
#[local] Abbreviation reconcile := (reconcile USER_NAME OWNER_ID remote).
#[local] Abbreviation reconcile_line := (reconcile_line USER_NAME OWNER_ID remote).
#[local] Abbreviation reconcile_and_sum := (reconcile_and_sum USER_NAME OWNER_ID remote).

Lemma seq_split_at (done : list nat) i rest n :
  seq 0 n = (done ++ i :: rest)%list -> done = seq 0 i /\ (i < n)%nat.
Proof.
  intros H.
  assert (Hlen : length (seq 0 n) = (length done + S (length rest))%nat).
  { rewrite H, length_app. reflexivity. }
  rewrite length_seq in Hlen.
  assert (Hi : i = length done).
  { assert (Hn : nth (length done) (seq 0 n) 0%nat = i).
    { rewrite H, app_nth2, Nat.sub_diag by lia. reflexivity. }
    rewrite seq_nth in Hn by lia. lia. }
  split; [|lia].
  assert (Hf : firstn (length done) (seq 0 n) = done).
  { rewrite H, firstn_app, Nat.sub_diag, firstn_all. cbn [firstn]. apply app_nil_r. }
  rewrite <- Hf, Hi. rewrite take_seq. f_equal. lia.
Qed.


(** C6. When the number of data lines differs from the number of
    enumerated repositories, or a refresh is forced, the ledger file is
    rewritten, before any line is reconciled, as the comment block it had
    followed by one line per enumerated repository, in order, made of the
    SHA-256 key of its name, the text [ 0 0 0 0] (four zero fields, each
    after one space) and a line feed; the reconciliation then
    starts from what that file reads back as, which is the comment block
    and exactly these lines when the comment block is made of complete
    lines. *)
Theorem rebuild_on_size_change_or_force :
  forall fuel edges comment_size force_cache w,
    let lines := ledger_lines comment_size w in
    let zeros :=
      map (fun node =>
             Sha256.hexdigest (nameWithOwner node) ++ " 0 0 0 0"
               ++ String "010"%char EmptyString)
          edges in
    let content := PyStr.writelines (firstn comment_size lines) ++ PyStr.writelines zeros in
    Z.of_nat (length lines) - Z.of_nat comment_size <> Z.of_nat (length edges)
      \/ force_cache = true ->
    load_ledger edges comment_size force_cache w =
      (Ok (false, PyStr.readlines content),
       with_file cache_filename content (opened comment_size w)) /\
    cache_builder fuel edges comment_size force_cache w =
      reconcile_and_sum fuel edges comment_size false (PyStr.readlines content) 0 0
        (with_file cache_filename content (opened comment_size w)) /\
    ((comment_size <= length lines)%nat ->
     Forall (fun l => Shape.is_line l = true) (firstn comment_size lines) ->
     firstn comment_size (PyStr.readlines content) = firstn comment_size lines /\
     skipn comment_size (PyStr.readlines content) = zeros).
Proof.
  intros fuel edges cs force w lines zeros content Hneed.
  change zeros
    with (map (fun node => zero_line (Sha256.hexdigest (nameWithOwner node))) edges) in *.
  assert (Hmust : must_rebuild edges cs force lines = true).
  { unfold must_rebuild. destruct Hneed as [Hne| ->]; [|apply orb_true_r].
    apply Z.eqb_neq in Hne. rewrite Hne. reflexivity. }
  assert (Hload : load_ledger edges cs force w =
            (Ok (false, PyStr.readlines content),
             with_file cache_filename content (opened cs w))).
  { rewrite load_ledger_spec. cbv zeta. fold lines. rewrite Hmust. reflexivity. }
  split; [exact Hload|]. split.
  - unfold cache_builder, Main.cache_builder, bind. fold load_ledger.
    rewrite Hload. reflexivity.
  - intros Hlen Hhdr.
    assert (Hz : Forall (fun l => Shape.is_line l = true) zeros).
    { unfold zeros. clear. induction edges; simpl; constructor; [|assumption].
      apply LineFacts.is_line_zero_line, PyStrFacts.hexdigest_token. }
    assert (Hread : PyStr.readlines content = (firstn cs lines ++ zeros)%list).
    { unfold content. rewrite <- LineFacts.writelines_app.
      apply LineFacts.readlines_writelines, LineFacts.lines_ok_all_lines.
      apply Forall_app. split; assumption. }
    rewrite Hread.
    assert (Hl : length (firstn cs lines) = cs) by (rewrite length_firstn; lia).
    split.
    + rewrite firstn_app, Hl, Nat.sub_diag, firstn_firstn, Nat.min_id.
      cbn [firstn]. apply app_nil_r.
    + rewrite skipn_app, Hl, Nat.sub_diag. cbn [skipn].
      rewrite <- Hl at 1. rewrite skipn_all. reflexivity.
Qed.

End LedgerTheorems.

(** * Reconciliation of the ledger lines *)

Section ReconcileTheorems.

Variable USER_NAME : string.
Variable OWNER_ID : string.
Variable remote : nat -> Request -> Response.

#[local] Abbreviation recursive_loc := (recursive_loc USER_NAME OWNER_ID remote).
#[local] Abbreviation cache_filename := (cache_filename USER_NAME).
#[local] Abbreviation cache_builder := (cache_builder USER_NAME OWNER_ID remote).
#[local] Abbreviation load_ledger := (load_ledger USER_NAME).
#[local] Abbreviation ledger_lines := (ledger_lines USER_NAME).
#[local] Abbreviation opened := (opened USER_NAME).
#[local] Abbreviation reconcile := (reconcile USER_NAME OWNER_ID remote).
#[local] Abbreviation reconcile_line := (reconcile_line USER_NAME OWNER_ID remote).
#[local] Abbreviation refresh_line := (refresh_line USER_NAME OWNER_ID remote).
#[local] Abbreviation reconcile_and_sum := (reconcile_and_sum USER_NAME OWNER_ID remote).
#[local] Abbreviation reconciled := (reconciled USER_NAME OWNER_ID remote).
#[local] Abbreviation fetched_between := (fetched_between remote).

(** A line whose key is not the key of the repository is passed over. *)
Lemma reconcile_line_mismatch fuel edges cc i data w old edge h c rest :
  data !! i = Some old -> edges !! i = Some edge ->
  PyStr.split old = h :: c :: rest ->
  h <> Sha256.hexdigest (nameWithOwner edge) ->
  reconcile_line fuel edges cc i data w = (Ok data, w).
Proof.
  intros Hi He Hs Hne.
  unfold reconcile_line, Main.reconcile_line, bind, getitem.
  rewrite Hi. cbn [ret]. rewrite Hs, He. cbn [ret].
  destruct (String.eqb_spec h (Sha256.hexdigest (nameWithOwner edge))); [contradiction|].
  reflexivity.
Qed.

(** The line of an empty repository is zeroed, the remote not called. *)
Lemma reconcile_line_empty fuel edges cc i data w old edge c rest stored :
  data !! i = Some old -> edges !! i = Some edge ->
  defaultBranchRef edge = None ->
  PyStr.split old = Sha256.hexdigest (nameWithOwner edge) :: c :: rest ->
  PyStr.int c = Some stored ->
  reconcile_line fuel edges cc i data w
    = (Ok (<[i := zero_line (Sha256.hexdigest (nameWithOwner edge))]> data), w).
Proof.
  intros Hi He Hb Hs Hint.
  unfold reconcile_line, Main.reconcile_line, bind, getitem.
  rewrite Hi. cbn [ret]. rewrite Hs, He. cbn [ret].
  rewrite String.eqb_refl. unfold try_except. fold refresh_line.
  pose proof (refresh_line_cases USER_NAME OWNER_ID remote fuel edge cc i
                (Sha256.hexdigest (nameWithOwner edge)) c data old w Hi) as Hc.
  rewrite Hint, Hb in Hc. rewrite Hc. cbn [is_TypeError].
  apply (setitem_in_range _ _ _ _ _ Hi).
Qed.

(** A line whose stored total is the total of the remote is left alone. *)
Lemma reconcile_line_current fuel edges cc i data w old edge c rest stored :
  data !! i = Some old -> edges !! i = Some edge ->
  defaultBranchRef edge = Some stored ->
  PyStr.split old = Sha256.hexdigest (nameWithOwner edge) :: c :: rest ->
  PyStr.int c = Some stored ->
  reconcile_line fuel edges cc i data w = (Ok data, w).
Proof.
  intros Hi He Hb Hs Hint.
  unfold reconcile_line, Main.reconcile_line, bind, getitem.
  rewrite Hi. cbn [ret]. rewrite Hs, He. cbn [ret].
  rewrite String.eqb_refl. unfold try_except. fold refresh_line.
  pose proof (refresh_line_cases USER_NAME OWNER_ID remote fuel edge cc i
                (Sha256.hexdigest (nameWithOwner edge)) c data old w Hi) as Hc.
  rewrite Hint, Hb, Z.eqb_refl in Hc. rewrite Hc. reflexivity.
Qed.

Lemma reconcile_line_settled fuel edges cc i data w line edge :
  data !! i = Some line -> edges !! i = Some edge -> settled edge line ->
  reconcile_line fuel edges cc i data w = (Ok data, w).
Proof.
  intros Hi He (h & c & rest & Hs & [Hne|(stored & Hint & [Hb|[Hb Hz]])]).
  - eapply reconcile_line_mismatch; eassumption.
  - destruct (String.eqb_spec h (Sha256.hexdigest (nameWithOwner edge))) as [->|Hne].
    + eapply reconcile_line_current; eassumption.
    + eapply reconcile_line_mismatch; eassumption.
  - destruct (String.eqb_spec h (Sha256.hexdigest (nameWithOwner edge))) as [->|Hne].
    + erewrite reconcile_line_empty by eassumption.
      rewrite <- Hz, list_insert_id by assumption. reflexivity.
    + eapply reconcile_line_mismatch; eassumption.
Qed.

Lemma reconcile_settled fuel edges cc indices data w :
  (forall i, i ∈ indices ->
     exists line edge, data !! i = Some line /\ edges !! i = Some edge /\
                       settled edge line) ->
  reconcile fuel edges cc indices data w = (Ok data, w).
Proof.
  induction indices as [|i rest IH]; intros H; [reflexivity|].
  cbn [Main.reconcile]. unfold bind.
  destruct (H i) as (line & edge & Hi & He & Hs); [left|].
  rewrite (reconcile_line_settled _ _ _ _ _ _ _ _ Hi He Hs).
  apply IH. intros k Hk. apply H. right. assumption.
Qed.

(** What an iteration writes is settled, when the remote does not report
    an empty default branch in a history answer. *)
Lemma reconciled_settled fuel edge cc data w old new w' :
  (forall k req, status_code (remote k req) = 200 ->
                 json (remote k req) <> HistoryData None) ->
  reconciled fuel edge cc data w old new w' -> settled edge new.
Proof.
  intros Hremote H.
  pose proof (PyStrFacts.hexdigest_token (nameWithOwner edge)) as Htok.
  inversion H; subst.
  - exists repo_hash, commit_count, rest. split; [assumption|left; assumption].
  - exists (Sha256.hexdigest (nameWithOwner edge)), "0", ["0"; "0"; "0"].
    split; [apply LineFacts.split_zero_line; assumption|].
    right. exists 0. split; [reflexivity|]. right. split; [assumption|reflexivity].
  - exists (Sha256.hexdigest (nameWithOwner edge)), commit_count, rest.
    split; [assumption|]. right. exists stored. split; [assumption|left; assumption].
  - exists (Sha256.hexdigest (nameWithOwner edge)), (PyStr.str totalCount),
      [PyStr.str m; PyStr.str a; PyStr.str d].
    split; [apply LineFacts.split_updated_line; assumption|].
    right. exists totalCount. split; [apply PyStrFacts.int_str|left; assumption].
  - match goal with Hr : Main.recursive_loc _ _ _ _ _ _ _ _ _ _ _ _ _ _ _ = _ |- _ =>
      apply recursive_loc_int in Hr as (k & req & H200 & Hnone) end.
    exfalso. eapply Hremote; eassumption.
Qed.

Lemma with_file_id filename content w :
  files w !! filename = Some content -> with_file filename content w = w.
Proof.
  intros H. destruct w as [f p s q]. unfold with_file. cbn [files posts sleeps QUERY_COUNT] in *.
  rewrite (insert_id f filename content H). reflexivity.
Qed.

Lemma ledger_lines_with_file cs content w :
  ledger_lines cs (with_file cache_filename content w) = PyStr.readlines content.
Proof.
  unfold ledger_lines, Observe.ledger_lines. cbn [files with_file].
  rewrite lookup_insert_eq. reflexivity.
Qed.

(** What a completed run leaves on file reads back as the comment block
    followed by the reconciled lines. *)
Lemma cache_builder_ledger fuel edges cs force w r w' :
  cache_builder fuel edges cs force w = (Ok r, w') ->
  exists lines w0 data w1 a d,
    Shape.lines_ok lines = true /\
    reconcile fuel edges (firstn cs lines) (seq 0 (length edges)) (skipn cs lines) w0
      = (Ok data, w1) /\
    (must_rebuild edges cs force (ledger_lines cs w) = false ->
     lines = ledger_lines cs w /\ w0 = opened cs w) /\
    w' = with_file cache_filename
           (PyStr.writelines (firstn cs lines) ++ PyStr.writelines data) w1 /\
    (forall w2, sum_loc data 0 0 w2 = (Ok (a, d), w2)) /\
    r = (a, d, a - d, negb (must_rebuild edges cs force (ledger_lines cs w))) /\
    ledger_lines cs w' = (firstn cs lines ++ data)%list /\
    firstn cs (ledger_lines cs w') = firstn cs lines /\
    skipn cs (ledger_lines cs w') = data.
Proof.
  intros H.
  destruct (cache_builder_Ok _ _ _ _ _ _ _ _ _ _ H)
    as (lines & w0 & data & w1 & a & d & Hload & Hok & Hrec & -> & Hsum & ->).
  destruct (reconcile_Ok _ _ _ _ _ _ _ _ _ _ _ Hrec (NoDup_seq 0 (length edges)))
    as (Hlen & Hout & Hin).
  assert (Hrep : Forall2 Shape.replaced (skipn cs lines) data).
  { apply Forall2_same_length_lookup. split; [symmetry; exact Hlen|].
    intros i old new Hold Hnew.
    destruct (decide (i ∈ seq 0 (length edges))) as [Hi|Hi].
    - destruct (Hin i Hi) as (old' & new' & edge & data1 & w2 & w3 & Ho & _ & Hr & Hn).
      rewrite Ho in Hold. rewrite Hn in Hnew.
      inversion Hold; inversion Hnew; subst.
      eapply reconciled_replaced; eassumption.
    - rewrite (Hout i Hi), Hold in Hnew. inversion Hnew. left. reflexivity. }
  assert (Hall : Shape.lines_ok (firstn cs lines ++ data) = true).
  { apply (LineFacts.lines_ok_replaced lines); [|assumption].
    rewrite <- (firstn_skipn cs lines) at 1.
    apply Forall2_app; [apply LineFacts.replaced_refl|assumption]. }
  assert (Hlines : ledger_lines cs
            (with_file cache_filename
               (PyStr.writelines (firstn cs lines) ++ PyStr.writelines data) w1)
            = (firstn cs lines ++ data)%list).
  { rewrite ledger_lines_with_file, <- LineFacts.writelines_app.
    apply LineFacts.readlines_writelines. assumption. }
  exists lines, w0, data, w1, a, d.
  destruct (firstn_firstn_app cs lines data Hlen) as [Hf Hs].
  repeat split; try assumption; try reflexivity.
  - rewrite load_ledger_spec in Hload. cbv zeta in Hload.
    rewrite H0 in Hload. inversion Hload. reflexivity.
  - rewrite load_ledger_spec in Hload. cbv zeta in Hload.
    rewrite H0 in Hload. inversion Hload. reflexivity.
  - rewrite Hlines. exact Hf.
  - rewrite Hlines. exact Hs.
Qed.

End ReconcileTheorems.

(** * The cached flag, skipped lines, empty repositories, commit counts *)

Section RunTheorems.

Variable USER_NAME : string.
Variable OWNER_ID : string.
Variable remote : nat -> Request -> Response.

#[local] Abbreviation recursive_loc := (recursive_loc USER_NAME OWNER_ID remote).
#[local] Abbreviation cache_filename := (cache_filename USER_NAME).
#[local] Abbreviation cache_builder := (cache_builder USER_NAME OWNER_ID remote).
#[local] Abbreviation load_ledger := (load_ledger USER_NAME).
#[local] Abbreviation ledger_lines := (ledger_lines USER_NAME).
#[local] Abbreviation opened := (opened USER_NAME).
#[local] Abbreviation reconcile := (reconcile USER_NAME OWNER_ID remote).
#[local] Abbreviation reconcile_line := (reconcile_line USER_NAME OWNER_ID remote).
#[local] Abbreviation reconciled := (reconciled USER_NAME OWNER_ID remote).
#[local] Abbreviation fetched_between := (fetched_between remote).
#[local] Abbreviation fetched := (fetched remote).

Lemma opened_existing cs content w :
  files w !! cache_filename = Some content -> opened cs w = w.
Proof. intros H. unfold opened, Observe.opened. rewrite H. reflexivity. Qed.

(** C1, as the code has it.  The flag returned by [cache_builder] is
    [true] exactly when the ledger was not rebuilt: in every run in which
    the line count matches the enumeration and no refresh is forced it is
    [true], whether or not a line was refreshed.  A second run after a
    completed one, on the same enumeration, with the line count matching
    and a remote that reports no empty default branch in its history
    answers, calls the remote for nothing, leaves the state as it is and
    returns the same totals with the flag [true]. *)
Theorem cached_flag_and_second_run :
  (forall fuel edges comment_size force_cache w r w',
     cache_builder fuel edges comment_size force_cache w = (Ok r, w') ->
     snd r = negb (must_rebuild edges comment_size force_cache
                     (ledger_lines comment_size w))) /\
  (forall fuel edges comment_size w r w',
     Z.of_nat (length (ledger_lines comment_size w)) - Z.of_nat comment_size
       = Z.of_nat (length edges) ->
     cache_builder fuel edges comment_size false w = (Ok r, w') ->
     snd r = true) /\
  (forall fuel fuel' edges comment_size force_cache w a d n c w',
     cache_builder fuel edges comment_size force_cache w = (Ok (a, d, n, c), w') ->
     (forall k req, status_code (remote k req) = 200 ->
                    json (remote k req) <> HistoryData None) ->
     Z.of_nat (length (ledger_lines comment_size w')) - Z.of_nat comment_size
       = Z.of_nat (length edges) ->
     cache_builder fuel' edges comment_size false w' = (Ok (a, d, n, true), w')).
Proof.
  assert (Hflag : forall fuel edges cs force w r w',
    cache_builder fuel edges cs force w = (Ok r, w') ->
    snd r = negb (must_rebuild edges cs force (ledger_lines cs w))).
  { intros fuel edges cs force w r w' H.
    destruct (cache_builder_Ok _ _ _ _ _ _ _ _ _ _ H)
      as (lines & w0 & data & w1 & a & d & _ & _ & _ & _ & _ & ->). reflexivity. }
  split; [exact Hflag|]. split.
  - intros fuel edges cs w r w' Hcount H.
    rewrite (Hflag _ _ _ _ _ _ _ H). unfold must_rebuild.
    apply Z.eqb_eq in Hcount. rewrite Hcount. reflexivity.
  - intros fuel fuel' edges cs force w a d n c w' H Hremote Hcount.
    destruct (cache_builder_ledger _ _ _ _ _ _ _ _ _ _ H)
      as (lines & w0 & data & w1 & a0 & d0 & Hok & Hrec & _ & Hw' & Hsum & Hr
          & Hlines & Hfirst & Hskip).
    inversion Hr; subst a0 d0 n c. clear Hr.
    destruct (reconcile_Ok _ _ _ _ _ _ _ _ _ _ _ Hrec (NoDup_seq 0 (length edges)))
      as (Hlen & Hout & Hin).
    assert (Hfile : files w' !! cache_filename
              = Some (PyStr.writelines (firstn cs lines) ++ PyStr.writelines data)).
    { rewrite Hw'. cbn [files with_file]. apply lookup_insert_eq. }
    assert (Hmust : must_rebuild edges cs false (ledger_lines cs w') = false).
    { unfold must_rebuild. apply Z.eqb_eq in Hcount. rewrite Hcount. reflexivity. }
    unfold cache_builder, Main.cache_builder, bind.
    rewrite load_ledger_spec. cbv zeta. rewrite Hmust.
    rewrite (opened_existing _ _ _ Hfile).
    unfold Main.reconcile_and_sum, bind.
    fold cache_filename. rewrite Hfirst, Hskip.
    fold reconcile. rewrite reconcile_settled.
    + unfold open_write. rewrite (with_file_id _ _ _ Hfile), Hsum. reflexivity.
    + intros i Hi.
      destruct (Hin i Hi) as (old & new & edge & data1 & w2 & w3 & _ & He & Hrecd & Hnew).
      exists new, edge. repeat split; try assumption.
      eapply reconciled_settled; eassumption.
Qed.

(** C2, as the code has it.  A ledger line whose stored key is not the
    key of the repository at the same index is passed over: the iteration
    leaves the lines and the state as they are, nothing is rebuilt, nothing
    is raised, and the line is still there, unchanged, when the loop
    completes. *)
Theorem key_mismatch_skips_line :
  forall fuel edges cc i data w old edge h c rest,
    data !! i = Some old -> edges !! i = Some edge ->
    PyStr.split old = h :: c :: rest ->
    h <> Sha256.hexdigest (nameWithOwner edge) ->
    reconcile_line fuel edges cc i data w = (Ok data, w) /\
    (forall data' w',
       reconcile fuel edges cc (seq 0 (length edges)) data w = (Ok data', w') ->
       data' !! i = Some old).
Proof.
  intros fuel edges cc i data w old edge h c rest Hi He Hs Hne. split.
  - eapply reconcile_line_mismatch; eassumption.
  - intros data' w' H.
    destruct (reconcile_Ok _ _ _ _ _ _ _ _ _ _ _ H (NoDup_seq 0 (length edges)))
      as (_ & _ & Hin).
    destruct (Hin i) as (old' & new & edge' & data1 & w1 & w2 & Ho & He' & Hr & Hn).
    { apply elem_of_seq. apply lookup_lt_Some in He. lia. }
    rewrite Hi in Ho. rewrite He in He'. inversion Ho; inversion He'; subst old' edge'.
    rewrite Hn. f_equal.
    inversion Hr; subst; try reflexivity; congruence.
Qed.

(** C9, as the code has it.  For an enumerated repository whose default
    branch is empty, and whose ledger line carries the key of the
    repository and an integer as stored count, the iteration replaces the
    line by the key followed by the text [ 0 0 0 0] and a line feed (a
    line that reads back as the key and four fields [0]) and leaves the
    state as it is, so that the reducer is not called; the zeroed line is
    there when the loop completes. *)
Theorem empty_branch_zero_line :
  forall fuel edges cc i data w old edge c rest stored,
    data !! i = Some old -> edges !! i = Some edge ->
    defaultBranchRef edge = None ->
    PyStr.split old = Sha256.hexdigest (nameWithOwner edge) :: c :: rest ->
    PyStr.int c = Some stored ->
    let zeroed :=
      Sha256.hexdigest (nameWithOwner edge) ++ " 0 0 0 0"
        ++ String "010"%char EmptyString in
    reconcile_line fuel edges cc i data w = (Ok (<[i := zeroed]> data), w) /\
    PyStr.split zeroed = [Sha256.hexdigest (nameWithOwner edge); "0"; "0"; "0"; "0"] /\
    (forall data' w',
       reconcile fuel edges cc (seq 0 (length edges)) data w = (Ok data', w') ->
       data' !! i = Some zeroed).
Proof.
  intros fuel edges cc i data w old edge c rest stored Hi He Hb Hs Hint zeroed.
  change zeroed with (zero_line (Sha256.hexdigest (nameWithOwner edge))).
  split; [|split;
    [apply LineFacts.split_zero_line, PyStrFacts.hexdigest_token|]].
  - eapply reconcile_line_empty; eassumption.
  - intros data' w' H.
    destruct (reconcile_Ok _ _ _ _ _ _ _ _ _ _ _ H (NoDup_seq 0 (length edges)))
      as (_ & _ & Hin).
    destruct (Hin i) as (old' & new & edge' & data1 & w1 & w2 & Ho & He' & Hr & Hn).
    { apply elem_of_seq. apply lookup_lt_Some in He. lia. }
    rewrite Hi in Ho. rewrite He in He'. inversion Ho; inversion He'; subst old' edge'.
    rewrite Hn. f_equal.
    inversion Hr; subst; try reflexivity; congruence.
Qed.

Lemma line_counts_zero_line h :
  PyStr.is_token h = true -> line_counts (zero_line h) = Some (0, 0).
Proof.
  intros Hh. unfold line_counts. rewrite LineFacts.split_zero_line by assumption.
  reflexivity.
Qed.

Lemma line_counts_updated_line h t a d m :
  PyStr.is_token h = true -> line_counts (updated_line h t (a, d, m)) = Some (t, m).
Proof.
  intros Hh. unfold line_counts. rewrite LineFacts.split_updated_line by assumption.
  rewrite !PyStrFacts.int_str. reflexivity.
Qed.

(** C8, as the code has it.  A ledger line that an iteration changes has
    its authored-commit count at most its total commit count, provided the
    history answers received in that iteration carry together no more
    commits than the total the enumeration reported. *)
Theorem authored_within_total_of_consistent_remote :
  forall fuel edges cc i data w data' w' new total mine,
    reconcile_line fuel edges cc i data w = (Ok data', w') ->
    data' !! i = Some new ->
    data !! i <> Some new ->
    line_counts new = Some (total, mine) ->
    fetched_between w w' <= total ->
    0 <= mine <= total.
Proof.
  intros fuel edges cc i data w data' w' new total mine H Hnew Hchanged Hcounts Hfetched.
  apply reconcile_line_Ok in H as (old & new' & edge & Hi & He & Hr & ->).
  rewrite list_lookup_insert_eq in Hnew by (eapply lookup_lt_Some; eassumption).
  inversion Hnew; subst new'. clear Hnew.
  pose proof (PyStrFacts.hexdigest_token (nameWithOwner edge)) as Htok.
  inversion Hr; subst; try congruence.
  - rewrite line_counts_zero_line in Hcounts by assumption.
    inversion Hcounts; subst. lia.
  - rewrite line_counts_updated_line in Hcounts by assumption.
    inversion Hcounts; subst.
    match goal with Hrl : Main.recursive_loc _ _ _ _ _ _ _ _ _ _ _ _ _ _ _ = _ |- _ =>
      apply recursive_loc_tuple in Hrl as (reqs & Hp & _ & Hb) end.
    unfold fetched_between, Observe.fetched_between in Hfetched.
    rewrite Hp, drop_app_length in Hfetched. lia.
  - rewrite line_counts_zero_line in Hcounts by assumption.
    inversion Hcounts; subst. lia.
Qed.

End RunTheorems.

(** * The archive merge and the commit ceiling *)

Section ArchiveTheorems.

Lemma archive_sum_rows rows acc_a acc_d w :
  Forall (fun row => PyStr.is_token (fst (fst row)) = true) rows ->
  archive_sum (map archive_line rows) acc_a acc_d w =
  (Ok (acc_a + sum_of row_additions rows, acc_d + sum_of row_deletions rows), w).
Proof.
  intros H. revert acc_a acc_d.
  induction H as [|[[h t] [[a d] m]] rows Hh _ IH]; intros acc_a acc_d.
  - cbn. rewrite !Z.add_0_r. reflexivity.
  - cbn [map archive_sum archive_line]. cbn [fst] in Hh.
    rewrite LineFacts.split_updated_line by assumption.
    unfold bind, getitem, py_int. cbn [lookup list_lookup ret].
    rewrite !PyStrFacts.int_str. cbn [ret].
    rewrite IH. cbn [sum_of fold_right row_additions row_deletions].
    fold (sum_of row_additions rows). fold (sum_of row_deletions rows).
    rewrite !Z.add_assoc. reflexivity.
Qed.

Lemma open_read_written filename lines w :
  files w !! filename = Some (PyStr.writelines lines) ->
  Shape.lines_ok lines = true ->
  open_read filename w = (Ok lines, w).
Proof.
  intros Hf Hok. unfold open_read. rewrite Hf.
  rewrite LineFacts.readlines_writelines by assumption. reflexivity.
Qed.

Lemma archive_sum_pure data a d w :
  exists r, archive_sum data a d w = (r, w) /\ r <> OutOfFuel.
Proof.
  revert a d. induction data as [|line data IH]; intros a d.
  - eexists. split; [reflexivity|discriminate].
  - cbn [archive_sum].
    destruct (PyStr.split line) as [|? [|? [|? loc]]];
      try (eexists; split; [reflexivity|discriminate]).
    unfold bind, getitem, py_int.
    destruct (loc !! 0%nat); [|eexists; split; [reflexivity|discriminate]]. cbn [ret].
    destruct (PyStr.int _); [|eexists; split; [reflexivity|discriminate]]. cbn [ret].
    destruct (loc !! 1%nat); [|eexists; split; [reflexivity|discriminate]]. cbn [ret].
    destruct (PyStr.int _); [|eexists; split; [reflexivity|discriminate]]. cbn [ret].
    apply IH.
Qed.

(** A data line of fewer than five fields stops the summing loop. *)
Lemma archive_sum_short data a d w line :
  line ∈ data -> (length (PyStr.split line) < 5)%nat ->
  exists e, archive_sum data a d w = (Raise e, w).
Proof.
  intros Hin Hshort. revert a d.
  induction data as [|line0 data IH]; intros a d; [inversion Hin|].
  cbn [archive_sum].
  destruct (PyStr.split line0) as [|h [|t [|m loc]]] eqn:E;
    try (eexists; reflexivity).
  unfold bind, getitem, py_int.
  destruct (loc !! 0%nat) as [t0|] eqn:E0; [|eexists; reflexivity]. cbn [ret].
  destruct (PyStr.int t0); [|eexists; reflexivity]. cbn [ret].
  destruct (loc !! 1%nat) as [t1|] eqn:E1; [|eexists; reflexivity]. cbn [ret].
  destruct (PyStr.int t1); [|eexists; reflexivity]. cbn [ret].
  apply elem_of_cons in Hin as [->|Hin]; [|apply IH; assumption].
  exfalso. rewrite E in Hshort. apply lookup_lt_Some in E1.
  cbn [length] in Hshort. lia.
Qed.

(** [add_archive] returns, whatever the state, and leaves it as it is. *)
Lemma add_archive_total w : exists r, add_archive w = (Ok r, w).
Proof.
  unfold add_archive, try_except, bind, open_read.
  destruct (files w !! archive_filename) as [content|]; [|cbn; eauto].
  destruct (archive_sum_pure
              (skipn 7 (firstn (length (PyStr.readlines content) - 3)
                          (PyStr.readlines content))) 0 0 w) as (r & Hr & Hfuel).
  rewrite Hr. destruct r as [[a d]|e|]; [|cbn; eauto|congruence].
  destruct (last (PyStr.readlines content)) as [final|]; [|cbn; eauto].
  unfold getitem. destruct (PyStr.split final !! 4%nat); cbn; eauto.
Qed.

Lemma add_archive_missing w :
  files w !! archive_filename = None ->
  add_archive w = (Ok (0, 0, 0, VInt 0, 0), w).
Proof.
  intros H. unfold add_archive, try_except, bind, open_read. rewrite H. reflexivity.
Qed.

Lemma list_is_lines (ls : list string) :
  Forall (fun l => Shape.is_line l = true) ls -> Shape.lines_ok ls = true.
Proof. apply LineFacts.lines_ok_all_lines. Qed.

Lemma archive_lines_are_lines rows :
  Forall (fun row => PyStr.is_token (fst (fst row)) = true) rows ->
  Forall (fun l => Shape.is_line l = true) (map archive_line rows).
Proof.
  induction 1 as [|[[h t] [[a d] m]] rows Hh _ IH]; cbn [map]; constructor.
  - apply LineFacts.is_line_updated_line. exact Hh.
  - exact IH.
Qed.

(** [add_archive] on a well-formed archive. *)
Lemma add_archive_well_formed w header rows footer final tok :
  files w !! archive_filename
    = Some (PyStr.writelines (header ++ map archive_line rows ++ footer)) ->
  length header = 7%nat -> length footer = 3%nat ->
  Forall (fun l => Shape.is_line l = true) header ->
  Forall (fun l => Shape.is_line l = true) footer ->
  Forall (fun row => PyStr.is_token (fst (fst row)) = true) rows ->
  last footer = Some final ->
  PyStr.split final !! 4%nat = Some tok ->
  add_archive w =
  (Ok (sum_of row_additions rows, sum_of row_deletions rows,
       sum_of row_additions rows - sum_of row_deletions rows,
       VStr (PyStr.drop_last tok), Z.of_nat (length rows)), w).
Proof.
  intros Hf Hh Hft Hhl Hfl Hrows Hlast Htok.
  assert (Hok : Shape.lines_ok (header ++ map archive_line rows ++ footer) = true).
  { apply list_is_lines. rewrite !Forall_app. repeat split; try assumption.
    apply archive_lines_are_lines. assumption. }
  unfold add_archive, try_except, bind.
  rewrite (open_read_written _ _ _ Hf Hok).
  assert (Hdata : skipn 7 (firstn (length (header ++ map archive_line rows ++ footer) - 3)
                             (header ++ map archive_line rows ++ footer))
                  = map archive_line rows).
  { rewrite !length_app, length_map, Hh, Hft.
    replace (7 + (length rows + 3) - 3)%nat with (7 + length rows)%nat by lia.
    rewrite app_assoc, firstn_app.
    rewrite length_app, length_map, Hh, Nat.sub_diag. cbn [firstn].
    rewrite app_nil_r, firstn_all2 by (rewrite length_app, length_map; lia).
    rewrite skipn_app, Hh, Nat.sub_diag. cbn [skipn].
    rewrite <- Hh, skipn_all. reflexivity. }
  rewrite Hdata, archive_sum_rows by assumption.
  rewrite !Z.add_0_l, length_map.
  assert (Hl : last (header ++ map archive_line rows ++ footer) = Some final).
  { rewrite app_assoc. destruct footer as [|f footer]; [discriminate|].
    rewrite last_app_cons. exact Hlast. }
  rewrite Hl. unfold getitem. rewrite Htok. reflexivity.
Qed.

(** C7, as the code has it.  The merge happens only for the primary
    identity.  A missing archive, or one with a data line of fewer than
    five fields, adds nothing, and [add_archive] itself never raises.  For
    a well-formed archive (seven header lines, data
    lines of the ledger shape, three footer lines) whose final line has a
    fifth whitespace-delimited token that, without its last character,
    reads as an integer, the merge adds the summed additions, the summed
    deletions and their difference to the three line totals, the number
    of data lines to the contributed-repository count, and that integer to
    the commit count, and changes nothing else. *)
Theorem archive_merge_adds_archived_totals :
  (forall OWNER_ID NODE_ID st w,
     Some OWNER_ID <> NODE_ID -> merge_archive OWNER_ID NODE_ID st w = (Ok st, w)) /\
  (forall OWNER_ID st w,
     files w !! archive_filename = None ->
     merge_archive OWNER_ID (Some OWNER_ID) st w = (Ok st, w)) /\
  (forall OWNER_ID st w content line,
     files w !! archive_filename = Some content ->
     line ∈ skipn 7 (firstn (length (PyStr.readlines content) - 3)
                       (PyStr.readlines content)) ->
     (length (PyStr.split line) < 5)%nat ->
     merge_archive OWNER_ID (Some OWNER_ID) st w = (Ok st, w)) /\
  (forall w, exists r, add_archive w = (Ok r, w)) /\
  (forall OWNER_ID st w header rows footer final tok commits loc_add loc_del loc_net cached,
     files w !! archive_filename
       = Some (PyStr.writelines (header ++ map archive_line rows ++ footer)) ->
     length header = 7%nat -> length footer = 3%nat ->
     Forall (fun l => Shape.is_line l = true) header ->
     Forall (fun l => Shape.is_line l = true) footer ->
     Forall (fun row => PyStr.is_token (fst (fst row)) = true) rows ->
     last footer = Some final ->
     PyStr.split final !! 4%nat = Some tok ->
     PyStr.int (PyStr.drop_last tok) = Some commits ->
     total_loc st = (loc_add, loc_del, loc_net, cached) ->
     merge_archive OWNER_ID (Some OWNER_ID) st w =
     (Ok (mkStats
            (loc_add + sum_of row_additions rows,
             loc_del + sum_of row_deletions rows,
             loc_net + (sum_of row_additions rows - sum_of row_deletions rows),
             cached)
            (commit_data st + commits)
            (star_data st)
            (repo_data st)
            (contrib_data st + Z.of_nat (length rows))
            (follower_data st)), w)).
Proof.
  split; [|split; [|split; [|split]]].
  - intros OWNER_ID NODE_ID st w Hne. unfold merge_archive.
    rewrite bool_decide_eq_false_2 by assumption. reflexivity.
  - intros OWNER_ID st w Hnone. unfold merge_archive.
    rewrite bool_decide_eq_true_2 by reflexivity.
    unfold bind. rewrite add_archive_missing by assumption.
    destruct st as [[[[la ld] ln] cached] cd sd rd ctd fd].
    cbn. rewrite !Z.add_0_r. reflexivity.
  - intros OWNER_ID st w content line Hf Hin Hshort. unfold merge_archive.
    rewrite bool_decide_eq_true_2 by reflexivity.
    assert (Hz : add_archive w = (Ok (0, 0, 0, VInt 0, 0), w)).
    { unfold add_archive, try_except, bind, open_read. rewrite Hf.
      destruct (archive_sum_short _ 0 0 w line Hin Hshort) as (e & ->). reflexivity. }
    unfold bind. rewrite Hz.
    destruct st as [[[[la ld] ln] cached] cd sd rd ctd fd].
    cbn. rewrite !Z.add_0_r. reflexivity.
  - exact add_archive_total.
  - intros OWNER_ID st w header rows footer final tok commits loc_add loc_del loc_net cached
      Hf Hh Hft Hhl Hfl Hrows Hlast Htok Hint Htotal.
    unfold merge_archive. rewrite bool_decide_eq_true_2 by reflexivity.
    unfold bind.
    rewrite (add_archive_well_formed w header rows footer final tok) by assumption.
    rewrite Htotal. cbn [int_of_val]. unfold py_int. rewrite Hint. reflexivity.
Qed.

End ArchiveTheorems.

(** * The properties on concrete runs *)

Section Runs.
Import Scenario.

(** C4 (the code departs from the claim).  On a history served in pages of
    100 authored commits, one transient failure in the middle makes the
    reducer count again from zero: it returns 9900 authored commits after
    100 posts, 99 of them answered with a page. *)
Theorem commit_ceiling_exceeded_after_retry :
  let run := recursive_loc user me long_history 200 "octo" "repo" [] [] 0 0 0 None 0 0
               nothing in
  fst run = Ok (LocTuple 29700 9900 9900) /\
  length (posts (snd run)) = 100%nat /\
  sleeps (snd run) = [2] /\
  MAX_COMMITS_PER_REPO < 9900.
Proof. vm_compute. repeat split; reflexivity. Qed.




Lemma witness_rebuild :
  let w := ledger [header; stale_line] in
  let edges := [repo (Some 5); other] in
  (Z.of_nat (length (ledger_lines user 1 w)) - Z.of_nat 1 <> Z.of_nat (length edges)
     \/ false = true) /\
  (1 <= length (ledger_lines user 1 w))%nat /\
  Forall (fun l => Shape.is_line l = true) (firstn 1 (ledger_lines user 1 w)) /\
  exists content,
    load_ledger user edges 1 false w
      = (Ok (false, PyStr.readlines content), with_file file content (opened user 1 w)) /\
    firstn 1 (PyStr.readlines content) = [header] /\
    skipn 1 (PyStr.readlines content)
      = [Sha256.hexdigest "octo/repo" ++ " 0 0 0 0" ++ String "010"%char EmptyString;
         Sha256.hexdigest "octo/tool" ++ " 0 0 0 0" ++ String "010"%char EmptyString].
Proof.
  intros w edges.
  assert (H1 : Z.of_nat (length (ledger_lines user 1 w)) - Z.of_nat 1
                 <> Z.of_nat (length edges) \/ false = true)
    by (left; vm_compute; discriminate).
  assert (H2 : (1 <= length (ledger_lines user 1 w))%nat)
    by (vm_compute; repeat constructor).
  assert (H3 : Forall (fun l => Shape.is_line l = true) (firstn 1 (ledger_lines user 1 w)))
    by (vm_compute; repeat constructor).
  split; [exact H1|]. split; [exact H2|]. split; [exact H3|].
  destruct (rebuild_on_size_change_or_force user me limited 0 edges 1 false w H1)
    as (Hload & _ & Hread).
  destruct (Hread H2 H3) as (Hf & Hs).
  eexists. split; [exact Hload|]. split.
  - rewrite Hf. vm_compute. reflexivity.
  - rewrite Hs. vm_compute. reflexivity.
Defined.

End Runs.

Section MoreRuns.
Import Scenario.

(** C1 fails as stated: with the line count matching and no refresh
    forced, a line whose stored total differs from the total of the remote
    is refreshed from the remote, and the flag returned is [true]
    all the same. *)
Lemma cached_flag_true_despite_refresh :
  let run := cache_builder user me two_commits 5 [repo (Some 5)] 1 false
               (ledger [header; stale_line]) in
  Z.of_nat (length (ledger_lines user 1 (ledger [header; stale_line]))) - Z.of_nat 1
    = Z.of_nat (length [repo (Some 5)]) /\
  line_stale (repo (Some 5)) stale_line = true /\
  fst run = Ok (6, 2, 4, true) /\
  posts (snd run) = [HistoryPage "octo" "repo" None] /\
  ledger_lines user 1 (snd run) = [header; key ++ " 5 2 6 2" ++ nl] /\
  ~ (snd (6, 2, 4, true) = true <-> line_stale (repo (Some 5)) stale_line = false).
Proof.
  vm_compute. repeat split; try reflexivity.
  intros [H _]. specialize (H eq_refl). discriminate.
Qed.

Lemma witness_second_run :
  let start := ledger [header; stale_line] in
  let first := cache_builder user me two_commits 5 [repo (Some 5)] 1 false start in
  Z.of_nat (length (ledger_lines user 1 start)) - Z.of_nat 1
    = Z.of_nat (length [repo (Some 5)]) /\
  first = (Ok (6, 2, 4, true), snd first) /\
  snd (6, 2, 4, true) = true /\
  (forall k req, status_code (two_commits k req) = 200 ->
                 json (two_commits k req) <> HistoryData None) /\
  Z.of_nat (length (ledger_lines user 1 (snd first))) - Z.of_nat 1
    = Z.of_nat (length [repo (Some 5)]) /\
  cache_builder user me two_commits 0 [repo (Some 5)] 1 false (snd first)
    = (Ok (6, 2, 4, true), snd first).
Proof.
  intros start first.
  assert (H0 : Z.of_nat (length (ledger_lines user 1 start)) - Z.of_nat 1
                 = Z.of_nat (length [repo (Some 5)])) by (vm_compute; reflexivity).
  assert (H1 : first = (Ok (6, 2, 4, true), snd first)) by (vm_compute; reflexivity).
  assert (H2 : forall k req, status_code (two_commits k req) = 200 ->
                 json (two_commits k req) <> HistoryData None) by (intros; discriminate).
  assert (H3 : Z.of_nat (length (ledger_lines user 1 (snd first))) - Z.of_nat 1
                 = Z.of_nat (length [repo (Some 5)])) by (vm_compute; reflexivity).
  split; [exact H0|]. split; [exact H1|].
  split; [exact (proj1 (proj2 (cached_flag_and_second_run user me two_commits))
                   5%nat [repo (Some 5)] 1%nat start (6, 2, 4, true) (snd first) H0 H1)|].
  split; [exact H2|]. split; [exact H3|].
  exact (proj2 (proj2 (cached_flag_and_second_run user me two_commits))
           5%nat 0%nat [repo (Some 5)] 1%nat false start
           6 2 4 true (snd first) H1 H2 H3).
Defined.

(** C2 fails as stated: a line whose key is not the key of the repository
    at its index is not rebuilt; the run completes with the line, the file
    and the whole state as they were, and sums the foreign line into the
    totals. *)
Lemma key_mismatch_is_not_rebuilt :
  PyStr.split foreign_line = ["deadbeef"; "9"; "4"; "10"; "2"] /\
  "deadbeef" <> Sha256.hexdigest (nameWithOwner (repo (Some 5))) /\
  cache_builder user me two_commits 5 [repo (Some 5)] 1 false (ledger [header; foreign_line])
    = (Ok (10, 2, 8, true), ledger [header; foreign_line]) /\
  ledger_lines user 1 (ledger [header; foreign_line]) = [header; foreign_line] /\
  foreign_line <> zero_line key.
Proof.
  split; [vm_compute; reflexivity|]. split; [vm_compute; discriminate|].
  split; [vm_compute; reflexivity|]. split; [vm_compute; reflexivity|].
  vm_compute. discriminate.
Qed.

Lemma witness_skipped_line :
  [foreign_line] !! 0%nat = Some foreign_line /\
  [repo (Some 5)] !! 0%nat = Some (repo (Some 5)) /\
  PyStr.split foreign_line = ["deadbeef"; "9"; "4"; "10"; "2"] /\
  "deadbeef" <> Sha256.hexdigest (nameWithOwner (repo (Some 5))) /\
  reconcile_line user me two_commits 5 [repo (Some 5)] [header] 0 [foreign_line] nothing
    = (Ok [foreign_line], nothing).
Proof.
  assert (H3 : PyStr.split foreign_line = ["deadbeef"; "9"; "4"; "10"; "2"])
    by (vm_compute; reflexivity).
  assert (H4 : "deadbeef" <> Sha256.hexdigest (nameWithOwner (repo (Some 5))))
    by (vm_compute; discriminate).
  split; [reflexivity|]. split; [reflexivity|]. split; [exact H3|]. split; [exact H4|].
  exact (proj1 (key_mismatch_skips_line user me two_commits 5 [repo (Some 5)] [header]
                  0%nat [foreign_line] nothing foreign_line (repo (Some 5))
                  "deadbeef" "9" ["4"; "10"; "2"] eq_refl eq_refl H3 H4)).
Defined.

(** C9 fails as stated: the line of an empty repository that carries the
    key of another repository is left as it is, and not zeroed. *)
Lemma empty_branch_with_foreign_key_not_zeroed :
  defaultBranchRef (repo None) = None /\
  cache_builder user me two_commits 5 [repo None] 1 false (ledger [header; tool_line])
    = (Ok (5, 3, 2, true), ledger [header; tool_line]) /\
  ledger_lines user 1 (ledger [header; tool_line]) = [header; tool_line] /\
  tool_line <> zero_line (Sha256.hexdigest (nameWithOwner (repo None))).
Proof.
  split; [reflexivity|]. split; [vm_compute; reflexivity|].
  split; [vm_compute; reflexivity|]. vm_compute. discriminate.
Qed.

Lemma witness_empty_branch :
  [counted_line] !! 0%nat = Some counted_line /\
  [repo None] !! 0%nat = Some (repo None) /\
  defaultBranchRef (repo None) = None /\
  PyStr.split counted_line
    = Sha256.hexdigest (nameWithOwner (repo None)) :: "3" :: ["1"; "2"; "1"] /\
  PyStr.int "3" = Some 3 /\
  reconcile_line user me two_commits 5 [repo None] [header] 0 [counted_line] nothing
    = (Ok [Sha256.hexdigest "octo/repo" ++ " 0 0 0 0" ++ String "010"%char EmptyString],
       nothing).
Proof.
  assert (H4 : PyStr.split counted_line
            = Sha256.hexdigest (nameWithOwner (repo None)) :: "3" :: ["1"; "2"; "1"])
    by (vm_compute; reflexivity).
  split; [reflexivity|]. split; [reflexivity|]. split; [reflexivity|].
  split; [exact H4|]. split; [reflexivity|].
  exact (proj1 (empty_branch_zero_line user me two_commits 5 [repo None] [header]
                  0%nat [counted_line] nothing counted_line (repo None)
                  "3" ["1"; "2"; "1"] 3 eq_refl eq_refl eq_refl H4 eq_refl)).
Defined.

(** C8 fails as stated: when the enumeration reports one commit and the
    history answer then carries two authored commits, the line written
    has an authored count of 2 and a total of 1. *)
Lemma authored_count_exceeds_total :
  let run := cache_builder user me two_commits 5 [repo (Some 1)] 1 false
               (ledger [header; zero_line key]) in
  fst run = Ok (6, 2, 4, true) /\
  ledger_lines user 1 (snd run) = [header; key ++ " 1 2 6 2" ++ nl] /\
  line_counts (key ++ " 1 2 6 2" ++ nl) = Some (1, 2) /\
  ~ 2 <= 1.
Proof.
  intros run. split; [vm_compute; reflexivity|]. split; [vm_compute; reflexivity|].
  split; [vm_compute; reflexivity|lia].
Qed.

Lemma witness_authored_count :
  let run := reconcile_line user me two_commits 5 [repo (Some 5)] [header] 0 [stale_line]
               nothing in
  run = (Ok [key ++ " 5 2 6 2" ++ nl], snd run) /\
  [key ++ " 5 2 6 2" ++ nl] !! 0%nat = Some (key ++ " 5 2 6 2" ++ nl) /\
  [stale_line] !! 0%nat <> Some (key ++ " 5 2 6 2" ++ nl) /\
  line_counts (key ++ " 5 2 6 2" ++ nl) = Some (5, 2) /\
  fetched_between two_commits nothing (snd run) <= 5 /\
  0 <= 2 <= 5.
Proof.
  intros run.
  assert (H1 : run = (Ok [key ++ " 5 2 6 2" ++ nl], snd run)) by (vm_compute; reflexivity).
  assert (H3 : [stale_line] !! 0%nat <> Some (key ++ " 5 2 6 2" ++ nl))
    by (vm_compute; discriminate).
  assert (H4 : line_counts (key ++ " 5 2 6 2" ++ nl) = Some (5, 2))
    by (vm_compute; reflexivity).
  assert (H5 : fetched_between two_commits nothing (snd run) <= 5)
    by (vm_compute; discriminate).
  split; [exact H1|]. split; [reflexivity|]. split; [exact H3|]. split; [exact H4|].
  split; [exact H5|].
  exact (authored_within_total_of_consistent_remote user me two_commits 5
           [repo (Some 5)] [header] 0%nat [stale_line] nothing
           [key ++ " 5 2 6 2" ++ nl] (snd run) (key ++ " 5 2 6 2" ++ nl) 5 2
           H1 eq_refl H3 H4 H5).
Defined.

(** C7 fails as stated: the authored-commit total is the fifth token of
    the final line without its last character, not without a line
    terminator (the token has none): a final token [57] adds 5 commits;
    and an archive whose final token does not read as an integer once
    shortened makes the merge raise. *)
Lemma archive_total_drops_last_character :
  PyStr.split ("total authored commits : " ++ "57" ++ nl) !! 4%nat = Some "57" /\
  PyStr.int "57" = Some 57 /\
  fst (merge_archive me (Some me) live (archived "57"))
    = Ok (mkStats (1100, 340, 760, true) 55 9 4 7 2) /\
  commit_data live + 57 <> 55 /\
  fst (merge_archive me (Some me) live (archived "x")) = Raise ValueError.
Proof.
  split; [vm_compute; reflexivity|]. split; [vm_compute; reflexivity|].
  split; [vm_compute; reflexivity|]. split; [vm_compute; discriminate|].
  vm_compute. reflexivity.
Qed.

Lemma witness_archive_merge :
  (* another identity *)
  (Some me <> Some "MDQ6VXNlcjI=" /\
   merge_archive me (Some "MDQ6VXNlcjI=") live (archived "57,")
     = (Ok live, archived "57,")) /\
  (* no archive *)
  (files nothing !! archive_filename = None /\
   merge_archive me (Some me) live nothing = (Ok live, nothing)) /\
  (* a data line of two fields *)
  (files short_archive !! archive_filename
     = Some (PyStr.writelines (archive_header ++ ["deadbeef 3" ++ nl] ++ archive_footer "57,")) /\
   ("deadbeef 3" ++ nl) ∈
     skipn 7 (firstn (length (PyStr.readlines
                                (PyStr.writelines (archive_header ++ ["deadbeef 3" ++ nl]
                                                     ++ archive_footer "57,"))) - 3)
                (PyStr.readlines
                   (PyStr.writelines (archive_header ++ ["deadbeef 3" ++ nl]
                                        ++ archive_footer "57,")))) /\
   (length (PyStr.split ("deadbeef 3" ++ nl)) < 5)%nat /\
   merge_archive me (Some me) live short_archive = (Ok live, short_archive)) /\
  (* a well-formed archive *)
  (files (archived "57,") !! archive_filename
     = Some (PyStr.writelines
               (archive_header ++ map archive_line archive_rows ++ archive_footer "57,")) /\
   length archive_header = 7%nat /\ length (archive_footer "57,") = 3%nat /\
   Forall (fun l => Shape.is_line l = true) archive_header /\
   Forall (fun l => Shape.is_line l = true) (archive_footer "57,") /\
   Forall (fun row => PyStr.is_token (fst (fst row)) = true) archive_rows /\
   last (archive_footer "57,") = Some ("total authored commits : " ++ "57," ++ nl) /\
   PyStr.split ("total authored commits : " ++ "57," ++ nl) !! 4%nat = Some "57," /\
   PyStr.int (PyStr.drop_last "57,") = Some 57 /\
   merge_archive me (Some me) live (archived "57,")
     = (Ok (mkStats (1000 + 100, 300 + 40, 700 + (100 - 40), true)
              (50 + 57) 9 4 (6 + 1) 2), archived "57,")).
Proof.
  split; [|split; [|split]].
  - assert (H : Some me <> Some "MDQ6VXNlcjI=") by discriminate.
    split; [exact H|].
    exact (proj1 archive_merge_adds_archived_totals me (Some "MDQ6VXNlcjI=") live
             (archived "57,") H).
  - split; [reflexivity|].
    exact (proj1 (proj2 archive_merge_adds_archived_totals) me live nothing eq_refl).
  - assert (H1 : files short_archive !! archive_filename
              = Some (PyStr.writelines
                        (archive_header ++ ["deadbeef 3" ++ nl] ++ archive_footer "57,")))
      by (vm_compute; reflexivity).
    assert (H2 : ("deadbeef 3" ++ nl) ∈
              skipn 7 (firstn (length (PyStr.readlines
                                (PyStr.writelines (archive_header ++ ["deadbeef 3" ++ nl]
                                                     ++ archive_footer "57,"))) - 3)
                (PyStr.readlines
                   (PyStr.writelines (archive_header ++ ["deadbeef 3" ++ nl]
                                        ++ archive_footer "57,")))))
      by (vm_compute; left).
    assert (H3 : (length (PyStr.split ("deadbeef 3" ++ nl)) < 5)%nat)
      by (vm_compute; repeat constructor).
    split; [exact H1|]. split; [exact H2|]. split; [exact H3|].
    exact (proj1 (proj2 (proj2 archive_merge_adds_archived_totals)) me live short_archive
             _ _ H1 H2 H3).
  - assert (H1 : files (archived "57,") !! archive_filename
              = Some (PyStr.writelines
                        (archive_header ++ map archive_line archive_rows
                           ++ archive_footer "57,")))
      by (vm_compute; reflexivity).
    assert (H4 : Forall (fun l => Shape.is_line l = true) archive_header)
      by (repeat constructor).
    assert (H5 : Forall (fun l => Shape.is_line l = true) (archive_footer "57,"))
      by (repeat constructor).
    assert (H6 : Forall (fun row => PyStr.is_token (fst (fst row)) = true) archive_rows)
      by (repeat constructor).
    assert (H8 : PyStr.split ("total authored commits : " ++ "57," ++ nl) !! 4%nat
                   = Some "57,") by (vm_compute; reflexivity).
    split; [exact H1|]. split; [reflexivity|]. split; [reflexivity|].
    split; [exact H4|]. split; [exact H5|]. split; [exact H6|].
    split; [reflexivity|]. split; [exact H8|]. split; [reflexivity|].
    exact (proj2 (proj2 (proj2 (proj2 archive_merge_adds_archived_totals)))
             me live (archived "57,") archive_header archive_rows (archive_footer "57,")
             ("total authored commits : " ++ "57," ++ nl) "57," 57 1000 300 700 true
             H1 eq_refl eq_refl H4 H5 H6 eq_refl H8 eq_refl eq_refl).
Defined.

End MoreRuns.

(** * Escaping of the profile texts *)

Module XmlFacts.
Import Xml.

Lemma replace_app old new s t :
  replace old new (s ++ t) = replace old new s ++ replace old new t.
Proof.
  induction s as [|c s IH]; [reflexivity|].
  cbn [String.append replace]. rewrite IH.
  destruct (Ascii.eqb c old); [|reflexivity].
  symmetry. apply LineFacts.append_assoc.
Qed.

Lemma escape_app s t :
  escape_xml (Some (s ++ t)) = escape_xml (Some s) ++ escape_xml (Some t).
Proof.
  unfold escape_xml, replacements. cbn [fold_left fst snd].
  now rewrite !replace_app.
Qed.

Lemma escape_char c : escape_xml (Some (String c EmptyString)) = entity c.
Proof.
  destruct c as [[] [] [] [] [] [] [] []]; vm_compute; reflexivity.
Qed.

Lemma escape_cons c s :
  escape_xml (Some (String c s)) = entity c ++ escape_xml (Some s).
Proof.
  change (String c s) with (String c EmptyString ++ s).
  now rewrite escape_app, escape_char.
Qed.

Lemma entity_plain c : PyStr.all_chars plain (entity c) = true.
Proof.
  destruct c as [[] [] [] [] [] [] [] []]; vm_compute; reflexivity.
Qed.

Lemma unescape_entity c s :
  unescape (entity c ++ escape_xml (Some s)) = String c (unescape (escape_xml (Some s))).
Proof.
  destruct (Ascii.eqb c AMP) eqn:E.
  - apply Ascii.eqb_eq in E. subst c. reflexivity.
  - assert (Hhead : forall r, unescape (String c r) = String c (unescape r)).
    { intros r. destruct c as [[] [] [] [] [] [] [] []];
        try reflexivity; discriminate E. }
    destruct c as [[] [] [] [] [] [] [] []];
      try discriminate E; try reflexivity;
      cbv [entity Ascii.eqb AMP LT GT QUOT APOS Bool.eqb]; cbn [String.append];
      apply Hhead.
Qed.

Lemma unescape_escape s : unescape (escape_xml (Some s)) = s.
Proof.
  induction s as [|c s IH]; [reflexivity|].
  rewrite escape_cons, unescape_entity. now rewrite IH.
Qed.

End XmlFacts.

(** * Runs of the reducer, case by case *)

Section ReducerRuns.

Variable USER_NAME : string.
Variable OWNER_ID : string.
Variable remote : nat -> Request -> Response.

#[local] Abbreviation recursive_loc := (recursive_loc USER_NAME OWNER_ID remote).
#[local] Abbreviation cache_filename := (cache_filename USER_NAME).
#[local] Abbreviation count_authored := (count_authored OWNER_ID).
#[local] Abbreviation fetched := (fetched remote).
#[local] Abbreviation fetched_commits := (fetched_commits remote).
#[local] Abbreviation authored := (authored OWNER_ID).

(** Induction over the calls of one run of [recursive_loc]: a property of
    the arguments, the outcome and the two states holds of every run when
    it holds of every way a call can end and is carried from the nested
    call to the calling one. *)
Lemma recursive_loc_run_ind (owner repo_name : string) (data cc : list string)
    (P : nat -> Z -> Z -> Z -> option string -> Z -> Z -> World ->
         outcome LocResult -> World -> Prop) :
  (forall a d m cursor rc cf w, P O a d m cursor rc cf w OutOfFuel w) ->
  (forall fuel a d m cursor rc cf w history a' d' m',
     let answer := remote (length (posts w)) (HistoryPage owner repo_name cursor) in
     status_code answer = 200 -> json answer = HistoryData (Some history) ->
     count_authored (history_edges history) a d m = (a', d', m') ->
     history_edges history = [] \/ hasNextPage (history_pageInfo history) = false \/
       MAX_COMMITS_PER_REPO <= cf + Z.of_nat (length (history_edges history)) ->
     P (S fuel) a d m cursor rc cf w (Ok (LocTuple a' d' m'))
       (posted owner repo_name cursor w)) ->
  (forall fuel a d m cursor rc cf w history a' d' m' r w',
     let answer := remote (length (posts w)) (HistoryPage owner repo_name cursor) in
     status_code answer = 200 -> json answer = HistoryData (Some history) ->
     count_authored (history_edges history) a d m = (a', d', m') ->
     history_edges history <> [] -> hasNextPage (history_pageInfo history) = true ->
     cf + Z.of_nat (length (history_edges history)) < MAX_COMMITS_PER_REPO ->
     recursive_loc fuel owner repo_name data cc a' d' m'
       (endCursor (history_pageInfo history)) 0
       (cf + Z.of_nat (length (history_edges history)))
       (posted owner repo_name cursor w) = (r, w') ->
     P fuel a' d' m' (endCursor (history_pageInfo history)) 0
       (cf + Z.of_nat (length (history_edges history)))
       (posted owner repo_name cursor w) r w' ->
     P (S fuel) a d m cursor rc cf w r w') ->
  (forall fuel a d m cursor rc cf w,
     let answer := remote (length (posts w)) (HistoryPage owner repo_name cursor) in
     status_code answer = 200 -> json answer = HistoryData None ->
     P (S fuel) a d m cursor rc cf w (Ok (LocInt 0)) (posted owner repo_name cursor w)) ->
  (forall fuel a d m cursor rc cf w page pageInfo,
     let answer := remote (length (posts w)) (HistoryPage owner repo_name cursor) in
     status_code answer = 200 -> json answer = ReposData page pageInfo ->
     P (S fuel) a d m cursor rc cf w (Raise KeyError) (posted owner repo_name cursor w)) ->
  (forall fuel a d m cursor rc cf w r w',
     let answer := remote (length (posts w)) (HistoryPage owner repo_name cursor) in
     status_code answer <> 200 -> is_transient (status_code answer) = true ->
     rc < MAX_RETRIES ->
     recursive_loc fuel owner repo_name data cc a d m cursor (rc + 1) 0
       (with_sleep (RETRY_DELAY_BASE * 2 ^ rc) (posted owner repo_name cursor w))
       = (r, w') ->
     P fuel a d m cursor (rc + 1) 0
       (with_sleep (RETRY_DELAY_BASE * 2 ^ rc) (posted owner repo_name cursor w)) r w' ->
     P (S fuel) a d m cursor rc cf w r w') ->
  (forall fuel a d m cursor rc cf w e,
     let answer := remote (length (posts w)) (HistoryPage owner repo_name cursor) in
     status_code answer <> 200 ->
     is_transient (status_code answer) && (rc <? MAX_RETRIES)%Z = false ->
     e = (if (status_code answer =? 403)%Z then RateLimited
          else RequestFailed "recursive_loc" (status_code answer)) ->
     P (S fuel) a d m cursor rc cf w (Raise e)
       (with_file cache_filename (PyStr.writelines cc ++ PyStr.writelines data)
          (posted owner repo_name cursor w))) ->
  forall fuel a d m cursor rc cf w r w',
    recursive_loc fuel owner repo_name data cc a d m cursor rc cf w = (r, w') ->
    P fuel a d m cursor rc cf w r w'.
Proof.
  intros Hfuel Hlast Hnext Hempty Hkey Hretry Hfail.
  induction fuel as [|fuel IH]; intros a d m cursor rc cf w r w' H.
  - inversion H; subst. apply Hfuel.
  - rewrite recursive_loc_S in H. cbv zeta in H.
    fold (posted owner repo_name cursor w) in H.
    set (req := HistoryPage owner repo_name cursor) in *.
    destruct (Z.eqb_spec (status_code (remote (length (posts w)) req)) 200) as [Hs|Hs].
    + destruct (json (remote (length (posts w)) req)) as [[history|]|page pageInfo] eqn:Hj.
      * unfold Main.loc_counter_one_repo_with in H.
        destruct (count_authored (history_edges history) a d m) as [[a1 d1] m1] eqn:Hca.
        destruct (history_edges history) as [|c l] eqn:He.
        { inversion H; subst. eapply Hlast; try eassumption.
          - rewrite He. exact Hca.
          - now left. }
        rewrite <- He in *.
        destruct (hasNextPage (history_pageInfo history)) eqn:Hnp; cbn [negb] in H.
        2:{ inversion H; subst. eapply Hlast; try eassumption. now right; left. }
        destruct (Z.leb_spec MAX_COMMITS_PER_REPO
                    (cf + Z.of_nat (length (history_edges history)))) as [Hge|Hlt].
        { inversion H; subst. eapply Hlast; try eassumption. now right; right. }
        eapply Hnext; try eassumption; [rewrite He; discriminate|now apply IH].
      * inversion H; subst. now apply Hempty.
      * inversion H; subst. eapply Hkey; eassumption.
    + destruct (is_transient _ && _) eqn:Ht.
      * unfold bind, sleep in H.
        apply andb_true_iff in Ht as [Ht Hrc]. apply Z.ltb_lt in Hrc.
        eapply Hretry; try eassumption. now apply IH.
      * unfold bind, force_close_file, open_write in H.
        fold cache_filename in H.
        destruct (status_code _ =? 403)%Z eqn:E; inversion H; subst;
          eapply Hfail; try eassumption; fold req; rewrite E; reflexivity.
Qed.

Lemma count_authored_app l l' a d m :
  count_authored (l ++ l')%list a d m =
  let '(a1, d1, m1) := count_authored l a d m in count_authored l' a1 d1 m1.
Proof.
  revert a d m. induction l as [|node l IH]; intros a d m; [reflexivity|].
  cbn [app Main.count_authored].
  destruct (author_user node) as [id|]; [destruct (String.eqb id OWNER_ID)|]; apply IH.
Qed.

Lemma count_authored_cons node l a d m :
  count_authored (node :: l) a d m =
  if is_mine OWNER_ID node
  then count_authored l (a + additions node) (d + deletions node) (m + 1)
  else count_authored l a d m.
Proof.
  cbn [Main.count_authored]. unfold is_mine.
  destruct (author_user node) as [id|]; [destruct (String.eqb id OWNER_ID)|]; reflexivity.
Qed.

Lemma count_authored_sum l a d m :
  count_authored l a d m =
  (a + sum_of additions (authored l), d + sum_of deletions (authored l),
   m + Z.of_nat (length (authored l))).
Proof.
  unfold Pages.authored.
  revert a d m. induction l as [|node l IH]; intros a d m.
  - cbn. f_equal; [f_equal|]; lia.
  - rewrite count_authored_cons. cbn [List.filter].
    destruct (is_mine OWNER_ID node); rewrite IH; [|reflexivity].
    unfold sum_of. cbn [fold_right length]. apply f_equal2; [apply f_equal2|]; lia.
Qed.

Lemma page_commits_200 r history :
  status_code r = 200 -> json r = HistoryData (Some history) ->
  page_commits r = history_edges history.
Proof. intros Hs Hj. unfold page_commits. now rewrite Hs, Hj. Qed.

Lemma page_commits_failed r : status_code r <> 200 -> page_commits r = [].
Proof.
  intros Hs. unfold page_commits.
  destruct (Z.eqb_spec (status_code r) 200); [contradiction|reflexivity].
Qed.

Lemma commits_of_page r : commits_of r = Z.of_nat (length (page_commits r)).
Proof.
  unfold commits_of, page_commits.
  destruct (status_code r =? 200)%Z; [|reflexivity].
  destruct (json r) as [[h|]|]; reflexivity.
Qed.

Lemma fetched_length k reqs :
  fetched k reqs = Z.of_nat (length (fetched_commits k reqs)).
Proof.
  revert k. induction reqs as [|q reqs IH]; intros k; [reflexivity|].
  cbn [Observe.fetched Pages.fetched_commits].
  rewrite length_app, IH, commits_of_page. lia.
Qed.

(** The accumulators of a successful run are those of the counting loop
    over all the commits of its answers. *)
Lemma recursive_loc_counts fuel owner repo_name data cc a d m cursor rc cf w a' d' m' w' :
  recursive_loc fuel owner repo_name data cc a d m cursor rc cf w
    = (Ok (LocTuple a' d' m'), w') ->
  exists reqs,
    posts w' = (posts w ++ reqs)%list /\
    count_authored (fetched_commits (length (posts w)) reqs) a d m = (a', d', m').
Proof.
  intros H.
  refine (recursive_loc_run_ind owner repo_name data cc
    (fun _ a d m _ _ _ w r w' =>
       r = Ok (LocTuple a' d' m') ->
       exists reqs,
         posts w' = (posts w ++ reqs)%list /\
         count_authored (fetched_commits (length (posts w)) reqs) a d m = (a', d', m'))
    _ _ _ _ _ _ _ fuel a d m cursor rc cf w _ w' H eq_refl); clear; try discriminate.
  - intros fuel a d m cursor rc cf w history a1 d1 m1 answer Hs Hj Hca _ E.
    inversion E; subst. exists [HistoryPage owner repo_name cursor].
    split; [reflexivity|]. cbn [Pages.fetched_commits].
    fold answer. rewrite (page_commits_200 _ _ Hs Hj), app_nil_r. exact Hca.
  - intros fuel a d m cursor rc cf w history a1 d1 m1 r w' answer Hs Hj Hca _ _ _ _ IH E.
    destruct (IH E) as (reqs & Hp & Hc).
    exists (HistoryPage owner repo_name cursor :: reqs).
    split; [rewrite Hp; cbn; now rewrite <- app_assoc|].
    cbn [Pages.fetched_commits]. fold answer.
    rewrite (page_commits_200 _ _ Hs Hj), count_authored_app, Hca.
    cbn [posted posts with_post with_count] in Hc.
    rewrite length_app in Hc. cbn [length] in Hc.
    replace (length (posts w) + 1)%nat with (S (length (posts w))) in Hc by lia.
    exact Hc.
  - intros fuel a d m cursor rc cf w r w' answer Hs _ _ _ IH E.
    destruct (IH E) as (reqs & Hp & Hc).
    exists (HistoryPage owner repo_name cursor :: reqs).
    split; [rewrite Hp; cbn; now rewrite <- app_assoc|].
    cbn [Pages.fetched_commits]. fold answer.
    rewrite (page_commits_failed _ Hs). cbn [app].
    cbn [posted posts with_post with_count with_sleep] in Hc.
    rewrite length_app in Hc. cbn [length] in Hc.
    replace (length (posts w) + 1)%nat with (S (length (posts w))) in Hc by lia.
    exact Hc.
Qed.

Lemma history_run_refl allowed w : history_run allowed w w.
Proof.
  exists []. rewrite app_nil_r. repeat split; [constructor|cbn; lia].
Qed.

Lemma history_run_trans allowed w1 w2 w3 :
  history_run allowed w1 w2 -> history_run allowed w2 w3 -> history_run allowed w1 w3.
Proof.
  intros (r1 & Hp1 & Ha1 & Hc1 & Ho1) (r2 & Hp2 & Ha2 & Hc2 & Ho2).
  exists (r1 ++ r2)%list. split; [rewrite Hp2, Hp1; now rewrite <- app_assoc|].
  split; [now apply Forall_app|].
  split; [rewrite Hc2, Hc1, length_app; lia|].
  intros id Hid. now rewrite Ho2, Ho1.
Qed.

Lemma history_run_mono (allowed allowed' : Request -> Prop) w w' :
  (forall req, allowed req -> allowed' req) ->
  history_run allowed w w' -> history_run allowed' w w'.
Proof.
  intros Hsub (reqs & Hp & Ha & Hc & Ho). exists reqs.
  repeat split; try assumption. eapply Forall_impl; eassumption.
Qed.

Lemma history_run_posted owner repo_name cursor w :
  history_run (page_of owner repo_name) w (posted owner repo_name cursor w).
Proof.
  exists [HistoryPage owner repo_name cursor]. split; [reflexivity|].
  split; [repeat constructor; now exists cursor|].
  unfold calls, posted. cbn [QUERY_COUNT with_post with_count length].
  split; [rewrite lookup_insert_eq; cbn [default from_option id length]; lia|].
  intros id Hid. now rewrite lookup_insert_ne.
Qed.

Lemma history_run_with_file allowed filename content w w' :
  history_run allowed w w' -> history_run allowed w (with_file filename content w').
Proof. intros H. exact H. Qed.

Lemma history_run_with_sleep allowed delay w w' :
  history_run allowed (with_sleep delay w) w' -> history_run allowed w w'.
Proof. intros H. exact H. Qed.

(** Whatever the outcome of a run of [recursive_loc], it posts history
    requests for its repository only and counts each of them. *)
Lemma recursive_loc_history_run fuel owner repo_name data cc a d m cursor rc cf w r w' :
  recursive_loc fuel owner repo_name data cc a d m cursor rc cf w = (r, w') ->
  history_run (page_of owner repo_name) w w'.
Proof.
  revert fuel a d m cursor rc cf w r w'.
  apply (recursive_loc_run_ind owner repo_name data cc
           (fun _ _ _ _ _ _ _ w _ w' => history_run (page_of owner repo_name) w w'));
    intros.
  - apply history_run_refl.
  - apply history_run_posted.
  - eapply history_run_trans; [apply history_run_posted|eassumption].
  - apply history_run_posted.
  - apply history_run_posted.
  - eapply history_run_trans; [apply history_run_posted|].
    eapply history_run_with_sleep; eassumption.
  - apply history_run_with_file, history_run_posted.
Qed.

(** The ledger file is written by a run of [recursive_loc] only when the
    run ends with a remote failure. *)
Lemma recursive_loc_files fuel owner repo_name data cc a d m cursor rc cf w r w' :
  recursive_loc fuel owner repo_name data cc a d m cursor rc cf w = (r, w') ->
  files w' = files w \/ exists e, r = Raise e /\ is_remote_failure e = true.
Proof.
  revert fuel a d m cursor rc cf w r w'.
  apply (recursive_loc_run_ind owner repo_name data cc
           (fun _ _ _ _ _ _ _ w r w' =>
              files w' = files w \/ exists e, r = Raise e /\ is_remote_failure e = true));
    intros; try (left; reflexivity); try assumption.
  right. exists e. split; [reflexivity|]. subst e.
  destruct (status_code answer =? 403)%Z; reflexivity.
Qed.

Lemma fetched_single k req : fetched k [req] = commits_of (remote k req).
Proof. cbn [Observe.fetched]. lia. Qed.

(** Without transient failures and with full pages, a run that starts
    with [100 * j] commits fetched posts at most [50 - j] requests. *)
Lemma recursive_loc_ceiling fuel owner repo_name data cc a d m cursor rc cf w r w' :
  (forall k req, is_transient (status_code (remote k req)) = false) ->
  (forall k req history,
     status_code (remote k req) = 200 ->
     json (remote k req) = HistoryData (Some history) ->
     (length (history_edges history) <= 100)%nat /\
     (hasNextPage (history_pageInfo history) = true ->
      length (history_edges history) = 100%nat)) ->
  recursive_loc fuel owner repo_name data cc a d m cursor rc cf w = (r, w') ->
  forall j, cf = 100 * j -> 0 <= j < 50 ->
  (50 - j <= Z.of_nat fuel -> r <> OutOfFuel) /\
  exists reqs,
    posts w' = (posts w ++ reqs)%list /\
    Z.of_nat (length reqs) <= 50 - j /\
    cf + fetched (length (posts w)) reqs <= 5000.
Proof.
  intros no_transient full_pages.
  revert fuel a d m cursor rc cf w r w'.
  apply (recursive_loc_run_ind owner repo_name data cc
    (fun fuel _ _ _ _ _ cf w r w' =>
       forall j, cf = 100 * j -> 0 <= j < 50 ->
       (50 - j <= Z.of_nat fuel -> r <> OutOfFuel) /\
       exists reqs,
         posts w' = (posts w ++ reqs)%list /\
         Z.of_nat (length reqs) <= 50 - j /\
         cf + fetched (length (posts w)) reqs <= 5000)).
  - intros a d m cursor rc cf w j Hj Hr. split; [cbn; lia|].
    exists []. rewrite app_nil_r. cbn. repeat split; lia.
  - intros fuel a d m cursor rc cf w history a' d' m' answer Hs Hj _ _ j Hcf Hr.
    split; [discriminate|]. exists [HistoryPage owner repo_name cursor].
    split; [reflexivity|]. split; [cbn; lia|].
    rewrite fetched_single. fold answer. unfold commits_of.
    rewrite Hs, Hj. cbn.
    destruct (full_pages _ _ _ Hs Hj) as [Hle _]. lia.
  - intros fuel a d m cursor rc cf w history a' d' m' r w' answer Hs Hj _ _ Hnp Hlt _
      IH j Hcf Hr.
    destruct (full_pages _ _ _ Hs Hj) as [_ Hfull]. specialize (Hfull Hnp).
    rewrite Hfull in *. unfold MAX_COMMITS_PER_REPO in Hlt.
    destruct (IH (j + 1)) as (Hf & reqs & Hp & Hl & Hb); [lia|lia|].
    split; [intros; apply Hf; lia|].
    exists (HistoryPage owner repo_name cursor :: reqs).
    split; [rewrite Hp; cbn; now rewrite <- app_assoc|].
    split; [cbn [length]; lia|].
    cbn [Observe.fetched]. fold answer. unfold commits_of at 1.
    rewrite Hs, Hj, Hfull.
    cbn [posted posts with_post with_count] in Hb.
    rewrite length_app in Hb. cbn [length] in Hb.
    replace (length (posts w) + 1)%nat with (S (length (posts w))) in Hb by lia.
    change (200 =? 200)%Z with true. cbv iota. lia.
  - intros fuel a d m cursor rc cf w answer Hs Hj j Hcf Hr.
    split; [discriminate|]. exists [HistoryPage owner repo_name cursor].
    split; [reflexivity|]. split; [cbn; lia|].
    rewrite fetched_single. fold answer. unfold commits_of. rewrite Hs, Hj. cbn. lia.
  - intros fuel a d m cursor rc cf w page pageInfo answer Hs Hj j Hcf Hr.
    split; [discriminate|]. exists [HistoryPage owner repo_name cursor].
    split; [reflexivity|]. split; [cbn; lia|].
    rewrite fetched_single. fold answer. unfold commits_of. rewrite Hs, Hj. cbn. lia.
  - intros fuel a d m cursor rc cf w r w' answer _ Ht.
    unfold answer in Ht. now rewrite no_transient in Ht.
  - intros fuel a d m cursor rc cf w e answer Hs _ _ j Hcf Hr.
    split; [discriminate|]. exists [HistoryPage owner repo_name cursor].
    split; [reflexivity|]. split; [cbn; lia|].
    rewrite fetched_single. fold answer. unfold commits_of.
    destruct (Z.eqb_spec (status_code answer) 200); [contradiction|lia].
Qed.

End ReducerRuns.

(** * Runs of the reconciliation loop, whatever their outcome *)

Section LedgerRuns.

Variable USER_NAME : string.
Variable OWNER_ID : string.
Variable remote : nat -> Request -> Response.

#[local] Abbreviation recursive_loc := (recursive_loc USER_NAME OWNER_ID remote).
#[local] Abbreviation cache_filename := (cache_filename USER_NAME).
#[local] Abbreviation reconcile_line := (reconcile_line USER_NAME OWNER_ID remote).
#[local] Abbreviation reconcile := (reconcile USER_NAME OWNER_ID remote).
#[local] Abbreviation refresh_line := (refresh_line USER_NAME OWNER_ID remote).
#[local] Abbreviation cache_builder := (cache_builder USER_NAME OWNER_ID remote).
#[local] Abbreviation ledger_lines := (ledger_lines USER_NAME).
#[local] Abbreviation opened := (opened USER_NAME).

(** The two facts carried through a run: what it posts and counts, and
    that it leaves the files alone unless it ends with a remote failure. *)
Lemma reconcile_line_run fuel edges cc i data w r w' :
  reconcile_line fuel edges cc i data w = (r, w') ->
  history_run (history_of edges) w w' /\
  (files w' = files w \/ exists e, r = Raise e /\ is_remote_failure e = true).
Proof.
  assert (Hsame : forall r0 : outcome (list string),
    (r0, w) = (r, w') ->
    history_run (history_of edges) w w' /\
    (files w' = files w \/ exists e, r = Raise e /\ is_remote_failure e = true)).
  { intros r0 [= <- <-]. split; [apply history_run_refl|now left]. }
  unfold reconcile_line, Main.reconcile_line, bind, getitem.
  destruct (data !! i) as [old|] eqn:Hi; [|apply Hsame]. cbn [ret].
  destruct (PyStr.split old) as [|h [|c rest]] eqn:Hsplit; try apply Hsame.
  destruct (edges !! i) as [edge|] eqn:He; [|apply Hsame]. cbn [ret].
  destruct (String.eqb h (Sha256.hexdigest (nameWithOwner edge))); [|apply Hsame].
  unfold try_except. fold refresh_line.
  pose proof (refresh_line_cases USER_NAME OWNER_ID remote fuel edge cc i h c data old w Hi)
    as Hc.
  fold refresh_line in Hc.
  destruct (PyStr.int c) as [stored|]; [|rewrite Hc; apply Hsame].
  destruct (defaultBranchRef edge) as [totalCount|].
  2:{ rewrite Hc. cbn [is_TypeError]. rewrite (setitem_in_range _ _ _ _ _ Hi).
      apply Hsame. }
  destruct (stored =? totalCount)%Z; [rewrite Hc; apply Hsame|].
  destruct (PyStr.split_slash (nameWithOwner edge))
    as [|owner [|repo_name [|? ?]]] eqn:Hsl; try (rewrite Hc; apply Hsame).
  fold recursive_loc in Hc.
  destruct (recursive_loc fuel owner repo_name data cc 0 0 0 None 0 0 w)
    as [r1 w1] eqn:Hr.
  assert (Hrun : history_run (history_of edges) w w1).
  { eapply history_run_mono; [|eapply recursive_loc_history_run; exact Hr].
    intros req [cursor ->]. exists edge, owner, repo_name, cursor.
    repeat split; try assumption.
    apply list_elem_of_In. eapply list_elem_of_lookup_2. exact He. }
  assert (Hfiles := Hr). apply recursive_loc_files in Hfiles.
  destruct r1 as [[a d m|z]|e|]; rewrite Hc.
  - intros [= <- <-]. split; [exact Hrun|].
    destruct Hfiles as [Hf|(e & [=] & _)]. now left.
  - cbn [is_TypeError]. rewrite (setitem_in_range _ _ _ _ _ Hi).
    intros [= <- <-]. split; [exact Hrun|].
    destruct Hfiles as [Hf|(e & [=] & _)]. now left.
  - destruct (is_TypeError e) eqn:Hte.
    + destruct e; try discriminate Hte.
      apply recursive_loc_raises in Hr as [[=]|[=]].
    + intros [= <- <-]. split; [exact Hrun|].
      destruct Hfiles as [Hf|(e' & [= <-] & Hrf)]; [now left|].
      right. now exists e.
  - intros [= <- <-]. split; [exact Hrun|].
    destruct Hfiles as [Hf|(e & [=] & _)]. now left.
Qed.

Lemma reconcile_run fuel edges cc indices data w r w' :
  reconcile fuel edges cc indices data w = (r, w') ->
  history_run (history_of edges) w w' /\
  (files w' = files w \/ exists e, r = Raise e /\ is_remote_failure e = true).
Proof.
  revert data w. induction indices as [|i rest IH]; intros data w H.
  - inversion H; subst. split; [apply history_run_refl|now left].
  - cbn [Main.reconcile] in H. unfold bind in H. fold reconcile_line in H.
    destruct (reconcile_line fuel edges cc i data w) as [r1 w1] eqn:Hline.
    destruct (reconcile_line_run _ _ _ _ _ _ _ _ Hline) as [Hrun Hfiles].
    destruct r1 as [data1|e|].
    + apply IH in H as [Hrun' Hfiles'].
      split; [eapply history_run_trans; eassumption|].
      destruct Hfiles as [Hf|(e & [=] & _)].
      destruct Hfiles' as [Hf'|Hf']; [left; congruence|now right].
    + inversion H; subst. now split.
    + inversion H; subst. now split.
Qed.

Lemma history_run_same allowed w w1 w2 :
  posts w2 = posts w1 -> QUERY_COUNT w2 = QUERY_COUNT w1 ->
  history_run allowed w w1 -> history_run allowed w w2.
Proof.
  intros Hp Hq (reqs & H1 & H2 & H3 & H4). exists reqs.
  unfold calls in *. rewrite Hp, Hq. repeat split; assumption.
Qed.

Lemma history_run_from allowed w0 w w' :
  posts w0 = posts w -> QUERY_COUNT w0 = QUERY_COUNT w ->
  history_run allowed w0 w' -> history_run allowed w w'.
Proof.
  intros Hp Hq (reqs & H1 & H2 & H3 & H4). exists reqs.
  unfold calls in *. rewrite <- Hp, <- Hq. repeat split; assumption.
Qed.

Lemma opened_posts cs w :
  posts (opened cs w) = posts w /\ QUERY_COUNT (opened cs w) = QUERY_COUNT w.
Proof.
  unfold opened, Observe.opened. destruct (files w !! _); split; reflexivity.
Qed.

Lemma load_ledger_state edges cs force w r w0 :
  load_ledger USER_NAME edges cs force w = (r, w0) ->
  posts w0 = posts w /\ QUERY_COUNT w0 = QUERY_COUNT w /\
  exists cached lines, r = Ok (cached, lines).
Proof.
  rewrite load_ledger_spec. cbv zeta.
  destruct (opened_posts cs w) as [Hp Hq]. fold opened.
  destruct (must_rebuild _ _ _ _); intros [= <- <-];
    (split; [exact Hp|]); (split; [exact Hq|]); eauto.
Qed.

(** Whatever the outcome of [cache_builder], its posts are history
    requests for enumerated repositories, each one counted. *)
Lemma cache_builder_run fuel edges cs force w r w' :
  cache_builder fuel edges cs force w = (r, w') ->
  history_run (history_of edges) w w'.
Proof.
  unfold cache_builder, Main.cache_builder, bind.
  destruct (load_ledger USER_NAME edges cs force w) as [r0 w0] eqn:Hload.
  destruct (load_ledger_state _ _ _ _ _ _ Hload) as (Hp & Hq & cached & lines & ->).
  unfold Main.reconcile_and_sum, bind.
  destruct (Main.reconcile _ _ _ _ _ _ _ _ _) as [r1 w1] eqn:Hrec.
  apply reconcile_run in Hrec as [Hrun _].
  apply (history_run_from _ _ _ _ Hp Hq) in Hrun.
  destruct r1 as [data|e|]; [|intros [= <- <-]; exact Hrun..].
  unfold open_write.
  destruct (sum_loc data 0 0 _) as [r2 w2] eqn:Hsum.
  apply sum_loc_state in Hsum as [-> _].
  destruct r2 as [[a d]|e|]; intros [= <- <-]; exact Hrun.
Qed.

End LedgerRuns.

(** * Ledgers of well-formed rows *)

Section LedgerContent.

Variable USER_NAME : string.
Variable OWNER_ID : string.
Variable remote : nat -> Request -> Response.

#[local] Abbreviation cache_filename := (cache_filename USER_NAME).
#[local] Abbreviation reconcile := (reconcile USER_NAME OWNER_ID remote).
#[local] Abbreviation cache_builder := (cache_builder USER_NAME OWNER_ID remote).
#[local] Abbreviation commit_counter := (commit_counter USER_NAME).
#[local] Abbreviation ledger_lines := (ledger_lines USER_NAME).
#[local] Abbreviation opened := (opened USER_NAME).

Lemma sum_loc_rows rows acc_a acc_d w :
  Forall (fun row => PyStr.is_token (fst (fst row)) = true) rows ->
  sum_loc (map archive_line rows) acc_a acc_d w =
  (Ok (acc_a + sum_of row_additions rows, acc_d + sum_of row_deletions rows), w).
Proof.
  intros H. revert acc_a acc_d.
  induction H as [|[[h t] [[a d] m]] rows Hh _ IH]; intros acc_a acc_d.
  - cbn. rewrite !Z.add_0_r. reflexivity.
  - cbn [map sum_loc archive_line]. cbn [fst] in Hh.
    rewrite LineFacts.split_updated_line by assumption.
    unfold bind, getitem, py_int. cbn [lookup list_lookup ret].
    rewrite !PyStrFacts.int_str. cbn [ret].
    rewrite IH. cbn [sum_of fold_right row_additions row_deletions].
    fold (sum_of row_additions rows). fold (sum_of row_deletions rows).
    rewrite !Z.add_assoc. reflexivity.
Qed.

Lemma sum_commits_rows rows acc w :
  Forall (fun row => PyStr.is_token (fst (fst row)) = true) rows ->
  sum_commits (map archive_line rows) acc w = (Ok (acc + sum_of row_commits rows), w).
Proof.
  intros H. revert acc.
  induction H as [|[[h t] [[a d] m]] rows Hh _ IH]; intros acc.
  - cbn. rewrite Z.add_0_r. reflexivity.
  - cbn [map sum_commits archive_line]. cbn [fst] in Hh.
    rewrite LineFacts.split_updated_line by assumption.
    unfold bind, getitem, py_int. cbn [lookup list_lookup ret].
    rewrite !PyStrFacts.int_str. cbn [ret].
    rewrite IH. cbn [sum_of fold_right row_commits].
    fold (sum_of row_commits rows).
    rewrite !Z.add_assoc. reflexivity.
Qed.

(** A file of complete header lines and well-formed rows reads back as
    those lines. *)
Lemma ledger_read_back header rows w :
  files w !! cache_filename
    = Some (PyStr.writelines (header ++ map archive_line rows)) ->
  Forall (fun l => Shape.is_line l = true) header ->
  Forall (fun row => PyStr.is_token (fst (fst row)) = true) rows ->
  open_read cache_filename w = (Ok (header ++ map archive_line rows)%list, w) /\
  firstn (length header) (header ++ map archive_line rows) = header /\
  skipn (length header) (header ++ map archive_line rows) = map archive_line rows.
Proof.
  intros Hf Hh Hrows. split.
  - apply open_read_written; [exact Hf|].
    apply list_is_lines, Forall_app. split; [exact Hh|].
    now apply archive_lines_are_lines.
  - split.
    + rewrite firstn_app, Nat.sub_diag, firstn_all. cbn [firstn]. apply app_nil_r.
    + rewrite skipn_app, Nat.sub_diag, skipn_all. reflexivity.
Qed.

Lemma row_current_token edges rows :
  Forall2 row_current edges rows ->
  Forall (fun row => PyStr.is_token (fst (fst row)) = true) rows.
Proof.
  induction 1 as [|edge row edges rows [Hk _] _ IH]; constructor; [|exact IH].
  rewrite Hk. apply PyStrFacts.hexdigest_token.
Qed.

Lemma row_current_settled edge row :
  row_current edge row -> settled edge (archive_line row).
Proof.
  destruct row as [[h t] [[a d] m]]. intros [Hk Hb]. cbn [fst snd] in Hk, Hb.
  exists h, (PyStr.str t), [PyStr.str m; PyStr.str a; PyStr.str d].
  split.
  - cbn [archive_line]. apply LineFacts.split_updated_line.
    rewrite Hk. apply PyStrFacts.hexdigest_token.
  - right. exists t. split; [apply PyStrFacts.int_str|]. now left.
Qed.

(** Reading a written list of lines back never gives more lines than were
    written. *)
Lemma lines_of_app_length s t :
  (length (PyStr.lines_of (s ++ t)) <= length (PyStr.lines_of s) + length (PyStr.lines_of t))%nat.
Proof.
  induction s as [|c s IH]; [cbn; lia|].
  cbn [String.append PyStr.lines_of].
  destruct (Ascii.eqb c PyStr.LF); [cbn [length]; lia|].
  destruct (PyStr.lines_of (s ++ t)) as [|l ls];
    destruct (PyStr.lines_of s) as [|l' ls']; cbn [length] in *; lia.
Qed.

Lemma readlines_app_length ls ls' :
  Shape.lines_ok ls = true -> Shape.lines_ok ls' = true ->
  (length (PyStr.readlines (PyStr.writelines ls ++ PyStr.writelines ls'))
   <= length ls + length ls')%nat.
Proof.
  intros Hok Hok'. unfold PyStr.readlines.
  rewrite LineFacts.universal_newlines_id.
  - etransitivity; [apply lines_of_app_length|].
    rewrite !LineFacts.lines_of_writelines by assumption. lia.
  - rewrite PyStrFacts.all_chars_app.
    rewrite !LineFacts.lines_ok_no_cr by assumption. reflexivity.
Qed.

End LedgerContent.

(** * The enumeration *)

Section Enumeration.

Variable USER_NAME : string.
Variable OWNER_ID : string.
Variable remote : nat -> Request -> Response.

#[local] Abbreviation cache_builder := (cache_builder USER_NAME OWNER_ID remote).
#[local] Abbreviation loc_query := (loc_query USER_NAME OWNER_ID remote).
#[local] Abbreviation served := (served USER_NAME remote).
#[local] Abbreviation enumeration := (enumeration USER_NAME).
#[local] Abbreviation refused := (refused USER_NAME remote).

Lemma loc_query_S fuel owner_affiliation cs force cursor edges w :
  loc_query (S fuel) owner_affiliation cs force cursor edges w =
  let req := ReposPage owner_affiliation USER_NAME cursor in
  let answer := remote (length (posts w)) req in
  let w1 := with_post req (with_count "loc_query" w) in
  if (status_code answer =? 200)%Z then
    match json answer with
    | ReposData page pageInfo =>
        if hasNextPage pageInfo then
          loc_query fuel owner_affiliation cs force (endCursor pageInfo)
            (edges ++ page)%list w1
        else cache_builder fuel (edges ++ page)%list cs force w1
    | HistoryData _ => (Raise KeyError, w1)
    end
  else (Raise (RequestFailed "loc_query" (status_code answer)), w1).
Proof.
  cbn [Main.loc_query]. unfold bind, query_count, simple_request, bind, post.
  cbn [posts with_count]. cbv zeta.
  destruct (status_code _ =? 200)%Z; [|reflexivity].
  cbn [ret]. destruct (json _) as [|page pageInfo]; [reflexivity|].
  destruct (hasNextPage pageInfo); reflexivity.
Qed.

Lemma after_enumeration_state reqs w :
  posts (after_enumeration reqs w) = (posts w ++ reqs)%list /\
  files (after_enumeration reqs w) = files w /\
  sleeps (after_enumeration reqs w) = sleeps w /\
  calls "loc_query" (after_enumeration reqs w)
    = calls "loc_query" w + Z.of_nat (length reqs) /\
  forall funct_id,
    funct_id <> "loc_query" ->
    QUERY_COUNT (after_enumeration reqs w) !! funct_id = QUERY_COUNT w !! funct_id.
Proof.
  revert w. induction reqs as [|req reqs IH]; intros w.
  - cbn. rewrite app_nil_r. repeat split; lia.
  - cbn [after_enumeration fold_left].
    fold (after_enumeration reqs (with_post req (with_count "loc_query" w))).
    destruct (IH (with_post req (with_count "loc_query" w))) as (Hp & Hf & Hs & Hc & Ho).
    rewrite Hp, Hf, Hs, Hc. cbn [posts files sleeps with_post with_count].
    split; [now rewrite <- app_assoc|]. split; [reflexivity|]. split; [reflexivity|].
    split.
    + unfold calls. cbn [QUERY_COUNT with_post with_count].
      rewrite lookup_insert_eq. cbn [default from_option id length]. lia.
    + intros funct_id Hne. rewrite Ho by assumption.
      cbn [QUERY_COUNT with_post with_count]. now rewrite lookup_insert_ne.
Qed.

(** The enumeration follows the cursors of the pages, keeps their edges in
    order and hands them all to [cache_builder]. *)
Lemma loc_query_pages fuel owner_affiliation cs force pages final cursor edges w :
  served owner_affiliation (length (posts w)) cursor pages final ->
  loc_query (length pages + S fuel) owner_affiliation cs force cursor edges w =
  cache_builder fuel (edges ++ concat (map fst pages) ++ final)%list cs force
    (after_enumeration (enumeration owner_affiliation cursor pages) w).
Proof.
  revert cursor edges w.
  induction pages as [|[page next] pages IH]; intros cursor edges w H.
  - cbn [Pages.served] in H. destruct H as (Hs & pageInfo & Hj & Hnp).
    cbn [length Nat.add]. rewrite loc_query_S. cbv zeta.
    rewrite Hs, Hj, Hnp. reflexivity.
  - cbn [Pages.served] in H. destruct H as (Hs & Hj & Hrest).
    cbn [length Nat.add]. rewrite loc_query_S. cbv zeta.
    rewrite Hs, Hj. cbn [hasNextPage endCursor Z.eqb Pos.eqb].
    rewrite IH.
    + cbn [map concat fst Pages.enumeration Pages.after_enumeration fold_left].
      rewrite <- !app_assoc. reflexivity.
    + cbn [posts with_post with_count]. rewrite length_app. cbn [length].
      replace (length (posts w) + 1)%nat with (S (length (posts w))) by lia.
      exact Hrest.
Qed.

Lemma enumeration_length owner_affiliation cursor pages :
  length (enumeration owner_affiliation cursor pages) = S (length pages).
Proof.
  revert cursor. induction pages as [|[page next] pages IH]; intros cursor;
    [reflexivity|].
  cbn [Pages.enumeration length]. now rewrite IH.
Qed.

(** A refused page ends the enumeration at once. *)
Lemma loc_query_refused fuel owner_affiliation cs force pages status cursor edges w :
  refused owner_affiliation (length (posts w)) cursor pages status ->
  loc_query (length pages + S fuel) owner_affiliation cs force cursor edges w =
  (Raise (RequestFailed "loc_query" status),
   after_enumeration (enumeration owner_affiliation cursor pages) w).
Proof.
  revert cursor edges w.
  induction pages as [|[page next] pages IH]; intros cursor edges w H.
  - cbn [Pages.refused] in H. destruct H as (Hs & Hne).
    cbn [length Nat.add]. rewrite loc_query_S. cbv zeta. rewrite Hs.
    destruct (Z.eqb_spec status 200); [contradiction|reflexivity].
  - cbn [Pages.refused] in H. destruct H as (Hs & Hj & Hrest).
    cbn [length Nat.add]. rewrite loc_query_S. cbv zeta.
    rewrite Hs, Hj. cbn [hasNextPage endCursor Z.eqb Pos.eqb].
    rewrite IH; [reflexivity|].
    cbn [posts with_post with_count]. rewrite length_app. cbn [length].
    replace (length (posts w) + 1)%nat with (S (length (posts w))) by lia.
    exact Hrest.
Qed.

End Enumeration.

(** * The ledger as a list of rows *)

Section LedgerRows.

Variable USER_NAME : string.
Variable OWNER_ID : string.
Variable remote : nat -> Request -> Response.

#[local] Abbreviation cache_filename := (cache_filename USER_NAME).
#[local] Abbreviation reconcile_line := (reconcile_line USER_NAME OWNER_ID remote).
#[local] Abbreviation reconcile := (reconcile USER_NAME OWNER_ID remote).
#[local] Abbreviation reconciled := (reconciled USER_NAME OWNER_ID remote).
#[local] Abbreviation reconcile_and_sum := (reconcile_and_sum USER_NAME OWNER_ID remote).
#[local] Abbreviation commit_counter := (commit_counter USER_NAME).

Lemma zero_line_row edge :
  zero_line (Sha256.hexdigest (nameWithOwner edge)) = archive_line (zero_row edge).
Proof. reflexivity. Qed.

Lemma commit_counter_rows header rows w :
  files w !! cache_filename
    = Some (PyStr.writelines (header ++ map archive_line rows)) ->
  Forall (fun l => Shape.is_line l = true) header ->
  Forall (fun row => PyStr.is_token (fst (fst row)) = true) rows ->
  commit_counter (length header) w = (Ok (sum_of row_commits rows), w).
Proof.
  intros Hf Hh Htok.
  destruct (ledger_read_back USER_NAME header rows w Hf Hh Htok) as (Hread & _ & Hskip).
  unfold commit_counter, Main.commit_counter, bind.
  fold cache_filename. rewrite Hread, Hskip.
  rewrite sum_commits_rows by assumption. reflexivity.
Qed.

(** An iteration turns the line of a row into the line of a row with the
    same key. *)
Lemma reconciled_row fuel edge cc data w row new w' :
  PyStr.is_token (row_key row) = true ->
  reconciled fuel edge cc data w (archive_line row) new w' ->
  exists row', new = archive_line row' /\ row_key row' = row_key row.
Proof.
  intros Htok H.
  assert (Hkey : forall c rest,
    PyStr.split (archive_line row) = Sha256.hexdigest (nameWithOwner edge) :: c :: rest ->
    row_key row = Sha256.hexdigest (nameWithOwner edge)).
  { intros c rest Hs. destruct row as [[h t] [[a d] m]]. cbn [row_key fst] in *.
    cbn [archive_line] in Hs. rewrite LineFacts.split_updated_line in Hs by assumption.
    congruence. }
  inversion H; subst.
  - now exists row.
  - exists (zero_row edge). split; [apply zero_line_row|].
    symmetry. eapply Hkey. eassumption.
  - now exists row.
  - exists (Sha256.hexdigest (nameWithOwner edge), totalCount, (a, d, m)).
    split; [reflexivity|]. symmetry. eapply Hkey. eassumption.
  - exists (zero_row edge). split; [apply zero_line_row|].
    symmetry. eapply Hkey. eassumption.
Qed.

Lemma insert_row (rows : list (string * Z * (Z * Z * Z))) i row row' :
  rows !! i = Some row -> row_key row' = row_key row ->
  <[i := archive_line row']> (map archive_line rows) = map archive_line (<[i := row']> rows) /\
  map row_key (<[i := row']> rows) = map row_key rows.
Proof.
  revert i. induction rows as [|r rows IH]; intros i Hi Hk; [discriminate|].
  destruct i as [|i]; cbn [lookup list_lookup] in Hi.
  - inversion Hi; subst.
    cbn [map insert list_insert]. now rewrite Hk.
  - destruct (IH i Hi Hk) as [H1 H2].
    cbn [map insert list_insert]. split; f_equal; assumption.
Qed.

Lemma lookup_row (rows : list (string * Z * (Z * Z * Z))) i old :
  map archive_line rows !! i = Some old ->
  exists row, rows !! i = Some row /\ old = archive_line row.
Proof.
  revert i. induction rows as [|r rows IH]; intros i Hi; [discriminate|].
  destruct i as [|i]; cbn in Hi.
  - inversion Hi. now exists r.
  - now apply IH.
Qed.

Lemma keys_tokens (rows rows' : list (string * Z * (Z * Z * Z))) :
  map row_key rows' = map row_key rows ->
  Forall (fun row => PyStr.is_token (fst (fst row)) = true) rows ->
  Forall (fun row => PyStr.is_token (fst (fst row)) = true) rows'.
Proof.
  revert rows. induction rows' as [|r' rows' IH]; intros rows Hk Ht; [constructor|].
  destruct rows as [|r rows]; [discriminate|].
  inversion Hk as [[Hk1 Hk2]]. inversion Ht; subst.
  constructor; [|eapply IH; eassumption].
  unfold row_key in Hk1. now rewrite Hk1.
Qed.

(** The loop keeps a ledger of rows a ledger of rows, with the same keys. *)
Lemma reconcile_rows fuel edges cc indices rows w data' w' :
  Forall (fun row => PyStr.is_token (fst (fst row)) = true) rows ->
  reconcile fuel edges cc indices (map archive_line rows) w = (Ok data', w') ->
  exists rows',
    data' = map archive_line rows' /\ map row_key rows' = map row_key rows.
Proof.
  revert rows w. induction indices as [|i rest IH]; intros rows w Htok H.
  - inversion H; subst. now exists rows.
  - cbn [Main.reconcile] in H. unfold bind in H. fold reconcile_line in H.
    destruct (reconcile_line fuel edges cc i (map archive_line rows) w)
      as [[data1|e|] w1] eqn:Hline; try discriminate.
    apply reconcile_line_Ok in Hline
      as (old & new & edge & Hold & _ & Hrec & ->).
    apply lookup_row in Hold as (row & Hrow & ->).
    assert (Hrt : PyStr.is_token (row_key row) = true).
    { eapply Forall_lookup_1 in Htok; [|exact Hrow]. exact Htok. }
    destruct (reconciled_row _ _ _ _ _ _ _ _ Hrt Hrec) as (row' & -> & Hk).
    destruct (insert_row rows i row row' Hrow Hk) as [Hins Hkeys].
    rewrite Hins in H.
    apply IH in H as (rows' & Hd & Hk').
    + exists rows'. split; [exact Hd|]. now rewrite Hk', Hkeys.
    + eapply keys_tokens; eassumption.
Qed.

(** Lines 433-484 on a ledger of rows: what is saved is a ledger of rows
    with the same keys, the totals returned are the sums over its rows,
    and [commit_counter] reads the sum of its authored commits. *)
Lemma reconcile_and_sum_rows fuel edges cached header rows w r w' :
  Forall (fun l => Shape.is_line l = true) header ->
  Forall (fun row => PyStr.is_token (fst (fst row)) = true) rows ->
  reconcile_and_sum fuel edges (length header) cached
    (header ++ map archive_line rows) 0 0 w = (Ok r, w') ->
  exists rows',
    map row_key rows' = map row_key rows /\
    files w' !! cache_filename
      = Some (PyStr.writelines (header ++ map archive_line rows')) /\
    r = (sum_of row_additions rows', sum_of row_deletions rows',
         sum_of row_additions rows' - sum_of row_deletions rows', cached) /\
    commit_counter (length header) w' = (Ok (sum_of row_commits rows'), w').
Proof.
  intros Hh Htok H.
  unfold reconcile_and_sum, Main.reconcile_and_sum, bind in H.
  assert (Hfirst : firstn (length header) (header ++ map archive_line rows) = header).
  { rewrite firstn_app, Nat.sub_diag, firstn_all. cbn [firstn]. apply app_nil_r. }
  assert (Hskip : skipn (length header) (header ++ map archive_line rows)
                  = map archive_line rows).
  { rewrite skipn_app, Nat.sub_diag, skipn_all. reflexivity. }
  rewrite Hfirst, Hskip in H.
  destruct (Main.reconcile _ _ _ _ _ _ _ _ _) as [[data| |] w1] eqn:Hrec;
    try discriminate.
  apply reconcile_rows in Hrec as (rows' & -> & Hk); [|exact Htok].
  pose proof (keys_tokens _ _ Hk Htok) as Htok'.
  unfold open_write in H. rewrite sum_loc_rows in H by assumption.
  inversion H; subst. clear H.
  exists rows'. split; [exact Hk|].
  assert (Hf : files (with_file cache_filename
                        (PyStr.writelines header ++
                         PyStr.writelines (map archive_line rows')) w1)
                 !! cache_filename
               = Some (PyStr.writelines (header ++ map archive_line rows'))).
  { cbn [files with_file]. rewrite lookup_insert_eq, LineFacts.writelines_app.
    reflexivity. }
  split; [exact Hf|]. split; [reflexivity|].
  apply commit_counter_rows; assumption.
Qed.

End LedgerRows.

(** * Further properties of the program *)

Section XmlTheorems.
Import Xml.

(** X1. The five replacements of [escape_xml], applied one after the
    other over the whole text, amount to a single pass that replaces each
    character by its entity: no entity written by an earlier replacement is
    escaped again by a later one. *)
Theorem escape_xml_is_one_pass :
  forall text, escape_xml (Some text) = each entity text.
Proof.
  induction text as [|c text IH]; [reflexivity|].
  rewrite XmlFacts.escape_cons, IH. reflexivity.
Qed.

(** X2. What [escape_xml] returns has none of the characters [<], [>],
    double quote and apostrophe, whatever it is given. *)
Theorem escape_xml_leaves_no_markup :
  forall text, PyStr.all_chars plain (escape_xml text) = true.
Proof.
  intros [text|]; [|reflexivity].
  induction text as [|c text IH]; [reflexivity|].
  rewrite XmlFacts.escape_cons, PyStrFacts.all_chars_app, XmlFacts.entity_plain.
  exact IH.
Qed.

(** X3. [escape_xml] loses nothing: two texts with the same escaped form
    are the same text. *)
Theorem escape_xml_is_injective :
  forall s t, escape_xml (Some s) = escape_xml (Some t) -> s = t.
Proof.
  intros s t H.
  rewrite <- (XmlFacts.unescape_escape s), <- (XmlFacts.unescape_escape t).
  now rewrite H.
Qed.

Lemma witness_escape_injective :
  escape_xml (Some "a<b&amp;") = escape_xml (Some "a<b&amp;") /\ "a<b&amp;" = "a<b&amp;".
Proof.
  split; [reflexivity|].
  apply (escape_xml_is_injective "a<b&amp;" "a<b&amp;"). reflexivity.
Defined.

End XmlTheorems.

Section ReducerTheorems.

Variable USER_NAME : string.
Variable OWNER_ID : string.
Variable remote : nat -> Request -> Response.

#[local] Abbreviation recursive_loc := (recursive_loc USER_NAME OWNER_ID remote).
#[local] Abbreviation authored := (authored OWNER_ID).
#[local] Abbreviation commits_between := (commits_between remote).
#[local] Abbreviation fetched_between := (fetched_between remote).

(** X4. When [recursive_loc] returns its three totals, they are the totals
    it was given plus the additions, the deletions and the number of the
    commits authored by [OWNER_ID] among all the commits of the pages it
    was answered, retried requests included: every page is counted, and
    counted once. *)
Theorem reducer_counts_authored_commits_of_every_page :
  forall fuel owner repo_name data cc a d m cursor rc cf w a' d' m' w',
    recursive_loc fuel owner repo_name data cc a d m cursor rc cf w
      = (Ok (LocTuple a' d' m'), w') ->
    let mine := authored (commits_between w w') in
    a' = a + sum_of additions mine /\
    d' = d + sum_of deletions mine /\
    m' = m + Z.of_nat (length mine).
Proof.
  intros fuel owner repo_name data cc a d m cursor rc cf w a' d' m' w' H.
  apply recursive_loc_counts in H as (reqs & Hp & Hc).
  unfold commits_between, Pages.commits_between. rewrite Hp, drop_app_length.
  rewrite count_authored_sum in Hc. inversion Hc. cbv zeta. auto.
Qed.

(** X5. Against a remote that never answers with a transient status and
    serves pages of at most 100 commits, full whenever another page
    follows, a call of [recursive_loc] that starts with no commit fetched
    needs at most 50 nested calls, posts at most 50 requests, fetches at
    most 5000 commits and adds at most 5000 to the authored-commit count. *)
Theorem commit_ceiling_without_transient_failure :
  (forall k req, is_transient (status_code (remote k req)) = false) ->
  (forall k req history,
     status_code (remote k req) = 200 ->
     json (remote k req) = HistoryData (Some history) ->
     (length (history_edges history) <= 100)%nat /\
     (hasNextPage (history_pageInfo history) = true ->
      length (history_edges history) = 100%nat)) ->
  forall fuel owner repo_name data cc a d m cursor rc w r w',
    (50 <= fuel)%nat ->
    recursive_loc fuel owner repo_name data cc a d m cursor rc 0 w = (r, w') ->
    r <> OutOfFuel /\
    (length (posts w') <= length (posts w) + 50)%nat /\
    fetched_between w w' <= 5000 /\
    (forall a' d' m', r = Ok (LocTuple a' d' m') -> m <= m' <= m + 5000).
Proof.
  intros Hnt Hfull fuel owner repo_name data cc a d m cursor rc w r w' Hfuel H.
  destruct (recursive_loc_ceiling _ _ _ _ _ _ _ _ _ _ _ _ _ _ _ _ _ Hnt Hfull H 0)
    as (Hf & reqs & Hp & Hl & Hb); [reflexivity|lia|].
  split; [apply Hf; lia|].
  split; [rewrite Hp, length_app; lia|].
  assert (Hfb : fetched_between w w' = fetched remote (length (posts w)) reqs).
  { unfold fetched_between, Observe.fetched_between. now rewrite Hp, drop_app_length. }
  split; [rewrite Hfb; lia|].
  intros a' d' m' ->.
  apply recursive_loc_tuple in H as (reqs' & Hp' & _ & Hm).
  rewrite Hp in Hp'. apply app_inv_head in Hp'. subst reqs'. lia.
Qed.

End ReducerTheorems.

Section EnumerationTheorems.

Variable USER_NAME : string.
Variable OWNER_ID : string.
Variable remote : nat -> Request -> Response.

#[local] Abbreviation cache_builder := (cache_builder USER_NAME OWNER_ID remote).
#[local] Abbreviation loc_query := (loc_query USER_NAME OWNER_ID remote).
#[local] Abbreviation served := (served USER_NAME remote).
#[local] Abbreviation refused := (refused USER_NAME remote).
#[local] Abbreviation enumeration := (enumeration USER_NAME).

(** X6. When the remote serves the enumeration in pages, [loc_query]
    posts one request per page, the first with the cursor it was given and
    each later one with the end cursor of the page before, counts each
    under ["loc_query"], never sleeps and touches no file, and then runs
    [cache_builder] once, on the edges it was given followed by the edges
    of all the pages in the order of the pages. *)
Theorem enumeration_hands_all_pages_to_cache_builder :
  forall fuel owner_affiliation comment_size force_cache pages final cursor edges w,
    served owner_affiliation (length (posts w)) cursor pages final ->
    let w1 := after_enumeration (enumeration owner_affiliation cursor pages) w in
    loc_query (length pages + S fuel) owner_affiliation comment_size force_cache
      cursor edges w =
    cache_builder fuel (edges ++ concat (map fst pages) ++ final)%list
      comment_size force_cache w1 /\
    posts w1 = (posts w ++ enumeration owner_affiliation cursor pages)%list /\
    files w1 = files w /\
    sleeps w1 = sleeps w /\
    calls "loc_query" w1 = calls "loc_query" w + Z.of_nat (length pages) + 1.
Proof.
  intros fuel aff cs force pages final cursor edges w H w1.
  split; [now apply loc_query_pages|].
  destruct (after_enumeration_state (enumeration aff cursor pages) w)
    as (Hp & Hf & Hs & Hc & _).
  repeat split; try assumption.
  subst w1. rewrite Hc, enumeration_length. lia.
Qed.

(** X7. When the remote refuses a page of the enumeration, at whatever
    depth, [loc_query] raises with the status of that answer after one
    post per page served and one for the refused page: it does not retry,
    does not sleep, touches no file, and the pages already received are
    not handed to [cache_builder]. *)
Theorem refused_enumeration_page_ends_the_run :
  forall fuel owner_affiliation comment_size force_cache pages status cursor edges w,
    refused owner_affiliation (length (posts w)) cursor pages status ->
    exists w',
      loc_query (length pages + S fuel) owner_affiliation comment_size force_cache
        cursor edges w = (Raise (RequestFailed "loc_query" status), w') /\
      posts w' = (posts w ++ enumeration owner_affiliation cursor pages)%list /\
      files w' = files w /\
      sleeps w' = sleeps w.
Proof.
  intros fuel aff cs force pages status cursor edges w H.
  exists (after_enumeration (enumeration aff cursor pages) w).
  split; [now apply loc_query_refused|].
  destruct (after_enumeration_state (enumeration aff cursor pages) w)
    as (Hp & Hf & Hs & _).
  repeat split; assumption.
Qed.

End EnumerationTheorems.

Section LedgerTheorems.

Variable USER_NAME : string.
Variable OWNER_ID : string.
Variable remote : nat -> Request -> Response.

#[local] Abbreviation cache_filename := (cache_filename USER_NAME).
#[local] Abbreviation reconcile := (reconcile USER_NAME OWNER_ID remote).
#[local] Abbreviation cache_builder := (cache_builder USER_NAME OWNER_ID remote).
#[local] Abbreviation commit_counter := (commit_counter USER_NAME).
#[local] Abbreviation ledger_lines := (ledger_lines USER_NAME).
#[local] Abbreviation opened := (opened USER_NAME).

Lemma current_rows_settled edges rows :
  Forall2 row_current edges rows ->
  forall i, i ∈ seq 0 (length edges) ->
    exists line edge,
      map archive_line rows !! i = Some line /\ edges !! i = Some edge /\
      settled edge line.
Proof.
  induction 1 as [|edge row edges rows Hrow _ IH]; intros i Hi.
  - cbn in Hi. now apply elem_of_nil in Hi.
  - destruct i as [|i].
    + exists (archive_line row), edge. repeat split. now apply row_current_settled.
    + apply elem_of_seq in Hi. cbn [length] in Hi.
      destruct (IH i) as (line & edge' & H1 & H2 & H3);
        [apply elem_of_seq; lia|].
      exists line, edge'. repeat split; assumption.
Qed.

(** X8. On a ledger file made of the comment block and one up-to-date row
    per enumerated repository (the key of the repository and the total
    commit count the enumeration reports), [cache_builder] makes no remote
    call and leaves the state as it is, and returns the sums of the
    additions and deletions of the rows, their difference, and the flag
    [true]. *)
Theorem current_ledger_is_answered_from_file :
  forall fuel edges header rows w,
    files w !! cache_filename
      = Some (PyStr.writelines (header ++ map archive_line rows)) ->
    Forall (fun l => Shape.is_line l = true) header ->
    Forall2 row_current edges rows ->
    cache_builder fuel edges (length header) false w =
    (Ok (sum_of row_additions rows, sum_of row_deletions rows,
         sum_of row_additions rows - sum_of row_deletions rows, true), w).
Proof.
  intros fuel edges header rows w Hf Hh Hrows.
  pose proof (row_current_token _ _ Hrows) as Htok.
  destruct (ledger_read_back USER_NAME header rows w Hf Hh Htok) as (Hread & Hfirst & Hskip).
  assert (Hlines : ledger_lines (length header) w = (header ++ map archive_line rows)%list).
  { unfold ledger_lines, Observe.ledger_lines. rewrite Hf.
    unfold open_read in Hread. rewrite Hf in Hread. congruence. }
  unfold cache_builder, Main.cache_builder, bind.
  rewrite load_ledger_spec. cbv zeta. rewrite Hlines.
  assert (Hmr : must_rebuild edges (length header) false
                  (header ++ map archive_line rows) = false).
  { unfold must_rebuild. rewrite orb_false_r. apply negb_false_iff, Z.eqb_eq.
    rewrite length_app, length_map, (Forall2_length _ _ _ Hrows). lia. }
  rewrite Hmr, (opened_existing _ _ _ _ Hf).
  unfold Main.reconcile_and_sum, bind. rewrite Hfirst, Hskip.
  rewrite reconcile_settled by (apply current_rows_settled; exact Hrows).
  unfold open_write. rewrite <- LineFacts.writelines_app, (with_file_id _ _ _ Hf).
  rewrite sum_loc_rows by assumption. reflexivity.
Qed.

(** X9. On a ledger file made of the comment block and well-formed rows,
    [commit_counter] returns the sum of the authored-commit fields of the
    rows (the third field of each line) and leaves the state as it is. *)
Theorem commit_counter_sums_authored_commits :
  forall header rows w,
    files w !! cache_filename
      = Some (PyStr.writelines (header ++ map archive_line rows)) ->
    Forall (fun l => Shape.is_line l = true) header ->
    Forall (fun row => PyStr.is_token (fst (fst row)) = true) rows ->
    commit_counter (length header) w = (Ok (sum_of row_commits rows), w).
Proof.
  intros header rows w Hf Hh Htok.
  destruct (ledger_read_back USER_NAME header rows w Hf Hh Htok) as (Hread & _ & Hskip).
  unfold commit_counter, Main.commit_counter, bind.
  fold cache_filename. rewrite Hread, Hskip.
  rewrite sum_commits_rows by assumption. reflexivity.
Qed.

(** X10. When the ledger file has fewer lines than the comment block and
    at least one repository is enumerated, [cache_builder] does not
    complete: the rebuilt file keeps the short block, the lines that
    follow are taken for the rest of the block, and the loop runs past the
    end of the data lines. *)
Theorem short_ledger_never_completes :
  forall fuel edges comment_size force_cache w r w',
    (length (ledger_lines comment_size w) < comment_size)%nat ->
    edges <> [] ->
    cache_builder fuel edges comment_size force_cache w <> (Ok r, w').
Proof.
  intros fuel edges cs force w r w' Hshort Hne H.
  destruct (cache_builder_Ok _ _ _ _ _ _ _ _ _ _ H)
    as (lines & w0 & data & w1 & a & d & Hload & _ & Hrec & _).
  rewrite load_ledger_spec in Hload. cbv zeta in Hload.
  assert (Hmr : must_rebuild edges cs force (ledger_lines cs w) = true).
  { unfold must_rebuild. apply orb_true_iff. left.
    apply negb_true_iff, Z.eqb_neq. lia. }
  rewrite Hmr in Hload. inversion Hload as [[Hlines Hw0]]. clear Hload.
  assert (Hlen : (length lines <= length (ledger_lines cs w) + length edges)%nat).
  { rewrite <- Hlines. unfold rebuilt.
    etransitivity; [apply readlines_app_length|].
    - rewrite firstn_all2 by lia. apply lines_ok_ledger_lines.
    - apply list_is_lines, Forall_map, Forall_forall. intros edge _.
      apply LineFacts.is_line_zero_line, PyStrFacts.hexdigest_token.
    - rewrite length_firstn, length_map. lia. }
  destruct (reconcile_Ok _ _ _ _ _ _ _ _ _ _ _ Hrec (NoDup_seq 0 (length edges)))
    as (_ & _ & Hin).
  destruct edges as [|edge edges]; [contradiction|].
  destruct (Hin (length edges)) as (old & _ & _ & _ & _ & _ & Hold & _).
  { apply elem_of_seq. cbn [length]. lia. }
  apply lookup_lt_Some in Hold. rewrite length_skipn in Hold.
  cbn [length] in Hlen. lia.
Qed.

(** X11. When a remote failure stops [cache_builder] and the remote
    reports no empty default branch in its history answers, every line
    before the failing repository is settled in the file that was saved:
    its key is not the key of the repository, or its stored total is the
    total of the enumeration, or the repository is empty and the line is
    zeroed.  A later run over the same enumeration passes over these lines
    without a remote call, whatever the remote answers then. *)
Theorem lines_before_remote_failure_are_settled :
  (forall k req, status_code (remote k req) = 200 ->
                 json (remote k req) <> HistoryData None) ->
  forall fuel edges comment_size force_cache w e w',
    cache_builder fuel edges comment_size force_cache w = (Raise e, w') ->
    is_remote_failure e = true ->
    exists i cache_comment data,
      (i < length edges)%nat /\
      files w' !! cache_filename
        = Some (PyStr.writelines cache_comment ++ PyStr.writelines data) /\
      (forall j, (j < i)%nat ->
         exists line edge,
           data !! j = Some line /\ edges !! j = Some edge /\ settled edge line) /\
      (forall owner_id later fuel' cache_comment' w2,
         Main.reconcile USER_NAME owner_id later fuel' edges cache_comment'
           (seq 0 i) data w2 = (Ok data, w2)).
Proof.
  intros Hnonempty fuel edges cs force w e w' H He.
  unfold cache_builder, Main.cache_builder, bind in H.
  destruct (Main.load_ledger USER_NAME edges cs force w) as [r w0] eqn:Hload.
  destruct (load_ledger_state _ _ _ _ _ _ _ Hload) as (_ & _ & cached & lines & ->).
  unfold Main.reconcile_and_sum, bind in H.
  destruct (Main.reconcile _ _ _ _ _ _ _ _ _) as [[data|e1|] w1] eqn:Hrec;
    try discriminate.
  { unfold open_write in H.
    destruct (sum_loc data 0 0 _) as [[[x y]|e2|] w2] eqn:Hsum; try discriminate.
    inversion H; subst. apply sum_loc_raises in Hsum. congruence. }
  inversion H; subst. clear H.
  destruct (reconcile_raise _ _ _ _ _ _ _ _ _ _ _ Hrec He)
    as (done & i & rest & data_i & w_i & Hseq & Hdone & _ & Hfile).
  apply seq_split_at in Hseq as [-> Hi].
  destruct (reconcile_Ok _ _ _ _ _ _ _ _ _ _ _ Hdone (NoDup_seq 0 i)) as (_ & _ & Hin).
  assert (Hsettled : forall j, j ∈ seq 0 i ->
    exists line edge,
      data_i !! j = Some line /\ edges !! j = Some edge /\ settled edge line).
  { intros j Hj.
    destruct (Hin j Hj) as (old & new & edge & data1 & w1 & w2 & _ & Hedge & Hrecd & Hnew).
    exists new, edge. repeat split; try assumption.
    eapply reconciled_settled; eassumption. }
  exists i, (firstn cs lines), data_i.
  split; [exact Hi|]. split; [exact Hfile|]. split.
  - intros j Hj. apply Hsettled, elem_of_seq. lia.
  - intros owner_id later fuel' cc' w2. apply reconcile_settled. exact Hsettled.
Qed.

(** X12. The reconciliation loop writes the ledger file only when a
    remote failure stops it: when it is left in any other way (an
    exception of another kind included, such as a stored count that is not
    a number) the files are as they were when it started, and what was
    fetched for the lines before is not saved. *)
Theorem loop_writes_ledger_only_on_remote_failure :
  forall fuel edges cache_comment indices data w r w',
    reconcile fuel edges cache_comment indices data w = (r, w') ->
    (forall e, r = Raise e -> is_remote_failure e = false) ->
    files w' = files w.
Proof.
  intros fuel edges cc indices data w r w' H Hr.
  apply reconcile_run in H as [_ [Hf|(e & He & Hfail)]]; [exact Hf|].
  rewrite (Hr e He) in Hfail. discriminate.
Qed.

(** X13. Whatever the outcome of [cache_builder], the counter
    [QUERY_COUNT["recursive_loc"]] has grown by the number of requests
    posted, and no other counter has moved. *)
Theorem history_posts_are_counted :
  forall fuel edges comment_size force_cache w r w',
    cache_builder fuel edges comment_size force_cache w = (r, w') ->
    calls "recursive_loc" w' - calls "recursive_loc" w
      = Z.of_nat (length (posts w')) - Z.of_nat (length (posts w)) /\
    forall funct_id,
      funct_id <> "recursive_loc" ->
      QUERY_COUNT w' !! funct_id = QUERY_COUNT w !! funct_id.
Proof.
  intros fuel edges cs force w r w' H.
  apply cache_builder_run in H as (reqs & Hp & _ & Hc & Ho).
  split; [rewrite Hc, Hp, length_app; lia|exact Ho].
Qed.

(** X14. Whatever the outcome of [cache_builder], it posts nothing but
    history requests, each for the owner and the name of a repository of
    the enumeration it was given; earlier posts stay as they were. *)
Theorem only_enumerated_repositories_are_queried :
  forall fuel edges comment_size force_cache w r w',
    cache_builder fuel edges comment_size force_cache w = (r, w') ->
    exists reqs,
      posts w' = (posts w ++ reqs)%list /\ Forall (history_of edges) reqs.
Proof.
  intros fuel edges cs force w r w' H.
  apply cache_builder_run in H as (reqs & Hp & Ha & _).
  exists reqs. split; assumption.
Qed.

(** X15. A ledger file made of the comment block and one well-formed row
    per enumerated repository stays so through every run of
    [cache_builder] that completes: the file saved holds the same comment
    block and rows with the same keys in the same order, the totals
    returned are the sums of the additions and deletions of those rows and
    their difference, the flag is [true], and [commit_counter] then reads
    the sum of their authored commits. *)
Theorem completed_run_keeps_ledger_of_rows :
  forall fuel edges header rows w r w',
    files w !! cache_filename
      = Some (PyStr.writelines (header ++ map archive_line rows)) ->
    Forall (fun l => Shape.is_line l = true) header ->
    Forall (fun row => PyStr.is_token (fst (fst row)) = true) rows ->
    length rows = length edges ->
    cache_builder fuel edges (length header) false w = (Ok r, w') ->
    exists rows',
      map row_key rows' = map row_key rows /\
      files w' !! cache_filename
        = Some (PyStr.writelines (header ++ map archive_line rows')) /\
      r = (sum_of row_additions rows', sum_of row_deletions rows',
           sum_of row_additions rows' - sum_of row_deletions rows', true) /\
      commit_counter (length header) w' = (Ok (sum_of row_commits rows'), w').
Proof.
  intros fuel edges header rows w r w' Hf Hh Htok Hlen H.
  destruct (ledger_read_back USER_NAME header rows w Hf Hh Htok) as (Hread & _ & _).
  assert (Hlines : ledger_lines (length header) w = (header ++ map archive_line rows)%list).
  { unfold ledger_lines, Observe.ledger_lines. rewrite Hf.
    unfold open_read in Hread. rewrite Hf in Hread. congruence. }
  unfold cache_builder, Main.cache_builder, bind in H.
  rewrite load_ledger_spec in H. cbv zeta in H. rewrite Hlines in H.
  assert (Hmr : must_rebuild edges (length header) false
                  (header ++ map archive_line rows) = false).
  { unfold must_rebuild. rewrite orb_false_r. apply negb_false_iff, Z.eqb_eq.
    rewrite length_app, length_map, Hlen. lia. }
  rewrite Hmr, (opened_existing _ _ _ _ Hf) in H.
  eapply reconcile_and_sum_rows; eassumption.
Qed.

(** X16. When [cache_builder] rebuilds the ledger (no file yet, a line
    count that differs from the enumeration, or a forced refresh) from a
    comment block of complete lines and then completes, the file saved
    holds that comment block followed by one well-formed row per
    enumerated repository, keyed by the SHA-256 of its name, in the order
    of the enumeration; the totals returned are the sums over those rows,
    the flag is [false], and [commit_counter] then reads the sum of their
    authored commits. *)
Theorem rebuilt_ledger_is_a_ledger_of_rows :
  forall fuel edges comment_size force_cache w r w',
    must_rebuild edges comment_size force_cache (ledger_lines comment_size w) = true ->
    (comment_size <= length (ledger_lines comment_size w))%nat ->
    Forall (fun l => Shape.is_line l = true)
      (firstn comment_size (ledger_lines comment_size w)) ->
    cache_builder fuel edges comment_size force_cache w = (Ok r, w') ->
    exists rows',
      map row_key rows' = map (fun edge => Sha256.hexdigest (nameWithOwner edge)) edges /\
      files w' !! cache_filename
        = Some (PyStr.writelines
                  (firstn comment_size (ledger_lines comment_size w)
                   ++ map archive_line rows')) /\
      r = (sum_of row_additions rows', sum_of row_deletions rows',
           sum_of row_additions rows' - sum_of row_deletions rows', false) /\
      commit_counter comment_size w' = (Ok (sum_of row_commits rows'), w').
Proof.
  intros fuel edges cs force w r w' Hmr Hcs Hh H.
  set (header := firstn cs (ledger_lines cs w)) in *.
  assert (Hlen : length header = cs) by (subst header; rewrite length_firstn; lia).
  assert (Htok : Forall (fun row => PyStr.is_token (fst (fst row)) = true)
                   (map zero_row edges)).
  { apply Forall_map, Forall_forall. intros edge _. apply PyStrFacts.hexdigest_token. }
  assert (Hzeros : map (fun node => zero_line (Sha256.hexdigest (nameWithOwner node))) edges
                   = map archive_line (map zero_row edges)).
  { rewrite map_map. reflexivity. }
  unfold cache_builder, Main.cache_builder, bind in H.
  rewrite load_ledger_spec in H. cbv zeta in H. rewrite Hmr in H.
  unfold rebuilt in H. fold header in H. rewrite Hzeros in H.
  rewrite <- LineFacts.writelines_app in H.
  rewrite LineFacts.readlines_writelines in H.
  2:{ apply list_is_lines, Forall_app. split; [exact Hh|].
      now apply archive_lines_are_lines. }
  rewrite <- Hlen in H at 1.
  apply reconcile_and_sum_rows in H as (rows' & Hk & Hf & Hr & Hc);
    [|assumption..].
  exists rows'. rewrite Hlen in Hc.
  split; [rewrite Hk, map_map; reflexivity|]. repeat split; assumption.
Qed.

End LedgerTheorems.

(** * The further properties on concrete runs *)

Section ExtraRuns.
Import Scenario.
Import Cases.

Lemma witness_reducer_counts :
  let run := recursive_loc user me (fails_first 2) 3 "octo" "repo" [] [] 10 20 30 None 0 0
               nothing in
  run = (Ok (LocTuple 13 21 31), snd run) /\
  (let mine := authored me (commits_between (fails_first 2) nothing (snd run)) in
   13 = 10 + sum_of additions mine /\
   21 = 20 + sum_of deletions mine /\
   31 = 30 + Z.of_nat (length mine)).
Proof.
  intros run.
  assert (H : run = (Ok (LocTuple 13 21 31), snd run)) by (vm_compute; reflexivity).
  split; [exact H|].
  exact (reducer_counts_authored_commits_of_every_page user me (fails_first 2) 3
           "octo" "repo" [] [] 10 20 30 None 0 0 nothing 13 21 31 (snd run) H).
Defined.

Lemma witness_ceiling :
  let run := recursive_loc user me endless 50 "octo" "repo" [] [] 0 0 0 None 0 0 nothing in
  (50 <= 50)%nat /\
  fst run <> OutOfFuel /\
  (length (posts (snd run)) <= length (posts nothing) + 50)%nat /\
  fetched_between endless nothing (snd run) <= 5000 /\
  (forall a' d' m', fst run = Ok (LocTuple a' d' m') -> 0 <= m' <= 0 + 5000).
Proof.
  intros run.
  assert (Hnt : forall k req, is_transient (status_code (endless k req)) = false)
    by (intros k req; reflexivity).
  assert (Hfull : forall k req history,
    status_code (endless k req) = 200 ->
    json (endless k req) = HistoryData (Some history) ->
    (length (history_edges history) <= 100)%nat /\
    (hasNextPage (history_pageInfo history) = true ->
     length (history_edges history) = 100%nat)).
  { intros k req history _ Hj. unfold endless, page in Hj. cbn [json] in Hj.
    inversion Hj; subst. cbn [history_edges].
    split; [vm_compute; lia|reflexivity]. }
  split; [lia|].
  apply (commit_ceiling_without_transient_failure user me endless Hnt Hfull 50
           "octo" "repo" [] [] 0 0 0 None 0 nothing (fst run) (snd run));
    [lia|apply surjective_pairing].
Defined.

Lemma witness_enumeration :
  let pages := [([repo (Some 3)], Some "p2")] in
  served user two_pages ["OWNER"] (length (posts nothing)) None pages [other] /\
  (let w1 := after_enumeration (enumeration user ["OWNER"] None pages) nothing in
   loc_query user me two_pages (length pages + 6) ["OWNER"] 1 false None [] nothing =
   cache_builder user me two_pages 5 ([] ++ concat (map fst pages) ++ [other])%list
     1 false w1 /\
   posts w1 = (posts nothing ++ enumeration user ["OWNER"] None pages)%list /\
   files w1 = files nothing /\
   sleeps w1 = sleeps nothing /\
   calls "loc_query" w1 = calls "loc_query" nothing + Z.of_nat (length pages) + 1).
Proof.
  intros pages.
  assert (H : served user two_pages ["OWNER"] (length (posts nothing)) None pages [other]).
  { cbn. split; [reflexivity|]. split; [reflexivity|]. split; [reflexivity|].
    eexists. split; reflexivity. }
  split; [exact H|].
  exact (enumeration_hands_all_pages_to_cache_builder user me two_pages 5 ["OWNER"] 1
           false pages [other] None [] nothing H).
Defined.

Lemma witness_refused_enumeration :
  let pages := [([repo (Some 3)], Some "p2")] in
  refused user second_page_down ["OWNER"] (length (posts nothing)) None pages 502 /\
  exists w',
    loc_query user me second_page_down (length pages + 6) ["OWNER"] 1 false None []
      nothing = (Raise (RequestFailed "loc_query" 502), w') /\
    posts w' = (posts nothing ++ enumeration user ["OWNER"] None pages)%list /\
    files w' = files nothing /\
    sleeps w' = sleeps nothing.
Proof.
  intros pages.
  assert (H : refused user second_page_down ["OWNER"] (length (posts nothing)) None
                pages 502).
  { cbn. split; [reflexivity|]. split; [reflexivity|]. split; [reflexivity|lia]. }
  split; [exact H|].
  exact (refused_enumeration_page_ends_the_run user me second_page_down 5 ["OWNER"] 1
           false pages 502 None [] nothing H).
Defined.

Lemma witness_current_ledger :
  let w := ledger ([header] ++ map archive_line rows) in
  files w !! cache_filename user
    = Some (PyStr.writelines ([header] ++ map archive_line rows)) /\
  cache_builder user me two_commits 5 [repo (Some 3); other] (length [header]) false w =
  (Ok (sum_of row_additions rows, sum_of row_deletions rows,
       sum_of row_additions rows - sum_of row_deletions rows, true), w).
Proof.
  intros w.
  assert (Hf : files w !! cache_filename user
               = Some (PyStr.writelines ([header] ++ map archive_line rows)))
    by (vm_compute; reflexivity).
  split; [exact Hf|].
  apply (current_ledger_is_answered_from_file user me two_commits 5
           [repo (Some 3); other] [header] rows w Hf).
  - repeat constructor.
  - repeat constructor; vm_compute; reflexivity.
Defined.

Lemma witness_commit_counter :
  let w := ledger ([header] ++ map archive_line rows) in
  files w !! cache_filename user
    = Some (PyStr.writelines ([header] ++ map archive_line rows)) /\
  commit_counter user (length [header]) w = (Ok (sum_of row_commits rows), w).
Proof.
  intros w.
  assert (Hf : files w !! cache_filename user
               = Some (PyStr.writelines ([header] ++ map archive_line rows)))
    by (vm_compute; reflexivity).
  split; [exact Hf|].
  apply (commit_counter_sums_authored_commits user [header] rows w Hf).
  - repeat constructor.
  - repeat constructor; vm_compute; reflexivity.
Defined.

Lemma witness_short_ledger :
  let w := ledger [header] in
  let run := cache_builder user me two_commits 5 [repo (Some 5)] 2 false w in
  (length (ledger_lines user 2 w) < 2)%nat /\
  [repo (Some 5)] <> [] /\
  fst run = Raise IndexError /\
  run <> (Ok (0, 0, 0, false), snd run).
Proof.
  intros w run.
  assert (H1 : (length (ledger_lines user 2 w) < 2)%nat) by (vm_compute; lia).
  assert (H2 : [repo (Some 5)] <> []) by discriminate.
  split; [exact H1|]. split; [exact H2|]. split; [vm_compute; reflexivity|].
  exact (short_ledger_never_completes user me two_commits 5 [repo (Some 5)] 2 false w
           (0, 0, 0, false) (snd run) H1 H2).
Defined.

Lemma witness_lines_before_failure :
  let edges := [repo (Some 5); other] in
  let run := cache_builder user me serves_once 5 edges 1 false
               (ledger [header; stale_line; tool_line]) in
  run = (Raise RateLimited, snd run) /\
  is_remote_failure RateLimited = true /\
  exists i cache_comment data,
    (i < length edges)%nat /\
    files (snd run) !! cache_filename user
      = Some (PyStr.writelines cache_comment ++ PyStr.writelines data) /\
    (forall j, (j < i)%nat ->
       exists line edge,
         data !! j = Some line /\ edges !! j = Some edge /\ settled edge line) /\
    (forall owner_id later fuel' cache_comment' w2,
       reconcile user owner_id later fuel' edges cache_comment' (seq 0 i) data w2
         = (Ok data, w2)).
Proof.
  intros edges run.
  assert (Hne : forall k req, status_code (serves_once k req) = 200 ->
                              json (serves_once k req) <> HistoryData None).
  { intros k req. unfold serves_once. destruct (k =? 0)%nat; cbn; discriminate. }
  assert (H : run = (Raise RateLimited, snd run)) by (vm_compute; reflexivity).
  split; [exact H|]. split; [reflexivity|].
  exact (lines_before_remote_failure_are_settled user me serves_once Hne 5 edges 1 false
           (ledger [header; stale_line; tool_line]) RateLimited (snd run) H eq_refl).
Defined.

Lemma witness_loop_no_write :
  let start := ledger [header; stale_line; garbled_line] in
  let run := reconcile user me two_commits 5 [repo (Some 5); other] [header] [0; 1]%nat
               [stale_line; garbled_line] start in
  fst run = Raise ValueError /\
  posts (snd run) = [HistoryPage "octo" "repo" None] /\
  files (snd run) = files start.
Proof.
  intros start run.
  assert (H : fst run = Raise ValueError) by (vm_compute; reflexivity).
  split; [exact H|]. split; [vm_compute; reflexivity|].
  apply (loop_writes_ledger_only_on_remote_failure user me two_commits 5
           [repo (Some 5); other] [header] [0; 1]%nat [stale_line; garbled_line] start
           (fst run) (snd run)).
  - apply surjective_pairing.
  - intros e He. rewrite H in He. inversion He. reflexivity.
Defined.

Lemma witness_counted_posts :
  let start := ledger [header; stale_line] in
  let run := cache_builder user me two_commits 5 [repo (Some 5)] 1 false start in
  posts (snd run) = [HistoryPage "octo" "repo" None] /\
  calls "recursive_loc" (snd run) - calls "recursive_loc" start
    = Z.of_nat (length (posts (snd run))) - Z.of_nat (length (posts start)) /\
  forall funct_id,
    funct_id <> "recursive_loc" ->
    QUERY_COUNT (snd run) !! funct_id = QUERY_COUNT start !! funct_id.
Proof.
  intros start run. split; [vm_compute; reflexivity|].
  apply (history_posts_are_counted user me two_commits 5 [repo (Some 5)] 1 false start
           (fst run) (snd run)).
  apply surjective_pairing.
Defined.

Lemma witness_enumerated_only :
  let start := ledger [header; stale_line] in
  let run := cache_builder user me two_commits 5 [repo (Some 5)] 1 false start in
  fst run = Ok (6, 2, 4, true) /\
  exists reqs,
    posts (snd run) = (posts start ++ reqs)%list /\
    Forall (history_of [repo (Some 5)]) reqs.
Proof.
  intros start run. split; [vm_compute; reflexivity|].
  apply (only_enumerated_repositories_are_queried user me two_commits 5
           [repo (Some 5)] 1 false start (fst run) (snd run)).
  apply surjective_pairing.
Defined.

Lemma witness_ledger_of_rows :
  let start := ledger ([header] ++ map archive_line rows) in
  let run := cache_builder user me two_commits 5 [repo (Some 5); other] (length [header])
               false start in
  run = (Ok (13, 3, 10, true), snd run) /\
  exists rows',
    map row_key rows' = map row_key rows /\
    files (snd run) !! cache_filename user
      = Some (PyStr.writelines ([header] ++ map archive_line rows')) /\
    (13, 3, 10, true)
      = (sum_of row_additions rows', sum_of row_deletions rows',
         sum_of row_additions rows' - sum_of row_deletions rows', true) /\
    commit_counter user (length [header]) (snd run)
      = (Ok (sum_of row_commits rows'), snd run).
Proof.
  intros start run.
  assert (H : run = (Ok (13, 3, 10, true), snd run)) by (vm_compute; reflexivity).
  split; [exact H|].
  apply (completed_run_keeps_ledger_of_rows user me two_commits 5
           [repo (Some 5); other] [header] rows start (13, 3, 10, true) (snd run)).
  - vm_compute; reflexivity.
  - repeat constructor.
  - repeat constructor; vm_compute; reflexivity.
  - reflexivity.
  - exact H.
Defined.

Lemma witness_first_run :
  let edges := [repo (Some 5)] in
  let run := cache_builder user me two_commits 5 edges 1 false nothing in
  must_rebuild edges 1 false (ledger_lines user 1 nothing) = true /\
  run = (Ok (6, 2, 4, false), snd run) /\
  exists rows',
    map row_key rows' = map (fun edge => Sha256.hexdigest (nameWithOwner edge)) edges /\
    files (snd run) !! cache_filename user
      = Some (PyStr.writelines
                (firstn 1 (ledger_lines user 1 nothing) ++ map archive_line rows')) /\
    (6, 2, 4, false)
      = (sum_of row_additions rows', sum_of row_deletions rows',
         sum_of row_additions rows' - sum_of row_deletions rows', false) /\
    commit_counter user 1 (snd run) = (Ok (sum_of row_commits rows'), snd run).
Proof.
  intros edges run.
  assert (Hmr : must_rebuild edges 1 false (ledger_lines user 1 nothing) = true)
    by (vm_compute; reflexivity).
  assert (H : run = (Ok (6, 2, 4, false), snd run)) by (vm_compute; reflexivity).
  split; [exact Hmr|]. split; [exact H|].
  apply (rebuilt_ledger_is_a_ledger_of_rows user me two_commits 5 edges 1 false nothing
           (6, 2, 4, false) (snd run) Hmr).
  - vm_compute; lia.
  - repeat constructor.
  - exact H.
Defined.

End ExtraRuns.
